(** * Metadata reconciliation engine (Chama domain): a shallow embedding

    The development follows five services of [src/domains/chama/services]:
    - [system/from_system_service.py]            (module [FromSystem])
    - [system/etl_system_comparator_service.py]  (module [SystemComparator])
    - [s3/s3_comparator_service.py]              (module [S3Comparator])
    - [consolidated/consolidated_metadata_service.py] (module [Consolidated])
    - [documentation/documentation_service.py]   (module [Documentation])
    and the script [src/scripts/chama/chama_consolidated_to_csv.py]
    (module [CsvExport]).

    Documents are the parsed JSON the services exchange.  A Python [dict] that
    is only read through [d.get(k, default)] is a record whose slots are
    [option]s ([None] = key absent); a value read from such a slot is a
    [pyval]: a JSON string or JSON null.  Python strings are modelled as
    byte strings holding ASCII text.  A call that Python would abort with an
    exception returns [Raise e] in the [result] monad.  The [generated_at]
    timestamps and the console output of the services are left out. *)

From Stdlib Require Import String Ascii.
From stdpp Require Import base option list sorting gmap strings pretty.

Local Open Scope string_scope.
Local Open Scope list_scope.
#[local] Set Warnings "-clear-no-such-hyp".

(** ** Python values, truthiness and exceptions *)

Module Py.

(** The one exception the modelled code can raise on such documents: a
    method call on [None]. *)
Inductive exn : Type :=
  | AttributeError.

Inductive result (A : Type) : Type :=
  | Ok (a : A)
  | Raise (e : exn).
Global Arguments Ok {A} a.
Global Arguments Raise {A} e.

Global Instance result_ret : MRet result := λ A, Ok.
Global Instance result_bind : MBind result := λ A B f m,
  match m with
  | Ok a => f a
  | Raise e => Raise e
  end.

(** A value stored under a name-like key: JSON null or a JSON string. *)
Inductive pyval : Type :=
  | PyNone
  | PyStr (s : string).

Global Instance pyval_eq_dec : EqDecision pyval.
Proof. solve_decision. Defined.

(** [bool(v)]: [None] and [''] are falsy. *)
Definition truthy (v : pyval) : bool :=
  match v with
  | PyNone => false
  | PyStr EmptyString => false
  | PyStr (String _ _) => true
  end.

(** [d.get(k, default)] on a slot of a record-shaped dict. *)
Definition get {A} (slot : option A) (dflt : A) : A :=
  match slot with
  | Some v => v
  | None => dflt
  end.

(** [str.lower()] on ASCII text. *)
Definition lower_char (c : ascii) : ascii :=
  let n := nat_of_ascii c in
  if (65 <=? n)%nat && (n <=? 90)%nat then ascii_of_nat (n + 32) else c.

Fixpoint str_lower (s : string) : string :=
  match s with
  | EmptyString => EmptyString
  | String c s' => String (lower_char c) (str_lower s')
  end.

(** [str.isspace()] on one ASCII character: TAB, LF, VT, FF, CR, the four
    separators 0x1c-0x1f and the space. *)
Definition is_space (c : ascii) : bool :=
  let n := nat_of_ascii c in
  ((9 <=? n)%nat && (n <=? 13)%nat) || ((28 <=? n)%nat && (n <=? 32)%nat).

Fixpoint str_lstrip (s : string) : string :=
  match s with
  | EmptyString => EmptyString
  | String c s' => if is_space c then str_lstrip s' else s
  end.

(** [str.strip()] without arguments. *)
Definition str_strip (s : string) : string :=
  String.rev (str_lstrip (String.rev (str_lstrip s))).

(** [v.lower()]: an attribute lookup, which fails on [None]. *)
Definition lower (v : pyval) : result string :=
  match v with
  | PyStr s => Ok (str_lower s)
  | PyNone => Raise AttributeError
  end.

(** [for x in xs: acc = body(acc, x)], stopping at the first exception. *)
Fixpoint for_fold {A S} (body : S → A → result S) (acc : S) (xs : list A)
  : result S :=
  match xs with
  | [] => Ok acc
  | x :: xs' => acc' ← body acc x; for_fold body acc' xs'
  end.

(** [for x in xs: out.append(body(x))], stopping at the first exception. *)
Fixpoint for_map {A B} (body : A → result B) (xs : list A)
  : result (list B) :=
  match xs with
  | [] => Ok []
  | x :: xs' => y ← body x; ys ← for_map body xs'; Ok (y :: ys)
  end.

End Py.
Import Py.

(** ** Insertion-ordered dictionaries

    A Python [dict] iterates in insertion order; [d[k] = v] on a key that is
    already present replaces the value and keeps the key's position. *)

Module PyDict.
Section dict.
Context {K V : Type} `{EqDecision K}.

(** [d[k] = v] *)
Fixpoint set (d : list (K * V)) (k : K) (v : V) : list (K * V) :=
  match d with
  | [] => [(k, v)]
  | (k', v') :: d' =>
      if decide (k = k') then (k', v) :: d' else (k', v') :: set d' k v
  end.

(** [d.get(k)] *)
Fixpoint lookup (d : list (K * V)) (k : K) : option V :=
  match d with
  | [] => None
  | (k', v') :: d' => if decide (k = k') then Some v' else lookup d' k
  end.

(** [k in d] *)
Definition mem (k : K) (d : list (K * V)) : bool :=
  bool_decide (is_Some (lookup d k)).

(** [d.keys()] *)
Definition keys (d : list (K * V)) : list K := d.*1.

(** [{key(x): val(x) for x in xs}] *)
Definition comprehension {A} (key : A → K) (val : A → V) (xs : list A)
  : list (K * V) :=
  foldl (λ d x, set d (key x) (val x)) [] xs.
End dict.
End PyDict.

(** [sorted(names)] on strings: ascending in the order of [str.__lt__],
    which compares code points position by position. *)
Definition sorted (names : list string) : list string :=
  merge_sort String.le names.

(** ** Input documents *)

Module Doc.

(** One entry of [fields[]]: [{from_santander, laborit, type}]. *)
Record Field : Type := mkField {
  from_santander : option pyval;
  laborit : option pyval;
  type_ : option pyval
}.

(** One entry of [mappings[]]: [{map, table, fields}]; an absent [fields]
    key reads as the empty list. *)
Record Mapping : Type := mkMapping {
  map_ : option pyval;
  table : option pyval;
  fields : list Field
}.

(** One entry of [files[]].  The comparator indexes [file_data['name']], so
    the key is required and holds a string; an absent [mappings] key reads as
    the empty list. *)
Record File : Type := mkFile {
  name : string;
  mappings : list Mapping
}.

(** ETL metadata and S3 metadata share this shape; an absent [files] key
    reads as the empty list. *)
Record Metadata : Type := mkMetadata {
  files : list File
}.

(** The value under [colunas_nao_utilizadas]. *)
Inductive unused_columns : Type :=
  | UnusedDict (d : list (string * pyval))
  | UnusedList (l : list pyval)
  | UnusedOther.

(** One entry of the system-usage document. *)
Record SystemItem : Type := mkSystemItem {
  tabela : option pyval;
  colunas_nao_utilizadas : option unused_columns
}.

End Doc.

(** ** [system/from_system_service.py] *)

Module FromSystem.

(** [ChamaFromSystemService._normalize_name] *)
Definition _normalize_name (name : pyval) : result string :=
  lowered ← lower name; Ok (str_strip lowered).

(** [ChamaFromSystemService._load_system_metadata].  [system_file] is the
    content of [system_metadata_path]: [None] when the path does not exist. *)
Definition _load_system_metadata (system_file : option (list Doc.SystemItem))
  : list (pyval * Doc.SystemItem) :=
  let system_metadata := get system_file [] in
  foldl (λ system_map item,
           let tabela := get (Doc.tabela item) (PyStr EmptyString) in
           if truthy tabela then PyDict.set system_map tabela item
           else system_map)
        [] system_metadata.

(** One value of [unused_columns_mapping]. *)
Record UnusedName : Type := mkUnusedName {
  portuguese_name : string;
  english_name : pyval
}.

(** Lines 68-75: the body of the loop over the dict encoding
    [{portuguese_name: english_name}]. *)
Definition dict_step (st : gset string * list (string * UnusedName))
    (item : string * pyval)
  : result (gset string * list (string * UnusedName)) :=
  let '(unused_columns_set, unused_columns_mapping) := st in
  let '(pt_name, en_name) := item in
  if decide (en_name ≠ PyNone) then
    normalized ← _normalize_name en_name;
    Ok ({[ normalized ]} ∪ unused_columns_set,
        PyDict.set unused_columns_mapping normalized
          (mkUnusedName pt_name en_name))
  else Ok (unused_columns_set, unused_columns_mapping).

(** Lines 78-80: the body of the loop over the list encoding
    [[english_name1, english_name2, ...]]. *)
Definition list_step (st : gset string * list (string * UnusedName))
    (en_name : pyval)
  : result (gset string * list (string * UnusedName)) :=
  let '(unused_columns_set, unused_columns_mapping) := st in
  if decide (en_name ≠ PyNone) then
    normalized ← _normalize_name en_name;
    Ok ({[ normalized ]} ∪ unused_columns_set, unused_columns_mapping)
  else Ok (unused_columns_set, unused_columns_mapping).

(** [ChamaFromSystemService._get_unused_columns].  [system_data] is a usage
    record, or [None] for the empty dict [{}] the caller passes when the
    table has no record. *)
Definition _get_unused_columns (system_data : option Doc.SystemItem)
  : result (gset string * list (string * UnusedName)) :=
  let unused_columns_dict :=
    get (system_data ≫= Doc.colunas_nao_utilizadas) (Doc.UnusedDict []) in
  match unused_columns_dict with
  | Doc.UnusedDict items => for_fold dict_step (∅, []) items
  | Doc.UnusedList names => for_fold list_step (∅, []) names
  | Doc.UnusedOther => Ok (∅, [])
  end.

End FromSystem.

(** ** [system/etl_system_comparator_service.py] *)

Module SystemComparator.

(** [ChamaETLSystemComparatorService.normalize_column_name] *)
Definition normalize_column_name (col_name : pyval) : result string :=
  if truthy col_name then lowered ← lower col_name; Ok (str_strip lowered)
  else Ok EmptyString.

Record FieldWithUsage : Type := mkFieldWithUsage {
  from_santander : pyval;
  laborit : pyval;
  type_ : pyval;
  is_used_in_system : bool
}.

Record Statistics : Type := mkStatistics {
  total_fields : nat;
  used_count : nat;
  unused_count : nat
}.

Record MappingComparison : Type := mkMappingComparison {
  map_ : pyval;
  table : pyval;
  has_system_data : bool;
  fields : list FieldWithUsage;
  statistics : Statistics;
  system_unused_columns_count : nat
}.

Record FileComparison : Type := mkFileComparison {
  file_name : string;
  mappings : list MappingComparison
}.

Record WithoutSystem : Type := mkWithoutSystem {
  ws_file_name : string;
  ws_map : pyval;
  ws_table : pyval;
  ws_fields_count : nat
}.

Record Comparison : Type := mkComparison {
  etl_total_files : nat;
  system_total_tables : nat;
  files : list FileComparison;
  etl_without_system : list WithoutSystem;
  etl_without_system_count : nat
}.

(** Lines 104-129: the loop over one mapping's fields, threading
    [(fields_with_usage, used_count, unused_count)]. *)
Definition usage_step (unused_columns_set : gset string)
    (st : list FieldWithUsage * nat * nat) (field : Doc.Field)
  : result (list FieldWithUsage * nat * nat) :=
  let '(fields_with_usage, used_count, unused_count) := st in
  let laborit_name := get (Doc.laborit field) (PyStr EmptyString) in
  normalized_laborit ← normalize_column_name laborit_name;
  let is_unused := bool_decide (normalized_laborit ∈ unused_columns_set) in
  let is_used := negb is_unused in
  let field_with_usage :=
    {| from_santander := get (Doc.from_santander field) (PyStr EmptyString);
       laborit := laborit_name;
       type_ := get (Doc.type_ field) (PyStr EmptyString);
       is_used_in_system := is_used |} in
  let fields_with_usage := fields_with_usage ++ [field_with_usage] in
  if is_used then Ok (fields_with_usage, used_count + 1, unused_count)
  else Ok (fields_with_usage, used_count, unused_count + 1).

(** Lines 92-144: one mapping. *)
Definition compare_mapping (system_map : list (pyval * Doc.SystemItem))
    (mapping : Doc.Mapping) : result MappingComparison :=
  let mapping_name := get (Doc.map_ mapping) (PyStr EmptyString) in
  let table_name := get (Doc.table mapping) (PyStr EmptyString) in
  let fields := Doc.fields mapping in
  let system_data := PyDict.lookup system_map table_name in
  '(unused_columns_set, unused_columns_mapping) ←
    FromSystem._get_unused_columns system_data;
  '(fields_with_usage, used_count, unused_count) ←
    for_fold (usage_step unused_columns_set) ([], 0, 0) fields;
  Ok {| map_ := mapping_name;
        table := table_name;
        has_system_data := bool_decide (is_Some system_data);
        fields := fields_with_usage;
        statistics :=
          {| total_fields := length fields_with_usage;
             used_count := used_count;
             unused_count := unused_count |};
        system_unused_columns_count := size unused_columns_set |}.

(** Lines 82-149: one ETL file. *)
Definition compare_file (system_map : list (pyval * Doc.SystemItem))
    (etl_file : Doc.File) : result FileComparison :=
  let file_name := Doc.name etl_file in
  let mappings := Doc.mappings etl_file in
  mapping_comparisons ← for_map (compare_mapping system_map) mappings;
  Ok {| file_name := file_name; mappings := mapping_comparisons |}.

(** Lines 151-162: mappings whose table has no usage record. *)
Definition without_system (system_map : list (pyval * Doc.SystemItem))
    (etl_files_list : list Doc.File) : list WithoutSystem :=
  etl_file ← etl_files_list;
  mapping ← Doc.mappings etl_file;
  let table_name := get (Doc.table mapping) (PyStr EmptyString) in
  if negb (PyDict.mem table_name system_map) then
    [ {| ws_file_name := Doc.name etl_file;
         ws_map := get (Doc.map_ mapping) (PyStr EmptyString);
         ws_table := table_name;
         ws_fields_count := length (Doc.fields mapping) |} ]
  else [].

(** [ChamaETLSystemComparatorService.compare_metadatas].  The service reads
    the usage document again from [system_metadata_path]; [system_file] is
    that file's content.  [system_metadata] is the argument, used for the
    header count alone. *)
Definition compare_metadatas (system_file : option (list Doc.SystemItem))
    (etl_metadata : Doc.Metadata) (system_metadata : list Doc.SystemItem)
  : result Comparison :=
  let etl_files_list := Doc.files etl_metadata in
  let system_map := FromSystem._load_system_metadata system_file in
  file_comparisons ← for_map (compare_file system_map) etl_files_list;
  let etl_without_system := without_system system_map etl_files_list in
  Ok {| etl_total_files := length etl_files_list;
        system_total_tables := length system_metadata;
        files := file_comparisons;
        etl_without_system := etl_without_system;
        etl_without_system_count := length etl_without_system |}.

(** The totals [compare] prints after writing (lines 206-219). *)
Record Totals : Type := mkTotals {
  printed_total_fields : nat;
  printed_total_used : nat;
  printed_total_unused : nat
}.

(** Lines 207-215: the loop that adds up the statistics of every mapping. *)
Definition add_totals (comparison_result : Comparison) : Totals :=
  foldl (λ totals file_comp,
           foldl (λ totals mapping_comp,
                    let stats := statistics mapping_comp in
                    {| printed_total_fields :=
                         printed_total_fields totals + total_fields stats;
                       printed_total_used :=
                         printed_total_used totals + used_count stats;
                       printed_total_unused :=
                         printed_total_unused totals + unused_count stats |})
                 totals (mappings file_comp))
        {| printed_total_fields := 0;
           printed_total_used := 0;
           printed_total_unused := 0 |}
        (files comparison_result).

(** [ChamaETLSystemComparatorService.compare].  The two arguments are the
    contents of [etl_metadata_path] and [system_metadata_path], [None] for a
    path that does not exist; the result is the comparison written to
    [etl_vs_system_metadata.json] with the printed totals, [None] when the
    service returns before writing. *)
Definition compare (etl_metadata_file : option Doc.Metadata)
    (system_metadata_file : option (list Doc.SystemItem))
  : result (option (Comparison * Totals)) :=
  let etl_metadata := get etl_metadata_file {| Doc.files := [] |} in
  match Doc.files etl_metadata with
  | [] => Ok None
  | _ :: _ =>
      let system_metadata := get system_metadata_file [] in
      match system_metadata with
      | [] => Ok None
      | _ :: _ =>
          comparison_result ←
            compare_metadatas system_metadata_file etl_metadata
              system_metadata;
          Ok (Some (comparison_result, add_totals comparison_result))
      end
  end.

End SystemComparator.

(** ** [s3/s3_comparator_service.py] *)

Module S3Comparator.

(** [ChamaS3ComparatorService.normalize_column_name] *)
Definition normalize_column_name (col_name : pyval) : result string :=
  lowered ← lower col_name; Ok (str_strip lowered).

(** A value of [s3_fields_map] / [etl_fields_map] (lines 91-95, 105-109),
    also the shape of the entries of [fields_only_in_s3] and
    [fields_only_in_etl]. *)
Record FieldInfo : Type := mkFieldInfo {
  from_santander : pyval;
  laborit : pyval;
  type_ : pyval
}.

(** An entry of [fields_in_both]. *)
Record FieldInBoth : Type := mkFieldInBoth {
  both_from_santander : pyval;
  s3_laborit : pyval;
  s3_type : pyval;
  etl_laborit : pyval;
  etl_type : pyval
}.

Record ComparisonItem : Type := mkComparisonItem {
  file_name : string;
  has_s3_file : bool;
  has_etl_file : bool;
  s3_mappings_count : nat;
  etl_mappings_count : nat;
  s3_fields_count : nat;
  etl_fields_count : nat;
  fields_in_both_count : nat;
  fields_only_in_s3_count : nat;
  fields_only_in_etl_count : nat;
  fields_in_both : list FieldInBoth;
  fields_only_in_s3 : list FieldInfo;
  fields_only_in_etl : list FieldInfo
}.

Record WithoutS3 : Type := mkWithoutS3 {
  ws_file_name : string;
  ws_mappings_count : nat;
  ws_fields_count : nat
}.

Record Comparison : Type := mkComparison {
  s3_total_files : nat;
  etl_total_files : nat;
  comparisons : list ComparisonItem;
  etl_files_without_s3 : list WithoutS3;
  etl_files_without_s3_count : nat
}.

(** The body of the two nested loops, lines 88-95 and again 102-109. *)
Definition collect_step (fields_map : list (string * FieldInfo))
    (field : Doc.Field) : result (list (string * FieldInfo)) :=
  let from_santander := get (Doc.from_santander field) (PyStr EmptyString) in
  if truthy from_santander then
    normalized ← normalize_column_name from_santander;
    Ok (PyDict.set fields_map normalized
          {| from_santander := from_santander;
             laborit := get (Doc.laborit field) (PyStr EmptyString);
             type_ := get (Doc.type_ field) (PyStr EmptyString) |})
  else Ok fields_map.

(** Lines 84-95 (S3 side) and 98-109 (ETL side): the flattened
    normalized-name → field map of one file; [file_data] is [None] when the
    file is not in that document. *)
Definition collect_fields (file_data : option Doc.File)
  : result (list (string * FieldInfo)) :=
  match file_data with
  | Some file_data =>
      for_fold (λ fields_map mapping,
                  for_fold collect_step fields_map (Doc.fields mapping))
               [] (Doc.mappings file_data)
  | None => Ok []
  end.

(** Lines 116-131: the body of the first partition loop, over
    [s3_fields_map.items()]. *)
Definition s3_step (etl_fields_map : list (string * FieldInfo))
    (st : list FieldInBoth * list FieldInfo) (item : string * FieldInfo)
  : list FieldInBoth * list FieldInfo :=
  let '(fields_in_both, fields_only_in_s3) := st in
  let '(s3_norm, s3_field) := item in
  match PyDict.lookup etl_fields_map s3_norm with
  | Some etl_field =>
      (fields_in_both ++
         [ {| both_from_santander := from_santander s3_field;
              s3_laborit := laborit s3_field;
              s3_type := type_ s3_field;
              etl_laborit := laborit etl_field;
              etl_type := type_ etl_field |} ],
       fields_only_in_s3)
  | None =>
      (fields_in_both,
       fields_only_in_s3 ++
         [ {| from_santander := from_santander s3_field;
              laborit := laborit s3_field;
              type_ := type_ s3_field |} ])
  end.

Definition partition_s3
    (s3_fields_map etl_fields_map : list (string * FieldInfo))
  : list FieldInBoth * list FieldInfo :=
  foldl (s3_step etl_fields_map) ([], []) s3_fields_map.

(** Lines 133-139: the body of the second partition loop, over
    [etl_fields_map.items()]. *)
Definition etl_step (s3_fields_map : list (string * FieldInfo))
    (fields_only_in_etl : list FieldInfo) (item : string * FieldInfo)
  : list FieldInfo :=
  let '(etl_norm, etl_field) := item in
  if negb (PyDict.mem etl_norm s3_fields_map) then
    fields_only_in_etl ++
      [ {| from_santander := from_santander etl_field;
           laborit := laborit etl_field;
           type_ := type_ etl_field |} ]
  else fields_only_in_etl.

Definition partition_etl
    (s3_fields_map etl_fields_map : list (string * FieldInfo))
  : list FieldInfo :=
  foldl (etl_step s3_fields_map) [] etl_fields_map.

(** Lines 80-159: the comparison item of one file name. *)
Definition compare_file (s3_files_map etl_files_map : list (string * Doc.File))
    (file_name : string) : result ComparisonItem :=
  let s3_file_data := PyDict.lookup s3_files_map file_name in
  let etl_file_data := PyDict.lookup etl_files_map file_name in
  s3_fields_map ← collect_fields s3_file_data;
  etl_fields_map ← collect_fields etl_file_data;
  let '(fields_in_both, fields_only_in_s3) :=
    partition_s3 s3_fields_map etl_fields_map in
  let fields_only_in_etl := partition_etl s3_fields_map etl_fields_map in
  let s3_total_fields := length s3_fields_map in
  let etl_total_fields := length etl_fields_map in
  Ok {| file_name := file_name;
        has_s3_file := bool_decide (is_Some s3_file_data);
        has_etl_file := bool_decide (is_Some etl_file_data);
        s3_mappings_count :=
          from_option (λ d, length (Doc.mappings d)) 0 s3_file_data;
        etl_mappings_count :=
          from_option (λ d, length (Doc.mappings d)) 0 etl_file_data;
        s3_fields_count := s3_total_fields;
        etl_fields_count := etl_total_fields;
        fields_in_both_count := length fields_in_both;
        fields_only_in_s3_count := length fields_only_in_s3;
        fields_only_in_etl_count := length fields_only_in_etl;
        fields_in_both := fields_in_both;
        fields_only_in_s3 := fields_only_in_s3;
        fields_only_in_etl := fields_only_in_etl |}.

(** Lines 166-175: ETL files that have no S3 file of the same name. *)
Definition without_s3 (s3_files_map etl_files_map : list (string * Doc.File))
  : list WithoutS3 :=
  '(file_name, etl_file_data) ← etl_files_map;
  if negb (PyDict.mem file_name s3_files_map) then
    let total_fields :=
      sum_list ((λ m, length (Doc.fields m)) <$> Doc.mappings etl_file_data) in
    [ {| ws_file_name := file_name;
         ws_mappings_count := length (Doc.mappings etl_file_data);
         ws_fields_count := total_fields |} ]
  else [].

(** [ChamaS3ComparatorService.compare_metadatas] *)
Definition compare_metadatas (s3_metadata etl_metadata : Doc.Metadata)
  : result Comparison :=
  let s3_files_list := Doc.files s3_metadata in
  let etl_files_list := Doc.files etl_metadata in
  let s3_files_map := PyDict.comprehension Doc.name id s3_files_list in
  let etl_files_map := PyDict.comprehension Doc.name id etl_files_list in
  let all_file_names : gset string :=
    list_to_set (PyDict.keys s3_files_map)
    ∪ list_to_set (PyDict.keys etl_files_map) in
  comparisons ←
    for_map (compare_file s3_files_map etl_files_map)
            (sorted (elements all_file_names));
  let etl_without_s3 := without_s3 s3_files_map etl_files_map in
  Ok {| s3_total_files := length s3_files_list;
        etl_total_files := length etl_files_list;
        comparisons := comparisons;
        etl_files_without_s3 := etl_without_s3;
        etl_files_without_s3_count := length etl_without_s3 |}.

(** [ChamaS3ComparatorService.compare].  The two arguments are the contents
    of [s3_metadata_path] and [etl_metadata_path], [None] for a path that
    does not exist; the result is the comparison written to
    [s3_vs_etl_metadata.json], [None] when the service returns before
    writing. *)
Definition compare (s3_metadata_file etl_metadata_file : option Doc.Metadata)
  : result (option Comparison) :=
  let s3_metadata := get s3_metadata_file {| Doc.files := [] |} in
  match Doc.files s3_metadata with
  | [] => Ok None
  | _ :: _ =>
      let etl_metadata := get etl_metadata_file {| Doc.files := [] |} in
      match Doc.files etl_metadata with
      | [] => Ok None
      | _ :: _ =>
          comparison_result ← compare_metadatas s3_metadata etl_metadata;
          Ok (Some comparison_result)
      end
  end.

End S3Comparator.

(** ** [consolidated/consolidated_metadata_service.py] *)

Module Consolidated.

(** [ChamaConsolidatedMetadataService._normalize_name] *)
Definition _normalize_name (name : pyval) : result string :=
  lowered ← lower name; Ok (str_strip lowered).

(** The two scanning loops of [_check_field_in_s3] (lines 40-43, 46-49):
    return [True] at the first entry whose normalized name matches. *)
Fixpoint scan_fields {A} (from_santander_of : A → pyval) (entries : list A)
    (normalized_from_santander : string) : result bool :=
  match entries with
  | [] => Ok false
  | field :: entries' =>
      let s3_from_santander := from_santander_of field in
      normalized ← _normalize_name s3_from_santander;
      if decide (normalized = normalized_from_santander) then Ok true
      else scan_fields from_santander_of entries' normalized_from_santander
  end.

(** [ChamaConsolidatedMetadataService._check_field_in_s3].  [s3_comparison]
    is the comparison item of the file, or [None] for the empty dict the
    caller passes when there is none. *)
Definition _check_field_in_s3 (from_santander : pyval)
    (s3_comparison : option S3Comparator.ComparisonItem) : result bool :=
  match s3_comparison with
  | None => Ok false
  | Some comp =>
      normalized_from_santander ← _normalize_name from_santander;
      in_both ← scan_fields S3Comparator.both_from_santander
                  (S3Comparator.fields_in_both comp) normalized_from_santander;
      if (in_both : bool) then Ok true
      else
        only_s3 ← scan_fields S3Comparator.from_santander
                    (S3Comparator.fields_only_in_s3 comp)
                    normalized_from_santander;
        if (only_s3 : bool) then Ok true else Ok false
  end.

Record ConsolidatedField : Type := mkConsolidatedField {
  from_santander : pyval;
  laborit : pyval;
  type_ : pyval;
  exists_in_s3 : bool;
  is_used_in_system : bool
}.

Record Statistics : Type := mkStatistics {
  total_fields : nat;
  exists_in_s3_count : nat;
  used_in_system_count : nat;
  unused_in_system_count : nat
}.

Record S3Summary : Type := mkS3Summary {
  has_s3_file : bool;
  fields_in_both_count : nat;
  fields_only_in_s3_count : nat;
  fields_only_in_etl_count : nat
}.

Record SystemSummary : Type := mkSystemSummary {
  has_system_data : bool;
  system_unused_columns_count : nat
}.

Record ConsolidatedMapping : Type := mkConsolidatedMapping {
  map_ : pyval;
  table : pyval;
  fields : list ConsolidatedField;
  statistics : Statistics;
  s3_comparison : S3Summary;
  system_comparison : SystemSummary
}.

Record ConsolidatedFile : Type := mkConsolidatedFile {
  name : string;
  mappings : list ConsolidatedMapping
}.

Record ConsolidatedDoc : Type := mkConsolidatedDoc {
  files : list ConsolidatedFile
}.

(** Lines 153-157: the lookup map over the usage comparison's fields. *)
Definition build_system_fields_map
    (system_mapping_comp : option SystemComparator.MappingComparison)
  : result (list (string * SystemComparator.FieldWithUsage)) :=
  for_fold (λ system_fields_map sys_field,
              let from_santander := SystemComparator.from_santander sys_field in
              normalized ← _normalize_name from_santander;
              Ok (PyDict.set system_fields_map normalized sys_field))
           [] (from_option SystemComparator.fields [] system_mapping_comp).

(** Lines 162-184: one ETL field. *)
Definition consolidate_field
    (s3_comparison : option S3Comparator.ComparisonItem)
    (system_fields_map : list (string * SystemComparator.FieldWithUsage))
    (etl_field : Doc.Field) : result ConsolidatedField :=
  let from_santander :=
    get (Doc.from_santander etl_field) (PyStr EmptyString) in
  let laborit := get (Doc.laborit etl_field) (PyStr EmptyString) in
  let field_type := get (Doc.type_ etl_field) (PyStr EmptyString) in
  exists_in_s3 ← _check_field_in_s3 from_santander s3_comparison;
  normalized_from_santander ← _normalize_name from_santander;
  let system_field :=
    PyDict.lookup system_fields_map normalized_from_santander in
  let is_used_in_system :=
    from_option SystemComparator.is_used_in_system false system_field in
  Ok {| from_santander := from_santander;
        laborit := laborit;
        type_ := field_type;
        exists_in_s3 := exists_in_s3;
        is_used_in_system := is_used_in_system |}.

(** Lines 144-214: one ETL mapping. *)
Definition consolidate_mapping
    (s3_file_data : option Doc.File)
    (s3_comparison : option S3Comparator.ComparisonItem)
    (system_file_comparison : list (pyval * SystemComparator.MappingComparison))
    (etl_mapping : Doc.Mapping) : result ConsolidatedMapping :=
  let map_name := get (Doc.map_ etl_mapping) (PyStr EmptyString) in
  let table_name := get (Doc.table etl_mapping) (PyStr EmptyString) in
  let etl_fields := Doc.fields etl_mapping in
  let system_mapping_comp := PyDict.lookup system_file_comparison map_name in
  system_fields_map ← build_system_fields_map system_mapping_comp;
  consolidated_fields ←
    for_map (consolidate_field s3_comparison system_fields_map) etl_fields;
  let total_fields := length consolidated_fields in
  let used_in_system_count :=
    length (filter (λ f, is_used_in_system f = true) consolidated_fields) in
  let unused_in_system_count := total_fields - used_in_system_count in
  let exists_in_s3_count :=
    length (filter (λ f, exists_in_s3 f = true) consolidated_fields) in
  Ok {| map_ := map_name;
        table := table_name;
        fields := consolidated_fields;
        statistics :=
          {| total_fields := total_fields;
             exists_in_s3_count := exists_in_s3_count;
             used_in_system_count := used_in_system_count;
             unused_in_system_count := unused_in_system_count |};
        s3_comparison :=
          {| has_s3_file := bool_decide (is_Some s3_file_data);
             fields_in_both_count :=
               from_option S3Comparator.fields_in_both_count 0 s3_comparison;
             fields_only_in_s3_count :=
               from_option S3Comparator.fields_only_in_s3_count 0 s3_comparison;
             fields_only_in_etl_count :=
               from_option S3Comparator.fields_only_in_etl_count 0
                 s3_comparison |};
        system_comparison :=
          {| has_system_data :=
               from_option SystemComparator.has_system_data false
                 system_mapping_comp;
             system_unused_columns_count :=
               from_option SystemComparator.system_unused_columns_count 0
                 system_mapping_comp |} |}.

(** Lines 125-216: one ETL file. *)
Definition consolidate_file
    (s3_files_map : list (string * Doc.File))
    (s3_comparison_map : list (string * S3Comparator.ComparisonItem))
    (system_comparison_map :
       list (string * list (pyval * SystemComparator.MappingComparison)))
    (etl_file : Doc.File) : result ConsolidatedFile :=
  let file_name := Doc.name etl_file in
  let etl_mappings := Doc.mappings etl_file in
  let s3_file_data := PyDict.lookup s3_files_map file_name in
  let s3_comparison := PyDict.lookup s3_comparison_map file_name in
  let system_file_comparison :=
    get (PyDict.lookup system_comparison_map file_name) [] in
  consolidated_mappings ←
    for_map (consolidate_mapping s3_file_data s3_comparison
               system_file_comparison) etl_mappings;
  Ok {| name := file_name; mappings := consolidated_mappings |}.

(** [ChamaConsolidatedMetadataService.consolidate].  The four arguments are
    the contents of the four files the service loads, [None] for a path that
    does not exist; the result is the document written to
    [consolidated_metadata.json], [None] when the service returns before
    writing. *)
Definition consolidate
    (etl_metadata_file : option Doc.Metadata)
    (s3_metadata_file : option Doc.Metadata)
    (s3_comparison_file : option S3Comparator.Comparison)
    (system_comparison_file : option SystemComparator.Comparison)
  : result (option ConsolidatedDoc) :=
  match etl_metadata_file with
  | None => Ok None
  | Some etl_metadata =>
      let s3_comparison_map :=
        PyDict.comprehension S3Comparator.file_name id
          (from_option S3Comparator.comparisons [] s3_comparison_file) in
      let system_comparison_map :=
        PyDict.comprehension SystemComparator.file_name
          (λ file_comp,
             PyDict.comprehension SystemComparator.map_ id
               (SystemComparator.mappings file_comp))
          (from_option SystemComparator.files [] system_comparison_file) in
      let s3_files_map :=
        PyDict.comprehension Doc.name id
          (from_option Doc.files [] s3_metadata_file) in
      let etl_files := Doc.files etl_metadata in
      consolidated_files ←
        for_map (consolidate_file s3_files_map s3_comparison_map
                   system_comparison_map) etl_files;
      Ok (Some {| files := consolidated_files |})
  end.

End Consolidated.

(** ** [documentation/documentation_service.py]

    The wiki text is a Python string; here it is its UTF-8 byte string.
    Replacing an ASCII character acts the same on both. *)

Module Documentation.

(** [text.replace(old, new)] for a one-character [old]. *)
Fixpoint replace_char (old : ascii) (new : string) (text : string) : string :=
  match text with
  | EmptyString => EmptyString
  | String c text' =>
      if decide (c = old) then new +:+ replace_char old new text'
      else String c (replace_char old new text')
  end.

(** The line feed. *)
Definition newline : ascii := ascii_of_nat 10.

(** [ChamaDocumentationService._escape_wiki] *)
Definition _escape_wiki (text : pyval) : string :=
  match text with
  | PyNone => EmptyString
  | PyStr text =>
      let text := replace_char "|" "\|" text in
      let text := replace_char "}" "\}" (replace_char "{" "\{" text) in
      let text := replace_char newline " " text in
      text
  end.

(** [ChamaDocumentationService._format_boolean], with the two literals as
    the source file spells them. *)
Definition _format_boolean (value : bool) : string :=
  if value then "âœ…" else "âŒ".

(** [sep.join(lines)] *)
Fixpoint join (sep : string) (lines : list string) : string :=
  match lines with
  | [] => EmptyString
  | [line] => line
  | line :: lines' => line +:+ sep +:+ join sep lines'
  end.

(** Lines 65-79: the row of one field. *)
Definition table_row (has_s3_data : bool)
    (field : Consolidated.ConsolidatedField) : string :=
  let from_santander := _escape_wiki (Consolidated.from_santander field) in
  let field_type := _escape_wiki (Consolidated.type_ field) in
  let laborit := _escape_wiki (Consolidated.laborit field) in
  let exists_in_s3 := _format_boolean (Consolidated.exists_in_s3 field) in
  let is_used_in_system :=
    _format_boolean (Consolidated.is_used_in_system field) in
  let row :=
    "|" +:+ from_santander +:+ "|" +:+ field_type +:+ "|" +:+ laborit
    +:+ "|" in
  if has_s3_data then row +:+ exists_in_s3 +:+ "|" +:+ is_used_in_system +:+ "|"
  else row +:+ is_used_in_system +:+ "|".

(** [ChamaDocumentationService._json_to_wiki_table_main] *)
Definition _json_to_wiki_table_main
    (fields : list Consolidated.ConsolidatedField) (has_s3_data : bool)
  : string :=
  match fields with
  | [] => "No fields found."
  | _ :: _ =>
      let header :=
        if has_s3_data
        then "||from_santander||type||laborit||exists_in_s3||is_used_in_system||"
        else "||from_santander||type||laborit||is_used_in_system||" in
      let wiki_lines := header :: (table_row has_s3_data <$> fields) in
      join (String newline EmptyString) wiki_lines
  end.

End Documentation.

(** ** [scripts/chama/chama_consolidated_to_csv.py]

    The script up to the rows it hands to the CSV writer; the quoting done
    by the writer is left out. *)

Module CsvExport.

(** A value of a row dict. *)
Inductive cell : Type :=
  | CNone
  | CBool (b : bool)
  | CStr (s : string)
  | CInt (n : nat).

Definition of_pyval (v : pyval) : cell :=
  match v with
  | PyNone => CNone
  | PyStr s => CStr s
  end.

(** [normalize_value] *)
Definition normalize_value (value : cell) : string :=
  match value with
  | CNone => EmptyString
  | CBool b => if b then "true" else "false"
  | CStr s => s
  | CInt n => pretty n
  end.

(** Lines 96-123: the rows of one mapping, one per field. *)
Definition mapping_rows (file_name : string)
    (mapping : Consolidated.ConsolidatedMapping)
  : list (list (string * cell)) :=
  let map_name := Consolidated.map_ mapping in
  let table := Consolidated.table mapping in
  let statistics := Consolidated.statistics mapping in
  let s3_comparison := Consolidated.s3_comparison mapping in
  let system_comparison := Consolidated.system_comparison mapping in
  field ← Consolidated.fields mapping;
  [ [ ("file_name", CStr file_name);
      ("map", of_pyval map_name);
      ("table", of_pyval table);
      ("from_santander", of_pyval (Consolidated.from_santander field));
      ("laborit", of_pyval (Consolidated.laborit field));
      ("type", of_pyval (Consolidated.type_ field));
      ("exists_in_s3", CBool (Consolidated.exists_in_s3 field));
      ("is_used_in_system", CBool (Consolidated.is_used_in_system field));
      ("total_fields", CInt (Consolidated.total_fields statistics));
      ("exists_in_s3_count",
       CInt (Consolidated.exists_in_s3_count statistics));
      ("used_in_system_count",
       CInt (Consolidated.used_in_system_count statistics));
      ("unused_in_system_count",
       CInt (Consolidated.unused_in_system_count statistics));
      ("has_s3_file", CBool (Consolidated.has_s3_file s3_comparison));
      ("fields_in_both_count",
       CInt (Consolidated.fields_in_both_count s3_comparison));
      ("fields_only_in_s3_count",
       CInt (Consolidated.fields_only_in_s3_count s3_comparison));
      ("fields_only_in_etl_count",
       CInt (Consolidated.fields_only_in_etl_count s3_comparison));
      ("has_system_data",
       CBool (Consolidated.has_system_data system_comparison));
      ("system_unused_columns_count",
       CInt (Consolidated.system_unused_columns_count system_comparison)) ] ].

(** Lines 66-123: the rows of the document, file by file. *)
Definition build_rows (files : list Consolidated.ConsolidatedFile)
  : list (list (string * cell)) :=
  file_data ← files;
  mapping ← Consolidated.mappings file_data;
  mapping_rows (Consolidated.name file_data) mapping.

(** What a run of [main] ends with: [sys.exit(code)], or the header and
    the normalized rows given to the CSV writer. *)
Inductive outcome : Type :=
  | Exit (code : nat)
  | Written (fieldnames : list string) (rows : list (list string)).

(** What the script finds at [json_path]: no file (line 44), a file on
    which [open] or [json.load] raises (lines 49-54), or the parsed
    document. *)
Inductive json_source : Type :=
  | NotFound
  | LoadError
  | Loaded (json_data : Consolidated.ConsolidatedDoc).

(** [main].  [json_file] is what [json_path] holds; [write_raises] tells
    whether opening or writing the CSV file raises inside the [try] of lines
    138-156, which the script answers with [sys.exit(1)].  Creating the
    output directory (line 33) is taken to succeed. *)
Definition main (json_file : json_source) (write_raises : bool) : outcome :=
  match json_file with
  | NotFound => Exit 1
  | LoadError => Exit 1
  | Loaded json_data =>
      match Consolidated.files json_data with
      | [] => Exit 1
      | (_ :: _) as files =>
          match build_rows files with
          | [] => Exit 1
          | (_ :: _) as rows =>
              let all_keys : gset string :=
                foldl (λ all_keys row, all_keys ∪ list_to_set row.*1) ∅ rows in
              let fieldnames := sorted (elements all_keys) in
              if write_raises then Exit 1
              else
                Written fieldnames
                  ((λ row,
                      (λ key, normalize_value
                                (get (PyDict.lookup row key)
                                   (CStr EmptyString)))
                        <$> fieldnames)
                     <$> rows)
          end
      end
  end.

End CsvExport.

(** * Vocabulary of the statements

    Definitions used to state and prove the claims: the value a loop of the
    source computes, written as a list expression, and the predicates the
    claims speak about. *)

(** ** Names *)

(** The string every normalizer computes on a string, and the empty string
    on [None] (where a normalizer accepts it). *)
Definition normalized (v : pyval) : string :=
  match v with
  | PyStr s => str_strip (str_lower s)
  | PyNone => EmptyString
  end.

(** [field.get('from_santander', '')] *)
Definition source_name (field : Doc.Field) : pyval :=
  get (Doc.from_santander field) (PyStr EmptyString).

(** ** Dictionaries *)

(** [for (k, v) in items: d[k] = v] *)
Definition from_items {K V} `{EqDecision K} (d : list (K * V))
    (items : list (K * V)) : list (K * V) :=
  foldl (λ d '(k, v), PyDict.set d k v) d items.

(** ** Usage records and the usage comparison *)

(** The set the spec describes: the normalized non-null names. *)
Definition unused_names (names : list pyval) : gset string :=
  list_to_set (normalized <$> filter (λ v, v ≠ PyNone) names).

Definition unused_set_of (system_data : option Doc.SystemItem)
  : gset string :=
  match get (system_data ≫= Doc.colunas_nao_utilizadas)
          (Doc.UnusedDict []) with
  | Doc.UnusedDict items => unused_names items.*2
  | Doc.UnusedList names => unused_names names
  | Doc.UnusedOther => ∅
  end.

(** The writes to [unused_columns_mapping] the loop over the dict encoding
    performs, in order (lines 68-75). *)
Definition unused_entries (items : list (string * pyval))
  : list (string * FromSystem.UnusedName) :=
  (λ item, (normalized item.2, FromSystem.mkUnusedName item.1 item.2))
    <$> filter (λ item, item.2 ≠ PyNone) items.

(** The annotated copy of one ETL field (lines 109-122). *)
Definition with_usage (unused : gset string) (field : Doc.Field)
  : SystemComparator.FieldWithUsage :=
  let laborit_name := get (Doc.laborit field) (PyStr EmptyString) in
  {| SystemComparator.from_santander := source_name field;
     SystemComparator.laborit := laborit_name;
     SystemComparator.type_ := get (Doc.type_ field) (PyStr EmptyString);
     SystemComparator.is_used_in_system :=
       negb (bool_decide (normalized laborit_name ∈ unused)) |}.

Definition count_used (fs : list SystemComparator.FieldWithUsage) : nat :=
  length (filter (λ f, SystemComparator.is_used_in_system f = true) fs).

Definition count_unused (fs : list SystemComparator.FieldWithUsage) : nat :=
  length (filter (λ f, SystemComparator.is_used_in_system f = false) fs).

(** A property of every (ETL mapping, output mapping) pair, position by
    position through the File → Mapping tree. *)
Definition mappingwise
    (P : Doc.Mapping → SystemComparator.MappingComparison → Prop)
    (etl_metadata : Doc.Metadata) (out : SystemComparator.Comparison)
  : Prop :=
  Forall2 (λ etl_file fc,
             Forall2 P (Doc.mappings etl_file) (SystemComparator.mappings fc))
    (Doc.files etl_metadata) (SystemComparator.files out).

(** ** The storage comparison *)

(** The fields of all mappings of a file, in document order. *)
Definition file_fields (file_data : option Doc.File) : list Doc.Field :=
  match file_data with
  | Some file_data => mapping ← Doc.mappings file_data; Doc.fields mapping
  | None => []
  end.

Definition field_info (field : Doc.Field) : S3Comparator.FieldInfo :=
  {| S3Comparator.from_santander := source_name field;
     S3Comparator.laborit := get (Doc.laborit field) (PyStr EmptyString);
     S3Comparator.type_ := get (Doc.type_ field) (PyStr EmptyString) |}.

(** The writes the collecting loops perform, in order: one per field whose
    source name is truthy. *)
Definition field_entries (fields : list Doc.Field)
  : list (string * S3Comparator.FieldInfo) :=
  (λ field, (normalized (source_name field), field_info field))
    <$> filter (λ field, truthy (source_name field)) fields.

(** The set of normalized field names of one file. *)
Definition field_names (file_data : option Doc.File) : gset string :=
  list_to_set
    (normalized
       <$> filter (λ v, truthy v) (source_name <$> file_fields file_data)).

(** The lookup map of one side for one file name. *)
Definition fields_map_of (files_map : list (string * Doc.File))
    (file_name : string) : list (string * S3Comparator.FieldInfo) :=
  from_items []
    (field_entries (file_fields (PyDict.lookup files_map file_name))).

(** The item [compare_file] returns, as a value. *)
Definition comparison_item_of
    (s3_files_map etl_files_map : list (string * Doc.File))
    (file_name : string) : S3Comparator.ComparisonItem :=
  let s3_file_data := PyDict.lookup s3_files_map file_name in
  let etl_file_data := PyDict.lookup etl_files_map file_name in
  let s3_fields_map := fields_map_of s3_files_map file_name in
  let etl_fields_map := fields_map_of etl_files_map file_name in
  let parts := S3Comparator.partition_s3 s3_fields_map etl_fields_map in
  let fields_only_in_etl :=
    S3Comparator.partition_etl s3_fields_map etl_fields_map in
  {| S3Comparator.file_name := file_name;
     S3Comparator.has_s3_file := bool_decide (is_Some s3_file_data);
     S3Comparator.has_etl_file := bool_decide (is_Some etl_file_data);
     S3Comparator.s3_mappings_count :=
       from_option (λ d, length (Doc.mappings d)) 0 s3_file_data;
     S3Comparator.etl_mappings_count :=
       from_option (λ d, length (Doc.mappings d)) 0 etl_file_data;
     S3Comparator.s3_fields_count := length s3_fields_map;
     S3Comparator.etl_fields_count := length etl_fields_map;
     S3Comparator.fields_in_both_count := length parts.1;
     S3Comparator.fields_only_in_s3_count := length parts.2;
     S3Comparator.fields_only_in_etl_count := length fields_only_in_etl;
     S3Comparator.fields_in_both := parts.1;
     S3Comparator.fields_only_in_s3 := parts.2;
     S3Comparator.fields_only_in_etl := fields_only_in_etl |}.

(** The file names the comparator iterates over, in its order. *)
Definition compared_names (s3_metadata etl_metadata : Doc.Metadata)
  : list string :=
  sorted (elements
    (list_to_set (PyDict.keys (PyDict.comprehension Doc.name id
                                 (Doc.files s3_metadata)))
     ∪ list_to_set (PyDict.keys (PyDict.comprehension Doc.name id
                                   (Doc.files etl_metadata)))
     : gset string)).

(** The normalized names of the three lists of a comparison item. *)
Definition names_in_both (item : S3Comparator.ComparisonItem)
  : list string :=
  normalized
    <$> (S3Comparator.both_from_santander
           <$> S3Comparator.fields_in_both item).

Definition names_only_in_s3 (item : S3Comparator.ComparisonItem)
  : list string :=
  normalized
    <$> (S3Comparator.from_santander
           <$> S3Comparator.fields_only_in_s3 item).

Definition names_only_in_etl (item : S3Comparator.ComparisonItem)
  : list string :=
  normalized
    <$> (S3Comparator.from_santander
           <$> S3Comparator.fields_only_in_etl item).

(** The three lists of a comparison item partition the normalized field
    names of the two files of the item's name: A from the ETL document, B
    from the S3 document. *)
Definition three_way_partition (s3_metadata etl_metadata : Doc.Metadata)
    (item : S3Comparator.ComparisonItem) : Prop :=
  let A := field_names
    (PyDict.lookup (PyDict.comprehension Doc.name id
                      (Doc.files etl_metadata))
       (S3Comparator.file_name item)) in
  let B := field_names
    (PyDict.lookup (PyDict.comprehension Doc.name id
                      (Doc.files s3_metadata))
       (S3Comparator.file_name item)) in
  let in_both : gset string := list_to_set (names_in_both item) in
  let only_s3 : gset string := list_to_set (names_only_in_s3 item) in
  let only_etl : gset string := list_to_set (names_only_in_etl item) in
  in_both ## only_s3 ∧ in_both ## only_etl ∧ only_s3 ## only_etl
  ∧ NoDup (names_in_both item ++ names_only_in_s3 item
           ++ names_only_in_etl item)
  ∧ in_both = A ∩ B ∧ only_s3 = B ∖ A ∧ only_etl = A ∖ B
  ∧ length (S3Comparator.fields_in_both item)
    + length (S3Comparator.fields_only_in_s3 item)
    + length (S3Comparator.fields_only_in_etl item)
    = size (A ∪ B)
  ∧ S3Comparator.fields_in_both_count item
    + S3Comparator.fields_only_in_s3_count item
    + S3Comparator.fields_only_in_etl_count item
    = size (A ∪ B).

(** A document with every field whose source name is missing, null or
    empty removed. *)
Definition drop_unnamed_mapping (mapping : Doc.Mapping) : Doc.Mapping :=
  {| Doc.map_ := Doc.map_ mapping;
     Doc.table := Doc.table mapping;
     Doc.fields := filter (λ field, truthy (source_name field))
                     (Doc.fields mapping) |}.

Definition drop_unnamed_file (file_data : Doc.File) : Doc.File :=
  {| Doc.name := Doc.name file_data;
     Doc.mappings := drop_unnamed_mapping <$> Doc.mappings file_data |}.

Definition drop_unnamed (metadata : Doc.Metadata) : Doc.Metadata :=
  {| Doc.files := drop_unnamed_file <$> Doc.files metadata |}.

(** ** The consolidation *)

(** The consolidated document mirrors the ETL document: same files, same
    mappings, same fields, in the same order, each carrying the values read
    from the ETL entry (an absent key reads as the empty string). *)
Definition mirrors_field (etl_field : Doc.Field)
    (field : Consolidated.ConsolidatedField) : Prop :=
  Consolidated.from_santander field
    = get (Doc.from_santander etl_field) (PyStr EmptyString)
  ∧ Consolidated.laborit field
    = get (Doc.laborit etl_field) (PyStr EmptyString)
  ∧ Consolidated.type_ field
    = get (Doc.type_ etl_field) (PyStr EmptyString).

Definition mirrors_mapping (etl_mapping : Doc.Mapping)
    (mapping : Consolidated.ConsolidatedMapping) : Prop :=
  Consolidated.map_ mapping = get (Doc.map_ etl_mapping) (PyStr EmptyString)
  ∧ Consolidated.table mapping
    = get (Doc.table etl_mapping) (PyStr EmptyString)
  ∧ Forall2 mirrors_field (Doc.fields etl_mapping)
      (Consolidated.fields mapping).

Definition mirrors_file (etl_file : Doc.File)
    (file : Consolidated.ConsolidatedFile) : Prop :=
  Consolidated.name file = Doc.name etl_file
  ∧ Forall2 mirrors_mapping (Doc.mappings etl_file)
      (Consolidated.mappings file).

Definition mirrors (etl_metadata : Doc.Metadata)
    (out : Consolidated.ConsolidatedDoc) : Prop :=
  Forall2 mirrors_file (Doc.files etl_metadata) (Consolidated.files out).

(** No source name is JSON null: in the ETL document, in the persisted
    usage comparison, in the persisted storage comparison. *)
Definition etl_names_are_str (etl_metadata : Doc.Metadata) : Prop :=
  Forall (λ etl_file,
    Forall (λ etl_mapping,
      Forall (λ etl_field, source_name etl_field ≠ PyNone)
        (Doc.fields etl_mapping))
      (Doc.mappings etl_file))
    (Doc.files etl_metadata).

Definition system_names_are_str
    (system_comparison_file : option SystemComparator.Comparison) : Prop :=
  Forall (λ file_comp,
    Forall (λ mapping_comp,
      Forall (λ sys_field,
                SystemComparator.from_santander sys_field ≠ PyNone)
        (SystemComparator.fields mapping_comp))
      (SystemComparator.mappings file_comp))
    (from_option SystemComparator.files [] system_comparison_file).

Definition s3_names_are_str
    (s3_comparison_file : option S3Comparator.Comparison) : Prop :=
  Forall (λ comp,
    Forall (λ entry, S3Comparator.both_from_santander entry ≠ PyNone)
      (S3Comparator.fields_in_both comp)
    ∧ Forall (λ entry, S3Comparator.from_santander entry ≠ PyNone)
        (S3Comparator.fields_only_in_s3 comp))
    (from_option S3Comparator.comparisons [] s3_comparison_file).

(** What storage-side absence means for one consolidated mapping. *)
Definition no_storage_sighting (mapping : Consolidated.ConsolidatedMapping)
  : Prop :=
  Forall (λ field, Consolidated.exists_in_s3 field = false)
    (Consolidated.fields mapping)
  ∧ Consolidated.exists_in_s3_count (Consolidated.statistics mapping) = 0
  ∧ Consolidated.fields_in_both_count (Consolidated.s3_comparison mapping) = 0
  ∧ Consolidated.fields_only_in_s3_count (Consolidated.s3_comparison mapping)
    = 0
  ∧ Consolidated.fields_only_in_etl_count (Consolidated.s3_comparison mapping)
    = 0.

(** ** The usage comparison as a value *)

Definition mapping_comparison_of (system_map : list (pyval * Doc.SystemItem))
    (mapping : Doc.Mapping) : SystemComparator.MappingComparison :=
  let table_name := get (Doc.table mapping) (PyStr EmptyString) in
  let system_data := PyDict.lookup system_map table_name in
  let unused := unused_set_of system_data in
  let fields_with_usage := with_usage unused <$> Doc.fields mapping in
  {| SystemComparator.map_ := get (Doc.map_ mapping) (PyStr EmptyString);
     SystemComparator.table := table_name;
     SystemComparator.has_system_data := bool_decide (is_Some system_data);
     SystemComparator.fields := fields_with_usage;
     SystemComparator.statistics :=
       {| SystemComparator.total_fields := length fields_with_usage;
          SystemComparator.used_count := count_used fields_with_usage;
          SystemComparator.unused_count := count_unused fields_with_usage |};
     SystemComparator.system_unused_columns_count := size unused |}.

Definition file_comparison_of (system_map : list (pyval * Doc.SystemItem))
    (etl_file : Doc.File) : SystemComparator.FileComparison :=
  {| SystemComparator.file_name := Doc.name etl_file;
     SystemComparator.mappings :=
       mapping_comparison_of system_map <$> Doc.mappings etl_file |}.

(** The (file name, mapping) pairs of a usage comparison, in order. *)
Definition compared_mappings (out : SystemComparator.Comparison)
  : list (string * SystemComparator.MappingComparison) :=
  file_comp ← SystemComparator.files out;
  (λ mapping_comp, (SystemComparator.file_name file_comp, mapping_comp))
    <$> SystemComparator.mappings file_comp.

(** The entry of [etl_without_system] for one compared mapping. *)
Definition without_system_entry
    (pair : string * SystemComparator.MappingComparison)
  : SystemComparator.WithoutSystem :=
  {| SystemComparator.ws_file_name := pair.1;
     SystemComparator.ws_map := SystemComparator.map_ pair.2;
     SystemComparator.ws_table := SystemComparator.table pair.2;
     SystemComparator.ws_fields_count :=
       SystemComparator.total_fields (SystemComparator.statistics pair.2) |}.

(** All the fields of a document, in order. *)
Definition all_fields (etl_metadata : Doc.Metadata) : list Doc.Field :=
  etl_file ← Doc.files etl_metadata;
  mapping ← Doc.mappings etl_file;
  Doc.fields mapping.

(** [item.get('tabela', '')] *)
Definition table_of (item : Doc.SystemItem) : pyval :=
  get (Doc.tabela item) (PyStr EmptyString).

(** The usage comparison mirrors the ETL document. *)
Definition usage_mirrors_field (etl_field : Doc.Field)
    (field : SystemComparator.FieldWithUsage) : Prop :=
  SystemComparator.from_santander field
    = get (Doc.from_santander etl_field) (PyStr EmptyString)
  ∧ SystemComparator.laborit field
    = get (Doc.laborit etl_field) (PyStr EmptyString)
  ∧ SystemComparator.type_ field
    = get (Doc.type_ etl_field) (PyStr EmptyString).

Definition usage_mirrors_mapping (etl_mapping : Doc.Mapping)
    (mapping : SystemComparator.MappingComparison) : Prop :=
  SystemComparator.map_ mapping
    = get (Doc.map_ etl_mapping) (PyStr EmptyString)
  ∧ SystemComparator.table mapping
    = get (Doc.table etl_mapping) (PyStr EmptyString)
  ∧ Forall2 usage_mirrors_field (Doc.fields etl_mapping)
      (SystemComparator.fields mapping).

Definition usage_mirrors_file (etl_file : Doc.File)
    (file : SystemComparator.FileComparison) : Prop :=
  SystemComparator.file_name file = Doc.name etl_file
  ∧ Forall2 usage_mirrors_mapping (Doc.mappings etl_file)
      (SystemComparator.mappings file).

(** ** The consolidation as a value *)

(** What [_check_field_in_s3] answers on names that are strings. *)
Definition sighted_in (from_santander : pyval)
    (s3_comparison : option S3Comparator.ComparisonItem) : bool :=
  match s3_comparison with
  | None => false
  | Some comp =>
      bool_decide (normalized from_santander
                   ∈ names_in_both comp ++ names_only_in_s3 comp)
  end.

Definition system_fields_map_of
    (system_mapping_comp : option SystemComparator.MappingComparison)
  : list (string * SystemComparator.FieldWithUsage) :=
  PyDict.comprehension
    (λ sys_field, normalized (SystemComparator.from_santander sys_field)) id
    (from_option SystemComparator.fields [] system_mapping_comp).

Definition consolidated_field_of
    (s3_comparison : option S3Comparator.ComparisonItem)
    (system_fields_map : list (string * SystemComparator.FieldWithUsage))
    (etl_field : Doc.Field) : Consolidated.ConsolidatedField :=
  {| Consolidated.from_santander := source_name etl_field;
     Consolidated.laborit := get (Doc.laborit etl_field) (PyStr EmptyString);
     Consolidated.type_ := get (Doc.type_ etl_field) (PyStr EmptyString);
     Consolidated.exists_in_s3 :=
       sighted_in (source_name etl_field) s3_comparison;
     Consolidated.is_used_in_system :=
       from_option SystemComparator.is_used_in_system false
         (PyDict.lookup system_fields_map
            (normalized (source_name etl_field))) |}.

Definition consolidated_mapping_of (s3_file_data : option Doc.File)
    (s3_comparison : option S3Comparator.ComparisonItem)
    (system_file_comparison :
       list (pyval * SystemComparator.MappingComparison))
    (etl_mapping : Doc.Mapping) : Consolidated.ConsolidatedMapping :=
  let map_name := get (Doc.map_ etl_mapping) (PyStr EmptyString) in
  let system_mapping_comp := PyDict.lookup system_file_comparison map_name in
  let consolidated_fields :=
    consolidated_field_of s3_comparison
      (system_fields_map_of system_mapping_comp)
      <$> Doc.fields etl_mapping in
  let total_fields := length consolidated_fields in
  let used_in_system_count :=
    length (filter (λ f, Consolidated.is_used_in_system f = true)
              consolidated_fields) in
  {| Consolidated.map_ := map_name;
     Consolidated.table := get (Doc.table etl_mapping) (PyStr EmptyString);
     Consolidated.fields := consolidated_fields;
     Consolidated.statistics :=
       {| Consolidated.total_fields := total_fields;
          Consolidated.exists_in_s3_count :=
            length (filter (λ f, Consolidated.exists_in_s3 f = true)
                      consolidated_fields);
          Consolidated.used_in_system_count := used_in_system_count;
          Consolidated.unused_in_system_count :=
            total_fields - used_in_system_count |};
     Consolidated.s3_comparison :=
       {| Consolidated.has_s3_file := bool_decide (is_Some s3_file_data);
          Consolidated.fields_in_both_count :=
            from_option S3Comparator.fields_in_both_count 0 s3_comparison;
          Consolidated.fields_only_in_s3_count :=
            from_option S3Comparator.fields_only_in_s3_count 0 s3_comparison;
          Consolidated.fields_only_in_etl_count :=
            from_option S3Comparator.fields_only_in_etl_count 0
              s3_comparison |};
     Consolidated.system_comparison :=
       {| Consolidated.has_system_data :=
            from_option SystemComparator.has_system_data false
              system_mapping_comp;
          Consolidated.system_unused_columns_count :=
            from_option SystemComparator.system_unused_columns_count 0
              system_mapping_comp |} |}.

(** The three lookup maps [consolidate] builds (lines 94-115). *)
Definition s3_comparison_map_of
    (s3_comparison_file : option S3Comparator.Comparison)
  : list (string * S3Comparator.ComparisonItem) :=
  PyDict.comprehension S3Comparator.file_name id
    (from_option S3Comparator.comparisons [] s3_comparison_file).

Definition system_comparison_map_of
    (system_comparison_file : option SystemComparator.Comparison)
  : list (string * list (pyval * SystemComparator.MappingComparison)) :=
  PyDict.comprehension SystemComparator.file_name
    (λ file_comp,
       PyDict.comprehension SystemComparator.map_ id
         (SystemComparator.mappings file_comp))
    (from_option SystemComparator.files [] system_comparison_file).

Definition s3_files_map_of (s3_metadata_file : option Doc.Metadata)
  : list (string * Doc.File) :=
  PyDict.comprehension Doc.name id
    (from_option Doc.files [] s3_metadata_file).

Definition consolidated_file_of
    (s3_metadata_file : option Doc.Metadata)
    (s3_comparison_file : option S3Comparator.Comparison)
    (system_comparison_file : option SystemComparator.Comparison)
    (etl_file : Doc.File) : Consolidated.ConsolidatedFile :=
  let file_name := Doc.name etl_file in
  {| Consolidated.name := file_name;
     Consolidated.mappings :=
       consolidated_mapping_of
         (PyDict.lookup (s3_files_map_of s3_metadata_file) file_name)
         (PyDict.lookup (s3_comparison_map_of s3_comparison_file) file_name)
         (get (PyDict.lookup
                 (system_comparison_map_of system_comparison_file) file_name)
              [])
         <$> Doc.mappings etl_file |}.

(** A property of every (ETL field, consolidated field) pair, with the ETL
    file and mapping it belongs to, position by position. *)
Definition fieldwise
    (P : Doc.File → Doc.Mapping → Doc.Field
         → Consolidated.ConsolidatedField → Prop)
    (etl_metadata : Doc.Metadata) (out : Consolidated.ConsolidatedDoc)
  : Prop :=
  Forall2 (λ etl_file file,
    Forall2 (λ etl_mapping mapping,
      Forall2 (P etl_file etl_mapping) (Doc.fields etl_mapping)
        (Consolidated.fields mapping))
      (Doc.mappings etl_file) (Consolidated.mappings file))
    (Doc.files etl_metadata) (Consolidated.files out).

(** A property of every (ETL mapping, consolidated mapping) pair, with the
    ETL file it belongs to. *)
Definition consolidated_mappingwise
    (P : Doc.File → Doc.Mapping → Consolidated.ConsolidatedMapping → Prop)
    (etl_metadata : Doc.Metadata) (out : Consolidated.ConsolidatedDoc)
  : Prop :=
  Forall2 (λ etl_file file,
    Forall2 (P etl_file) (Doc.mappings etl_file) (Consolidated.mappings file))
    (Doc.files etl_metadata) (Consolidated.files out).

(** File names, map names within a file and normalized source names within
    a mapping are unique. *)
Definition map_name_of (mapping : Doc.Mapping) : pyval :=
  get (Doc.map_ mapping) (PyStr EmptyString).

Definition unique_keys (etl_metadata : Doc.Metadata) : Prop :=
  NoDup (Doc.name <$> Doc.files etl_metadata)
  ∧ Forall (λ etl_file,
      NoDup (map_name_of <$> Doc.mappings etl_file)
      ∧ Forall (λ etl_mapping,
          NoDup ((λ etl_field, normalized (source_name etl_field))
                   <$> Doc.fields etl_mapping))
          (Doc.mappings etl_file))
      (Doc.files etl_metadata).

(** ** Strings *)

(** The string does not start with whitespace. *)
Definition no_leading_space (s : string) : Prop :=
  match s with
  | EmptyString => True
  | String c _ => is_space c = false
  end.

(** [text.isascii()]: every character is below 128.  On such text
    [str_lower] and [str_strip] are what [lower()] and [strip()] compute. *)
Fixpoint is_ascii (text : string) : bool :=
  match text with
  | EmptyString => true
  | String c text' => (nat_of_ascii c <? 128)%nat && is_ascii text'
  end.

(** ** The wiki text and the CSV rows *)

(** The three characters [_escape_wiki] puts a backslash before. *)
Definition is_markup (c : ascii) : bool :=
  bool_decide (c = "|"%char ∨ c = "{"%char ∨ c = "}"%char).

(** Every markup character of the text comes right after a backslash;
    [after_backslash] says whether the text itself does. *)
Fixpoint guarded (after_backslash : bool) (text : string) : bool :=
  match text with
  | EmptyString => true
  | String c text' =>
      (if is_markup c then after_backslash else true)
      && guarded (bool_decide (c = "\"%char)) text'
  end.

(** The number of characters of the text that satisfy [p]. *)
Fixpoint count_chars (p : ascii → bool) (text : string) : nat :=
  match text with
  | EmptyString => 0
  | String c text' => (if p c then 1 else 0) + count_chars p text'
  end.

Definition is_newline (c : ascii) : bool :=
  bool_decide (c = Documentation.newline).

(** What [_escape_wiki] writes for one character of the text. *)
Definition escape_char (c : ascii) : string :=
  if decide (c = "|"%char) then "\|"
  else if decide (c = "{"%char) then "\{"
  else if decide (c = "}"%char) then "\}"
  else if decide (c = Documentation.newline) then " "
  else String c EmptyString.

Fixpoint escape_all (text : string) : string :=
  match text with
  | EmptyString => EmptyString
  | String c text' => escape_char c +:+ escape_all text'
  end.

(** All the fields of a consolidated document, in order. *)
Definition consolidated_fields (json_data : Consolidated.ConsolidatedDoc)
  : list Consolidated.ConsolidatedField :=
  file_data ← Consolidated.files json_data;
  mapping ← Consolidated.mappings file_data;
  Consolidated.fields mapping.

(** The columns of the CSV file, in the order [sorted(all_keys)] gives. *)
Definition csv_columns : list string :=
  [ "exists_in_s3"; "exists_in_s3_count"; "fields_in_both_count";
    "fields_only_in_etl_count"; "fields_only_in_s3_count"; "file_name";
    "from_santander"; "has_s3_file"; "has_system_data"; "is_used_in_system";
    "laborit"; "map"; "system_unused_columns_count"; "table"; "total_fields";
    "type"; "unused_in_system_count"; "used_in_system_count" ].

(** ** Example documents *)

Definition client_id_field : Doc.Field :=
  {| Doc.from_santander := Some (PyStr "Client_ID");
     Doc.laborit := Some (PyStr "client_id");
     Doc.type_ := Some (PyStr "int") |}.

(** An ETL document with one file, one mapping and one field. *)
Definition one_field_etl : Doc.Metadata :=
  {| Doc.files :=
       [ {| Doc.name := "clients";
            Doc.mappings :=
              [ {| Doc.map_ := Some (PyStr "m_clients");
                   Doc.table := Some (PyStr "tb_clients");
                   Doc.fields := [client_id_field] |} ] |} ] |}.

(** The same document with the field's source name set to JSON null. *)
Definition null_name_etl : Doc.Metadata :=
  {| Doc.files :=
       [ {| Doc.name := "clients";
            Doc.mappings :=
              [ {| Doc.map_ := Some (PyStr "m_clients");
                   Doc.table := Some (PyStr "tb_clients");
                   Doc.fields :=
                     [ {| Doc.from_santander := Some PyNone;
                          Doc.laborit := Some (PyStr "client_id");
                          Doc.type_ := Some (PyStr "int") |} ] |} ] |} ] |}.

(** An S3 metadata document that lists the file of [one_field_etl]. *)
Definition clients_s3_metadata : Doc.Metadata :=
  {| Doc.files := [ {| Doc.name := "clients"; Doc.mappings := [] |} ] |}.

(** * Verification *)

(** ** The [result] monad and the loop combinators *)

(** Two hypotheses giving the result of the same call name the same
    value: [same_result H H'] keeps the one of [H]. *)
Ltac same_result H H' :=
  rewrite H in H'; injection H' as <-.

Lemma bind_Ok {A B} (m : result A) (f : A → result B) (b : B) :
  m ≫= f = Ok b ↔ ∃ a, m = Ok a ∧ f a = Ok b.
Proof.
  destruct m as [a|e]; simpl.
  - split; [eauto | intros (a' & [= <-] & ?); done].
  - split; [done | intros (a' & ? & ?); done].
Qed.

Lemma for_map_Forall2 {A B} (body : A → result B) xs ys :
  for_map body xs = Ok ys ↔ Forall2 (λ x y, body x = Ok y) xs ys.
Proof.
  revert ys. induction xs as [|x xs IH]; intros ys; simpl.
  - split; [intros [= <-]; constructor | by inversion 1].
  - split.
    + intros (y & Hy & (ys' & Hys & [= <-])%bind_Ok)%bind_Ok.
      constructor; [done | by apply IH].
    + inversion 1 as [|? y ? ys' Hy Hys]; subst.
      rewrite Hy; simpl. apply IH in Hys. by rewrite Hys.
Qed.

Lemma for_map_total {A B} (body : A → result B) xs :
  Forall (λ x, ∃ y, body x = Ok y) xs → ∃ ys, for_map body xs = Ok ys.
Proof.
  induction 1 as [|x xs [y Hy] _ [ys Hys]]; simpl; [by eexists|].
  rewrite Hy; simpl. rewrite Hys; simpl. by eexists.
Qed.

Lemma for_map_pure {A B} (body : A → result B) (f : A → B) xs :
  Forall (λ x, body x = Ok (f x)) xs → for_map body xs = Ok (f <$> xs).
Proof.
  induction 1 as [|x xs Hx _ IH]; simpl; [done|].
  by rewrite Hx; simpl; rewrite IH.
Qed.

Lemma for_fold_pure {A S} (body : S → A → result S) (f : S → A → S) xs acc :
  (∀ s x, x ∈ xs → body s x = Ok (f s x)) →
  for_fold body acc xs = Ok (foldl f acc xs).
Proof.
  revert acc. induction xs as [|x xs IH]; intros acc Hbody; simpl; [done|].
  rewrite Hbody by left. simpl. apply IH. intros; apply Hbody; by right.
Qed.

(** ** Normalization *)

Lemma normalized_empty : normalized (PyStr EmptyString) = EmptyString.
Proof. reflexivity. Qed.

Lemma s3_normalize_str s :
  S3Comparator.normalize_column_name (PyStr s) = Ok (normalized (PyStr s)).
Proof. reflexivity. Qed.

Lemma from_system_normalize_str s :
  FromSystem._normalize_name (PyStr s) = Ok (normalized (PyStr s)).
Proof. reflexivity. Qed.

Lemma consolidated_normalize_str s :
  Consolidated._normalize_name (PyStr s) = Ok (normalized (PyStr s)).
Proof. reflexivity. Qed.

Lemma system_normalize v :
  SystemComparator.normalize_column_name v = Ok (normalized v).
Proof. by destruct v as [|[|c s]]. Qed.

(** ** The unused-columns set of a usage record *)

Lemma unused_names_cons v names :
  unused_names (v :: names) =
  if decide (v ≠ PyNone) then {[ normalized v ]} ∪ unused_names names
  else unused_names names.
Proof.
  unfold unused_names. rewrite filter_cons. by case_decide.
Qed.

Lemma from_system_normalize_not_None v :
  v ≠ PyNone → FromSystem._normalize_name v = Ok (normalized v).
Proof. by destruct v. Qed.

Lemma unused_dict_loop items set0 map0 :
  ∃ mapping,
    for_fold FromSystem.dict_step (set0, map0) items
    = Ok (unused_names items.*2 ∪ set0, mapping).
Proof.
  revert set0 map0. induction items as [|[pt en] items IH]; intros set0 map0.
  - exists map0. simpl. f_equal. f_equal. set_solver.
  - simpl. rewrite unused_names_cons. case_decide as Hen.
    + rewrite from_system_normalize_not_None by done. simpl.
      edestruct IH as [m ->]. exists m. f_equal. f_equal. set_solver.
    + simpl. apply IH.
Qed.

Lemma unused_list_loop names set0 map0 :
  for_fold FromSystem.list_step (set0, map0) names
  = Ok (unused_names names ∪ set0, map0).
Proof.
  revert set0. induction names as [|en names IH]; intros set0.
  - simpl. f_equal. f_equal. set_solver.
  - simpl. rewrite unused_names_cons. case_decide as Hen.
    + rewrite from_system_normalize_not_None by done. simpl.
      rewrite IH. f_equal. f_equal. set_solver.
    + simpl. apply IH.
Qed.

(** [_get_unused_columns] never raises, and its set is [unused_set_of]. *)
Lemma get_unused_columns_set system_data :
  ∃ mapping,
    FromSystem._get_unused_columns system_data
    = Ok (unused_set_of system_data, mapping).
Proof.
  unfold FromSystem._get_unused_columns, unused_set_of.
  destruct (get _ _) as [items|names|].
  - destruct (unused_dict_loop items ∅ []) as [m Hm].
    exists m. rewrite Hm. f_equal. f_equal. set_solver.
  - exists []. rewrite unused_list_loop. f_equal. f_equal. set_solver.
  - by exists [].
Qed.

Lemma unused_names_filter names :
  unused_names (filter (λ v, v ≠ PyNone) names) = unused_names names.
Proof.
  unfold unused_names. f_equal. f_equal.
  induction names as [|v names IH]; [done|].
  rewrite !filter_cons. case_decide; [|done].
  rewrite filter_cons. case_decide; [|done]. by rewrite IH.
Qed.

(** ** The usage comparison, mapping by mapping *)

Lemma count_used_cons f fs :
  count_used (f :: fs)
  = (if SystemComparator.is_used_in_system f then 1 else 0) + count_used fs.
Proof.
  unfold count_used. rewrite filter_cons.
  destruct (SystemComparator.is_used_in_system f); by case_decide.
Qed.

Lemma count_unused_cons f fs :
  count_unused (f :: fs)
  = (if SystemComparator.is_used_in_system f then 0 else 1)
    + count_unused fs.
Proof.
  unfold count_unused. rewrite filter_cons.
  destruct (SystemComparator.is_used_in_system f); by case_decide.
Qed.

Lemma count_used_unused fs : count_used fs + count_unused fs = length fs.
Proof.
  induction fs as [|f fs IH]; [done|].
  rewrite count_used_cons, count_unused_cons. simpl.
  destruct (SystemComparator.is_used_in_system f); lia.
Qed.

Lemma count_unused_all_used fs :
  Forall (λ f, SystemComparator.is_used_in_system f = true) fs →
  count_unused fs = 0.
Proof.
  induction 1 as [|f fs Hf _ IH]; [done|].
  rewrite count_unused_cons, Hf. exact IH.
Qed.

Lemma usage_step_spec unused acc used unused_n field :
  let flag := SystemComparator.is_used_in_system (with_usage unused field) in
  SystemComparator.usage_step unused (acc, used, unused_n) field
  = Ok (acc ++ [with_usage unused field],
        used + (if flag then 1 else 0),
        unused_n + (if flag then 0 else 1)).
Proof.
  unfold SystemComparator.usage_step, with_usage, source_name.
  rewrite system_normalize. simpl.
  destruct (negb _); simpl; by rewrite !Nat.add_0_r.
Qed.

Lemma usage_loop unused etl_fields acc used unused_n :
  for_fold (SystemComparator.usage_step unused) (acc, used, unused_n)
    etl_fields
  = Ok (acc ++ (with_usage unused <$> etl_fields),
        used + count_used (with_usage unused <$> etl_fields),
        unused_n + count_unused (with_usage unused <$> etl_fields)).
Proof.
  revert acc used unused_n.
  induction etl_fields as [|field etl_fields IH]; intros acc used unused_n.
  - unfold count_used, count_unused. simpl.
    by rewrite app_nil_r, !Nat.add_0_r.
  - rewrite fmap_cons, count_used_cons, count_unused_cons.
    cbn [for_fold]. rewrite usage_step_spec. cbn [mbind result_bind].
    rewrite IH, <- app_assoc. do 2 f_equal; [f_equal|]; simpl; lia.
Qed.

Lemma system_compare_mapping_spec system_map mapping :
  let system_data :=
    PyDict.lookup system_map (get (Doc.table mapping) (PyStr EmptyString)) in
  let stats mc := SystemComparator.statistics mc in
  ∃ mc,
    SystemComparator.compare_mapping system_map mapping = Ok mc
    ∧ SystemComparator.has_system_data mc = bool_decide (is_Some system_data)
    ∧ SystemComparator.fields mc
      = with_usage (unused_set_of system_data) <$> Doc.fields mapping
    ∧ SystemComparator.total_fields (stats mc)
      = length (SystemComparator.fields mc)
    ∧ SystemComparator.used_count (stats mc)
      = count_used (SystemComparator.fields mc)
    ∧ SystemComparator.unused_count (stats mc)
      = count_unused (SystemComparator.fields mc).
Proof.
  intros system_data stats. unfold SystemComparator.compare_mapping.
  fold system_data.
  destruct (get_unused_columns_set system_data) as [um ->]. simpl.
  rewrite usage_loop. simpl. eexists; split; [reflexivity|]. simpl.
  repeat split.
Qed.

Lemma system_compare_file_spec system_map etl_file :
  ∃ fc,
    SystemComparator.compare_file system_map etl_file = Ok fc
    ∧ SystemComparator.file_name fc = Doc.name etl_file
    ∧ Forall2 (λ mapping mc,
                 SystemComparator.compare_mapping system_map mapping = Ok mc)
        (Doc.mappings etl_file) (SystemComparator.mappings fc).
Proof.
  unfold SystemComparator.compare_file.
  destruct (for_map_total (SystemComparator.compare_mapping system_map)
              (Doc.mappings etl_file)) as [mcs Hmcs].
  { apply Forall_forall. intros m _.
    destruct (system_compare_mapping_spec system_map m) as (mc & -> & _).
    eauto. }
  rewrite Hmcs. simpl. eexists; split; [reflexivity|]. simpl.
  split; [done|]. by apply for_map_Forall2.
Qed.

Lemma system_compare_metadatas_mappingwise system_file etl_metadata
    system_metadata
    (P : Doc.Mapping → SystemComparator.MappingComparison → Prop) :
  (∀ mapping mc,
     SystemComparator.compare_mapping
       (FromSystem._load_system_metadata system_file) mapping = Ok mc →
     P mapping mc) →
  ∃ out,
    SystemComparator.compare_metadatas system_file etl_metadata
      system_metadata = Ok out
    ∧ mappingwise P etl_metadata out.
Proof.
  intros HP. unfold SystemComparator.compare_metadatas.
  set (system_map := FromSystem._load_system_metadata system_file) in *.
  destruct (for_map_total (SystemComparator.compare_file system_map)
              (Doc.files etl_metadata)) as [fcs Hfcs].
  { apply Forall_forall. intros f _.
    destruct (system_compare_file_spec system_map f) as (fc & -> & _).
    eauto. }
  rewrite Hfcs. simpl. eexists; split; [reflexivity|].
  unfold mappingwise. simpl.
  apply for_map_Forall2 in Hfcs.
  eapply Forall2_impl; [exact Hfcs|]. intros f fc Hfc. simpl in Hfc.
  destruct (system_compare_file_spec system_map f) as (fc' & Hfc' & _ & Hms).
  same_result Hfc Hfc'.
  eapply Forall2_impl; [exact Hms|]. auto.
Qed.

(** ** Claims on the usage comparison *)

(** C1, as stated, fails: with no usage record for the table of a mapping
    that has a field, [has_system_data] is false but the field is flagged
    used, and [unused_count] is 0 while [total_fields] is 1. *)
Lemma C1_no_usage_record_counterexample :
  ∃ out mc,
    SystemComparator.compare_metadatas (Some []) one_field_etl [] = Ok out
    ∧ SystemComparator.files out
      = [ {| SystemComparator.file_name := "clients";
             SystemComparator.mappings := [mc] |} ]
    ∧ PyDict.lookup (FromSystem._load_system_metadata (Some []))
        (SystemComparator.table mc) = None
    ∧ SystemComparator.has_system_data mc = false
    ∧ ¬ Forall (λ f, SystemComparator.is_used_in_system f = false)
          (SystemComparator.fields mc)
    ∧ SystemComparator.unused_count (SystemComparator.statistics mc)
      ≠ SystemComparator.total_fields (SystemComparator.statistics mc).
Proof.
  eexists _, _. split; [vm_compute; reflexivity|].
  split; [reflexivity|]. split; [reflexivity|]. split; [reflexivity|].
  split; [|discriminate].
  intros H. apply Forall_cons in H as [H _]. discriminate H.
Qed.

(** C1 (amended): for every mapping whose table has no usage record, the
    output mapping has [has_system_data = false], every field has
    [is_used_in_system = true], [used_count] equals [total_fields] and
    [unused_count] is 0; the comparison never raises. *)
Theorem C1_no_usage_record_all_used system_file etl_metadata system_metadata :
  ∃ out,
    SystemComparator.compare_metadatas system_file etl_metadata system_metadata
      = Ok out
    ∧ mappingwise (λ mapping mc,
        PyDict.lookup (FromSystem._load_system_metadata system_file)
          (get (Doc.table mapping) (PyStr EmptyString)) = None →
        SystemComparator.has_system_data mc = false
        ∧ Forall (λ f, SystemComparator.is_used_in_system f = true)
            (SystemComparator.fields mc)
        ∧ SystemComparator.used_count (SystemComparator.statistics mc)
          = SystemComparator.total_fields (SystemComparator.statistics mc)
        ∧ SystemComparator.unused_count (SystemComparator.statistics mc) = 0)
      etl_metadata out.
Proof.
  apply system_compare_metadatas_mappingwise. intros mapping mc Hmc Hnone.
  destruct (system_compare_mapping_spec
              (FromSystem._load_system_metadata system_file) mapping)
    as (mc' & Hmc' & Hdata & Hfields & Htotal & Hused & Hunused).
  same_result Hmc Hmc'.
  rewrite Hnone in Hdata, Hfields.
  assert (Hall : Forall (λ f, SystemComparator.is_used_in_system f = true)
                   (SystemComparator.fields mc)).
  { rewrite Hfields. apply Forall_fmap, Forall_forall. intros field _.
    simpl. rewrite bool_decide_eq_false_2; [done|].
    unfold unused_set_of, unused_names. simpl. set_solver. }
  assert (Hzero : count_unused (SystemComparator.fields mc) = 0).
  { by apply count_unused_all_used. }
  split; [done|]. split; [done|].
  pose proof (count_used_unused (SystemComparator.fields mc)). lia.
Qed.

Lemma C1_no_usage_record_all_used_witness :
  ∃ out,
    SystemComparator.compare_metadatas (Some []) one_field_etl [] = Ok out
    ∧ Forall (λ fc,
        Forall (λ mc,
          SystemComparator.has_system_data mc = false
          ∧ Forall (λ f, SystemComparator.is_used_in_system f = true)
              (SystemComparator.fields mc)
          ∧ SystemComparator.unused_count (SystemComparator.statistics mc) = 0)
          (SystemComparator.mappings fc))
        (SystemComparator.files out).
Proof.
  destruct (C1_no_usage_record_all_used (Some []) one_field_etl [])
    as (out & Hout & Hall).
  exists out. split; [exact Hout|].
  unfold mappingwise in Hall. simpl in Hall.
  apply Forall2_cons_inv_l in Hall
    as (fc & fcs & Hmaps & ->%Forall2_nil_inv_l & ->).
  simpl in Hmaps.
  apply Forall2_cons_inv_l in Hmaps
    as (mc & mcs & Hmc & ->%Forall2_nil_inv_l & Heq).
  destruct (Hmc eq_refl) as (Hdata & Hused & _ & Hzero).
  constructor; [|constructor]. rewrite Heq.
  constructor; [|constructor]. done.
Defined.

(** C3: in the usage comparison every field's [is_used_in_system] is the
    negation of the membership of its normalized [laborit] name in the
    unused set extracted for the mapping's table, the two counters count
    the fields flagged used and the fields flagged unused, and
    [used_count + unused_count = total_fields]; the comparison never raises. *)
Theorem C3_usage_flag_totality system_file etl_metadata system_metadata :
  ∃ out,
    SystemComparator.compare_metadatas system_file etl_metadata system_metadata
      = Ok out
    ∧ mappingwise (λ mapping mc,
        ∃ unused_columns_set unused_columns_mapping,
          FromSystem._get_unused_columns
            (PyDict.lookup (FromSystem._load_system_metadata system_file)
               (get (Doc.table mapping) (PyStr EmptyString)))
            = Ok (unused_columns_set, unused_columns_mapping)
          ∧ Forall2 (λ field f,
              ∃ normalized_laborit,
                SystemComparator.normalize_column_name
                  (get (Doc.laborit field) (PyStr EmptyString))
                  = Ok normalized_laborit
                ∧ SystemComparator.is_used_in_system f
                  = negb (bool_decide
                            (normalized_laborit ∈ unused_columns_set)))
              (Doc.fields mapping) (SystemComparator.fields mc)
          ∧ SystemComparator.used_count (SystemComparator.statistics mc)
            = length (filter (λ f, SystemComparator.is_used_in_system f = true)
                        (SystemComparator.fields mc))
          ∧ SystemComparator.unused_count (SystemComparator.statistics mc)
            = length (filter (λ f, SystemComparator.is_used_in_system f = false)
                        (SystemComparator.fields mc))
          ∧ SystemComparator.total_fields (SystemComparator.statistics mc)
            = length (Doc.fields mapping)
          ∧ SystemComparator.used_count (SystemComparator.statistics mc)
            + SystemComparator.unused_count (SystemComparator.statistics mc)
            = SystemComparator.total_fields (SystemComparator.statistics mc))
      etl_metadata out.
Proof.
  apply system_compare_metadatas_mappingwise. intros mapping mc Hmc.
  destruct (system_compare_mapping_spec
              (FromSystem._load_system_metadata system_file) mapping)
    as (mc' & Hmc' & _ & Hfields & Htotal & Hused & Hunused).
  same_result Hmc Hmc'.
  destruct (get_unused_columns_set
              (PyDict.lookup (FromSystem._load_system_metadata system_file)
                 (get (Doc.table mapping) (PyStr EmptyString))))
    as [um Hum].
  eexists _, um. split; [exact Hum|].
  split.
  { rewrite Hfields. apply Forall2_fmap_r, Forall_Forall2_diag, Forall_forall.
    intros field _. eexists. split; [apply system_normalize|done]. }
  split; [exact Hused|]. split; [exact Hunused|].
  split; [by rewrite Htotal, Hfields, length_fmap|].
  rewrite Hused, Hunused, Htotal. apply count_used_unused.
Qed.

(** C5: the dict encoding [{display_name: internal_name}] and the flat list
    of that dict's non-null values yield the same set of unused names,
    neither extraction raises, and that set holds exactly the names
    [_normalize_name] returns on the non-null values of the dict. *)
Theorem C5_unused_encodings_agree
    (tabela : option pyval) (unused_columns_dict : list (string * pyval)) :
  let non_null_values :=
    filter (λ en_name, en_name ≠ PyNone) unused_columns_dict.*2 in
  ∃ unused_columns_set mapping_of_dict mapping_of_list,
    FromSystem._get_unused_columns
      (Some {| Doc.tabela := tabela;
               Doc.colunas_nao_utilizadas :=
                 Some (Doc.UnusedDict unused_columns_dict) |})
      = Ok (unused_columns_set, mapping_of_dict)
    ∧ FromSystem._get_unused_columns
        (Some {| Doc.tabela := tabela;
                 Doc.colunas_nao_utilizadas :=
                   Some (Doc.UnusedList non_null_values) |})
      = Ok (unused_columns_set, mapping_of_list)
    ∧ Forall (λ en_name,
        ∃ name,
          FromSystem._normalize_name en_name = Ok name
          ∧ name ∈ unused_columns_set)
        non_null_values
    ∧ Forall (λ name,
        ∃ pt_name en_name,
          (pt_name, en_name) ∈ unused_columns_dict
          ∧ en_name ≠ PyNone
          ∧ FromSystem._normalize_name en_name = Ok name)
        (elements unused_columns_set)
    ∧ unused_columns_set = list_to_set (normalized <$> non_null_values).
Proof.
  intros non_null_values.
  destruct (get_unused_columns_set
    (Some {| Doc.tabela := tabela;
             Doc.colunas_nao_utilizadas :=
               Some (Doc.UnusedDict unused_columns_dict) |})) as [m1 H1].
  destruct (get_unused_columns_set
    (Some {| Doc.tabela := tabela;
             Doc.colunas_nao_utilizadas :=
               Some (Doc.UnusedList non_null_values) |})) as [m2 H2].
  exists (unused_names unused_columns_dict.*2), m1, m2.
  split; [exact H1|]. split.
  { rewrite H2. f_equal. f_equal.
    unfold unused_set_of. simpl. apply unused_names_filter. }
  split; [|split; [|reflexivity]].
  - apply Forall_forall. intros en_name Hen.
    exists (normalized en_name). split.
    + apply list_elem_of_filter in Hen as [Hen _].
      by apply from_system_normalize_not_None.
    + unfold unused_names. apply elem_of_list_to_set, list_elem_of_fmap.
      by exists en_name.
  - apply Forall_forall. intros name Hname.
    apply elem_of_elements in Hname. unfold unused_names in Hname.
    apply elem_of_list_to_set, list_elem_of_fmap in Hname
      as (en_name & -> & Hen).
    apply list_elem_of_filter in Hen as [Hnone Hen].
    apply list_elem_of_fmap in Hen as ([pt_name en_name'] & -> & Hpair).
    exists pt_name, en_name'. split; [exact Hpair|]. split; [exact Hnone|].
    by apply from_system_normalize_not_None.
Qed.

(** ** Insertion-ordered dictionaries: lookup, keys, overwriting *)

Section pydict.
Context {K V : Type} `{EqDecision K}.
Implicit Types (d items : list (K * V)) (k : K) (v : V).

Lemma pydict_lookup_set d k v k' :
  PyDict.lookup (PyDict.set d k v) k'
  = if decide (k' = k) then Some v else PyDict.lookup d k'.
Proof.
  induction d as [|[k0 v0] d IH]; simpl.
  - by repeat case_decide.
  - destruct (decide (k = k0)) as [->|Hne]; simpl.
    + by repeat case_decide.
    + rewrite IH. repeat case_decide; congruence.
Qed.

Lemma pydict_lookup_keys d k : is_Some (PyDict.lookup d k) ↔ k ∈ PyDict.keys d.
Proof.
  unfold PyDict.keys. induction d as [|[k0 v0] d IH]; simpl.
  - split; [by intros [? ?] | by intros ?%elem_of_nil].
  - rewrite elem_of_cons. case_decide as Hk; [|tauto].
    split; [by left | by eexists].
Qed.

Lemma pydict_lookup_None d k : PyDict.lookup d k = None ↔ k ∉ PyDict.keys d.
Proof. rewrite <- pydict_lookup_keys, eq_None_not_Some. done. Qed.

Lemma pydict_mem_keys d k : PyDict.mem k d = bool_decide (k ∈ PyDict.keys d).
Proof. unfold PyDict.mem. apply bool_decide_ext, pydict_lookup_keys. Qed.

Lemma pydict_lookup_elem_of d k v : PyDict.lookup d k = Some v → (k, v) ∈ d.
Proof.
  induction d as [|[k0 v0] d IH]; simpl; [done|].
  case_decide as Hk.
  - intros [= ->]. subst. by left.
  - intros ?. right. by apply IH.
Qed.

Lemma pydict_elem_of_lookup d k v :
  NoDup (PyDict.keys d) → (k, v) ∈ d → PyDict.lookup d k = Some v.
Proof.
  unfold PyDict.keys. induction d as [|[k0 v0] d IH]; simpl.
  - by intros _ ?%elem_of_nil.
  - intros [Hk0 Hnd]%NoDup_cons [[= -> ->]|Hin]%elem_of_cons.
    + case_decide; [done | congruence].
    + case_decide as Hk; [|by apply IH].
      subst. destruct Hk0. apply list_elem_of_fmap. by exists (k0, v).
Qed.

Lemma pydict_keys_set d k v :
  PyDict.keys (PyDict.set d k v)
  = if decide (k ∈ PyDict.keys d) then PyDict.keys d else PyDict.keys d ++ [k].
Proof.
  unfold PyDict.keys. induction d as [|[k0 v0] d IH].
  - destruct (decide (k ∈ _)) as [Hin|_]; [by apply elem_of_nil in Hin | done].
  - cbn [PyDict.set]. rewrite fmap_cons. cbn [fst].
    destruct (decide (k = k0)) as [->|Hne].
    + rewrite fmap_cons. cbn [fst].
      destruct (decide (k0 ∈ k0 :: d.*1)) as [_|Hnin]; [done|].
      destruct Hnin. by left.
    + rewrite fmap_cons, IH. cbn [fst].
      destruct (decide (k ∈ d.*1)) as [Hin|Hnin],
               (decide (k ∈ k0 :: d.*1)) as [Hin'|Hnin'];
        rewrite ?elem_of_cons in *; try done; tauto.
Qed.

Lemma pydict_NoDup_set d k v :
  NoDup (PyDict.keys d) → NoDup (PyDict.keys (PyDict.set d k v)).
Proof.
  intros Hnd. rewrite pydict_keys_set. case_decide as Hin; [done|].
  apply NoDup_app. split; [done|]. split; [|apply NoDup_singleton].
  intros k' Hk' ->%list_elem_of_singleton. done.
Qed.

Lemma pydict_elem_of_keys_set d k v k' :
  k' ∈ PyDict.keys (PyDict.set d k v) ↔ k' = k ∨ k' ∈ PyDict.keys d.
Proof.
  rewrite pydict_keys_set. case_decide as Hin.
  - split; [tauto | intros [->|?]; done].
  - rewrite elem_of_app, list_elem_of_singleton. tauto.
Qed.

Lemma from_items_cons d k v items :
  from_items d ((k, v) :: items) = from_items (PyDict.set d k v) items.
Proof. done. Qed.

Lemma from_items_app d items1 items2 :
  from_items d (items1 ++ items2) = from_items (from_items d items1) items2.
Proof. apply foldl_app. Qed.

Lemma from_items_NoDup d items :
  NoDup (PyDict.keys d) → NoDup (PyDict.keys (from_items d items)).
Proof.
  revert d. induction items as [|[k v] items IH]; intros d Hnd; [done|].
  rewrite from_items_cons. by apply IH, pydict_NoDup_set.
Qed.

Lemma from_items_keys d items k :
  k ∈ PyDict.keys (from_items d items) ↔ k ∈ PyDict.keys d ∨ k ∈ items.*1.
Proof.
  revert d. induction items as [|[k0 v0] items IH]; intros d.
  - simpl. rewrite elem_of_nil. tauto.
  - rewrite from_items_cons, IH, pydict_elem_of_keys_set, fmap_cons,
      elem_of_cons.
    simpl. tauto.
Qed.

(** Last write wins: the value under [k] is the one of the last item
    written under [k], if any, else the initial one. *)
Lemma from_items_lookup d items k :
  PyDict.lookup (from_items d items) k
  = match last (filter (λ item, item.1 = k) items) with
    | Some item => Some item.2
    | None => PyDict.lookup d k
    end.
Proof.
  revert d. induction items as [|[k0 v0] items IH]; intros d; [done|].
  rewrite from_items_cons, IH, filter_cons, pydict_lookup_set. simpl.
  destruct (decide (k0 = k)) as [->|Hne].
  - rewrite last_cons. rewrite decide_True by done.
    by destruct (last _).
  - rewrite decide_False by done. done.
Qed.

Lemma pydict_elem_of_set d k v k' v' :
  (k', v') ∈ PyDict.set d k v → (k', v') = (k, v) ∨ (k', v') ∈ d.
Proof.
  induction d as [|[k1 v1] d IH]; cbn [PyDict.set].
  - intros ->%list_elem_of_singleton. by left.
  - destruct (decide (k = k1)) as [->|Hne]; rewrite !elem_of_cons.
    + intros [->|?]; auto.
    + intros [->|?%IH]; tauto.
Qed.

Lemma from_items_elem_of d items k v :
  (k, v) ∈ from_items d items → (k, v) ∈ d ∨ (k, v) ∈ items.
Proof.
  revert d. induction items as [|[k0 v0] items IH]; intros d; [by left|].
  rewrite from_items_cons, elem_of_cons.
  intros [[?|?]%pydict_elem_of_set|?]%IH; tauto.
Qed.

Lemma comprehension_from_items {A} (key : A → K) (val : A → V) (xs : list A) :
  PyDict.comprehension key val xs
  = from_items [] ((λ x, (key x, val x)) <$> xs).
Proof.
  unfold PyDict.comprehension, from_items.
  generalize (@nil (K * V)). induction xs as [|x xs IH]; intros d; [done|].
  simpl. apply IH.
Qed.

End pydict.

(** ** The flattened field map of one file *)

Lemma truthy_normalize v :
  truthy v → S3Comparator.normalize_column_name v = Ok (normalized v).
Proof. by destruct v as [|[|c s]]. Qed.

Lemma field_entries_app fields1 fields2 :
  field_entries (fields1 ++ fields2)
  = field_entries fields1 ++ field_entries fields2.
Proof. unfold field_entries. by rewrite filter_app, fmap_app. Qed.

Lemma field_entries_cons field fields :
  field_entries (field :: fields)
  = if truthy (source_name field)
    then (normalized (source_name field), field_info field)
           :: field_entries fields
    else field_entries fields.
Proof.
  unfold field_entries. rewrite filter_cons.
  destruct (truthy (source_name field)) eqn:Ht.
  - case_decide as H; [reflexivity | by destruct H].
  - case_decide as H; [by destruct H | reflexivity].
Qed.

Lemma collect_step_spec fields_map field :
  S3Comparator.collect_step fields_map field
  = Ok (from_items fields_map (field_entries [field])).
Proof.
  unfold S3Comparator.collect_step. rewrite field_entries_cons.
  fold (source_name field).
  destruct (truthy (source_name field)) eqn:Ht; [|done].
  rewrite truthy_normalize by (by rewrite Ht). done.
Qed.

Lemma collect_loop fields fields_map :
  for_fold S3Comparator.collect_step fields_map fields
  = Ok (from_items fields_map (field_entries fields)).
Proof.
  revert fields_map. induction fields as [|field fields IH]; intros fields_map.
  - done.
  - cbn [for_fold]. rewrite collect_step_spec. cbn [mbind result_bind].
    rewrite IH, <- from_items_app, <- field_entries_app. done.
Qed.

Lemma collect_fields_spec file_data :
  S3Comparator.collect_fields file_data
  = Ok (from_items [] (field_entries (file_fields file_data))).
Proof.
  destruct file_data as [file_data|]; [|done]. simpl.
  generalize (@nil (string * S3Comparator.FieldInfo)).
  induction (Doc.mappings file_data) as [|mapping mappings IH]; intros acc.
  - done.
  - cbn [for_fold]. rewrite collect_loop. cbn [mbind result_bind].
    rewrite IH. rewrite bind_cons, field_entries_app, from_items_app. done.
Qed.

Lemma field_entries_keys fields :
  (field_entries fields).*1
  = normalized <$> filter (λ v, truthy v) (source_name <$> fields).
Proof.
  induction fields as [|field fields IH]; [done|].
  rewrite field_entries_cons, fmap_cons, filter_cons.
  destruct (truthy (source_name field)) eqn:Ht.
  - case_decide as H; [|by destruct H]. rewrite !fmap_cons. by rewrite IH.
  - case_decide as H; [by destruct H | done].
Qed.

Lemma field_entries_elem_of fields k info :
  (k, info) ∈ field_entries fields →
  truthy (S3Comparator.from_santander info)
  ∧ normalized (S3Comparator.from_santander info) = k.
Proof.
  unfold field_entries. intros (field & [= -> ->] & Hin)%list_elem_of_fmap.
  apply list_elem_of_filter in Hin as [Ht _]. done.
Qed.

(** The map built for one file: no duplicate key, its key set is
    [field_names], and every stored source name normalizes to its key. *)
Lemma collected_NoDup file_data :
  NoDup (PyDict.keys (from_items [] (field_entries (file_fields file_data)))).
Proof. apply from_items_NoDup. constructor. Qed.

Lemma collected_keys file_data :
  list_to_set
    (PyDict.keys (from_items [] (field_entries (file_fields file_data))))
  = field_names file_data.
Proof.
  unfold field_names. rewrite <- field_entries_keys.
  apply set_eq. intros k. rewrite !elem_of_list_to_set, from_items_keys.
  unfold PyDict.keys at 1. simpl. rewrite elem_of_nil. tauto.
Qed.

Lemma collected_names file_data k info :
  (k, info) ∈ from_items [] (field_entries (file_fields file_data)) →
  truthy (S3Comparator.from_santander info)
  ∧ normalized (S3Comparator.from_santander info) = k.
Proof.
  intros [Hin|Hin]%from_items_elem_of; [by apply elem_of_nil in Hin|].
  by eapply field_entries_elem_of.
Qed.

(** ** The three-way partition of one file *)

Lemma partition_s3_loop
    (s3_fields_map etl_fields_map : list (string * S3Comparator.FieldInfo))
    both0 only0 :
  ∃ both only,
    foldl (S3Comparator.s3_step etl_fields_map) (both0, only0) s3_fields_map
    = (both0 ++ both, only0 ++ only)
    ∧ S3Comparator.both_from_santander <$> both
      = (λ kv, S3Comparator.from_santander kv.2)
          <$> filter (λ kv, kv.1 ∈ PyDict.keys etl_fields_map) s3_fields_map
    ∧ only
      = snd <$> filter (λ kv, kv.1 ∉ PyDict.keys etl_fields_map)
                  s3_fields_map.
Proof.
  revert both0 only0.
  induction s3_fields_map as [|[k info] m IH]; intros both0 only0.
  - exists [], []. by rewrite !app_nil_r.
  - cbn [foldl S3Comparator.s3_step]. rewrite !filter_cons. cbn [fst].
    destruct (PyDict.lookup etl_fields_map k) as [etl_field|] eqn:Hk.
    + edestruct IH as (both & only & -> & Hboth & Honly).
      assert (Hin : k ∈ PyDict.keys etl_fields_map)
        by (apply pydict_lookup_keys; by eexists).
      rewrite decide_True, decide_False by auto.
      eexists (_ :: both), only. rewrite <- app_assoc. split; [done|].
      rewrite !fmap_cons, Hboth. done.
    + edestruct IH as (both & only & -> & Hboth & Honly).
      assert (Hnin : k ∉ PyDict.keys etl_fields_map)
        by by apply pydict_lookup_None.
      rewrite decide_False, decide_True by auto.
      eexists both, (_ :: only). rewrite <- app_assoc. split; [done|].
      split; [done|]. rewrite fmap_cons, Honly. by destruct info.
Qed.

Lemma partition_s3_spec
    (s3_fields_map etl_fields_map : list (string * S3Comparator.FieldInfo)) :
  S3Comparator.both_from_santander
    <$> (S3Comparator.partition_s3 s3_fields_map etl_fields_map).1
  = (λ kv, S3Comparator.from_santander kv.2)
      <$> filter (λ kv, kv.1 ∈ PyDict.keys etl_fields_map) s3_fields_map
  ∧ (S3Comparator.partition_s3 s3_fields_map etl_fields_map).2
    = snd <$> filter (λ kv, kv.1 ∉ PyDict.keys etl_fields_map) s3_fields_map.
Proof.
  unfold S3Comparator.partition_s3.
  destruct (partition_s3_loop s3_fields_map etl_fields_map [] [])
    as (both & only & -> & Hboth & Honly).
  done.
Qed.

Lemma partition_etl_loop
    (s3_fields_map etl_fields_map : list (string * S3Comparator.FieldInfo))
    only0 :
  foldl (S3Comparator.etl_step s3_fields_map) only0 etl_fields_map
  = only0
    ++ (snd <$> filter (λ kv, kv.1 ∉ PyDict.keys s3_fields_map)
                  etl_fields_map).
Proof.
  revert only0. induction etl_fields_map as [|[k info] m IH]; intros only0.
  - by rewrite app_nil_r.
  - cbn [foldl S3Comparator.etl_step].
    rewrite IH, filter_cons, pydict_mem_keys. cbn [fst].
    destruct (decide (k ∈ PyDict.keys s3_fields_map)) as [Hin|Hnin].
    + rewrite bool_decide_eq_true_2 by done. rewrite decide_False by auto.
      done.
    + rewrite bool_decide_eq_false_2 by done. rewrite decide_True by auto.
      cbn [negb]. rewrite <- app_assoc, fmap_cons. by destruct info.
Qed.

Lemma partition_etl_spec
    (s3_fields_map etl_fields_map : list (string * S3Comparator.FieldInfo)) :
  S3Comparator.partition_etl s3_fields_map etl_fields_map
  = snd <$> filter (λ kv, kv.1 ∉ PyDict.keys s3_fields_map) etl_fields_map.
Proof. unfold S3Comparator.partition_etl. by rewrite partition_etl_loop. Qed.

(** Where every stored source name normalizes to its key, the normalized
    names of a filtered part of the map are the filtered keys. *)
Lemma filtered_names (P : string → Prop) `{∀ k, Decision (P k)}
    (m : list (string * S3Comparator.FieldInfo)) :
  Forall (λ kv, normalized (S3Comparator.from_santander kv.2) = kv.1) m →
  normalized <$> ((λ kv, S3Comparator.from_santander kv.2)
                    <$> filter (λ kv, P kv.1) m)
  = filter P (PyDict.keys m).
Proof.
  unfold PyDict.keys. induction 1 as [|[k info] m Hk _ IH]; [done|].
  rewrite fmap_cons, !filter_cons. cbn [fst]. simpl in Hk.
  case_decide; [|done]. rewrite !fmap_cons, IH. cbn [snd]. by rewrite Hk.
Qed.

(** The partition of two duplicate-free key lists. *)
Lemma three_way_NoDup (l1 l2 : list string) :
  NoDup l1 → NoDup l2 →
  NoDup (filter (λ k, k ∈ l2) l1 ++ filter (λ k, k ∉ l2) l1
         ++ filter (λ k, k ∉ l1) l2).
Proof.
  intros H1 H2. apply NoDup_app. split; [by apply NoDup_filter|]. split.
  - intros k [Hk2 Hk1]%list_elem_of_filter.
    rewrite elem_of_app, !list_elem_of_filter. tauto.
  - apply NoDup_app. split; [by apply NoDup_filter|].
    split; [|by apply NoDup_filter].
    intros k [Hk2 Hk1]%list_elem_of_filter. rewrite list_elem_of_filter. tauto.
Qed.

Lemma three_way_union (l1 l2 : list string) :
  list_to_set (filter (λ k, k ∈ l2) l1 ++ filter (λ k, k ∉ l2) l1
               ++ filter (λ k, k ∉ l1) l2)
  =@{gset string} list_to_set l2 ∪ list_to_set l1.
Proof.
  apply set_eq. intros k.
  rewrite elem_of_union, !elem_of_list_to_set, !elem_of_app,
    !list_elem_of_filter.
  destruct (decide (k ∈ l1)), (decide (k ∈ l2)); tauto.
Qed.

(** ** The storage comparison, file by file *)

Lemma s3_compare_file_spec s3_files_map etl_files_map file_name :
  S3Comparator.compare_file s3_files_map etl_files_map file_name
  = Ok (comparison_item_of s3_files_map etl_files_map file_name).
Proof.
  unfold S3Comparator.compare_file, comparison_item_of, fields_map_of.
  rewrite !collect_fields_spec. cbn [mbind result_bind].
  by destruct (S3Comparator.partition_s3 _ _).
Qed.

Lemma s3_compare_metadatas_spec s3_metadata etl_metadata :
  ∃ out,
    S3Comparator.compare_metadatas s3_metadata etl_metadata = Ok out
    ∧ S3Comparator.comparisons out
      = comparison_item_of
          (PyDict.comprehension Doc.name id (Doc.files s3_metadata))
          (PyDict.comprehension Doc.name id (Doc.files etl_metadata))
          <$> compared_names s3_metadata etl_metadata.
Proof.
  unfold S3Comparator.compare_metadatas.
  fold (compared_names s3_metadata etl_metadata).
  erewrite for_map_pure;
    [|apply Forall_forall; intros k _; apply s3_compare_file_spec].
  cbn [mbind result_bind]. eexists. split; reflexivity.
Qed.

Lemma comprehension_keys (files : list Doc.File) k :
  k ∈ PyDict.keys (PyDict.comprehension Doc.name id files)
  ↔ k ∈ Doc.name <$> files.
Proof.
  rewrite comprehension_from_items, from_items_keys, <- list_fmap_compose.
  unfold PyDict.keys at 1. simpl. rewrite elem_of_nil. tauto.
Qed.

Lemma compared_names_elem_of s3_metadata etl_metadata k :
  k ∈ compared_names s3_metadata etl_metadata
  ↔ k ∈ Doc.name <$> Doc.files s3_metadata
    ∨ k ∈ Doc.name <$> Doc.files etl_metadata.
Proof.
  unfold compared_names, sorted. rewrite merge_sort_Permutation.
  rewrite elem_of_elements, elem_of_union, !elem_of_list_to_set.
  by rewrite !comprehension_keys.
Qed.

Lemma compared_names_NoDup s3_metadata etl_metadata :
  NoDup (compared_names s3_metadata etl_metadata).
Proof.
  unfold compared_names, sorted. rewrite merge_sort_Permutation.
  apply NoDup_elements.
Qed.

Lemma string_le_lt (s1 s2 : string) :
  String.le s1 s2 → s1 ≠ s2 → String.ltb s1 s2 = true.
Proof.
  unfold String.le, String.leb, String.ltb. intros Hle Hne.
  destruct (String.compare s1 s2) eqn:Hcmp; [|done|done].
  by apply String.compare_eq_iff in Hcmp.
Qed.

Lemma StronglySorted_strict (l : list string) :
  StronglySorted String.le l → NoDup l →
  StronglySorted (λ s1 s2, String.ltb s1 s2 = true) l.
Proof.
  induction 1 as [|k l Hl IH Hk]; intros [Hnin Hnd]%NoDup_cons || intros _.
  - constructor.
  - constructor; [by apply IH|].
    apply Forall_forall. intros k' Hk'. apply string_le_lt.
    + by eapply Forall_forall in Hk.
    + intros ->. done.
Qed.

Lemma compared_names_sorted s3_metadata etl_metadata :
  StronglySorted (λ s1 s2, String.ltb s1 s2 = true)
    (compared_names s3_metadata etl_metadata).
Proof.
  apply StronglySorted_strict; [|apply compared_names_NoDup].
  unfold compared_names, sorted. apply StronglySorted_merge_sort; apply _.
Qed.

Lemma filter_fmap {A B} (f : A → B) (P : B → Prop) `{∀ y, Decision (P y)}
    (l : list A) :
  filter P (f <$> l) = f <$> filter (λ x, P (f x)) l.
Proof.
  induction l as [|x l IH]; [done|].
  rewrite fmap_cons, !filter_cons. case_decide; [|done].
  by rewrite fmap_cons, IH.
Qed.

Lemma Forall_filter_keep {A} (P Q : A → Prop) `{∀ x, Decision (Q x)}
    (l : list A) :
  Forall P l → Forall P (filter Q l).
Proof.
  rewrite !Forall_forall. intros HP x [_ Hx]%list_elem_of_filter. auto.
Qed.

Lemma comprehension_lookup {K V A} `{EqDecision K} (key : A → K)
    (val : A → V) (xs : list A) k :
  PyDict.lookup (PyDict.comprehension key val xs) k
  = val <$> last (filter (λ x, key x = k) xs).
Proof.
  rewrite comprehension_from_items, from_items_lookup.
  rewrite (filter_fmap (λ x, (key x, val x)) (λ item, item.1 = k)).
  rewrite fmap_last. cbn [fst]. by destruct (last _).
Qed.

Lemma comprehension_lookup_elem_of {K V A} `{EqDecision K} (key : A → K)
    (val : A → V) (xs : list A) k v :
  PyDict.lookup (PyDict.comprehension key val xs) k = Some v →
  ∃ x, x ∈ xs ∧ key x = k ∧ v = val x.
Proof.
  rewrite comprehension_lookup.
  destruct (last _) as [x|] eqn:Hlast; [|done]. intros [= <-].
  apply last_Some_elem_of, list_elem_of_filter in Hlast as [? ?]. eauto.
Qed.

Lemma fields_map_of_names files_map file_name :
  Forall (λ kv, normalized (S3Comparator.from_santander kv.2) = kv.1)
    (fields_map_of files_map file_name).
Proof.
  apply Forall_forall. intros [k info] Hin.
  by apply collected_names in Hin as [_ ?].
Qed.

Lemma fields_map_of_truthy files_map file_name :
  Forall (λ kv, truthy (S3Comparator.from_santander kv.2))
    (fields_map_of files_map file_name).
Proof.
  apply Forall_forall. intros [k info] Hin.
  by apply collected_names in Hin as [? _].
Qed.

Lemma item_names s3_files_map etl_files_map file_name :
  let item := comparison_item_of s3_files_map etl_files_map file_name in
  let s3_keys := PyDict.keys (fields_map_of s3_files_map file_name) in
  let etl_keys := PyDict.keys (fields_map_of etl_files_map file_name) in
  names_in_both item = filter (λ k, k ∈ etl_keys) s3_keys
  ∧ names_only_in_s3 item = filter (λ k, k ∉ etl_keys) s3_keys
  ∧ names_only_in_etl item = filter (λ k, k ∉ s3_keys) etl_keys.
Proof.
  intros item s3_keys etl_keys.
  unfold names_in_both, names_only_in_s3, names_only_in_etl, item,
    comparison_item_of. cbn [S3Comparator.fields_in_both
    S3Comparator.fields_only_in_s3 S3Comparator.fields_only_in_etl].
  destruct (partition_s3_spec (fields_map_of s3_files_map file_name)
              (fields_map_of etl_files_map file_name)) as [-> ->].
  rewrite partition_etl_spec.
  rewrite <- !(list_fmap_compose snd S3Comparator.from_santander).
  split; [|split].
  - exact (filtered_names (λ k, k ∈ etl_keys) _ (fields_map_of_names _ _)).
  - exact (filtered_names (λ k, k ∉ etl_keys) _ (fields_map_of_names _ _)).
  - exact (filtered_names (λ k, k ∉ s3_keys) _ (fields_map_of_names _ _)).
Qed.

Lemma fields_map_of_keys files_map file_name :
  list_to_set (PyDict.keys (fields_map_of files_map file_name))
  = field_names (PyDict.lookup files_map file_name).
Proof. apply collected_keys. Qed.

Lemma fields_map_of_NoDup files_map file_name :
  NoDup (PyDict.keys (fields_map_of files_map file_name)).
Proof. apply collected_NoDup. Qed.

(** ** Claims on the storage comparison *)

(** C2: the storage comparison never raises, and every file key compared —
    every file name of either document — has an item in [comparisons] whose
    three lists [fields_in_both], [fields_only_in_s3] and
    [fields_only_in_etl] are pairwise disjoint as sets of normalized source
    names (together they hold no name twice); they are the intersection and
    the two differences of the normalized field-name sets A (ETL) and B
    (storage) of that file, and the three sizes sum to the size of A ∪ B.
    The same holds of every item of [comparisons]. *)
Theorem C2_partition_completeness s3_metadata etl_metadata :
  ∃ out,
    S3Comparator.compare_metadatas s3_metadata etl_metadata = Ok out
    ∧ Forall (λ file_key,
        ∃ item,
          item ∈ S3Comparator.comparisons out
          ∧ S3Comparator.file_name item = file_key
          ∧ three_way_partition s3_metadata etl_metadata item)
        ((Doc.name <$> Doc.files s3_metadata)
         ++ (Doc.name <$> Doc.files etl_metadata))
    ∧ Forall (three_way_partition s3_metadata etl_metadata)
        (S3Comparator.comparisons out).
Proof.
  destruct (s3_compare_metadatas_spec s3_metadata etl_metadata)
    as (out & Hout & Hcmp).
  exists out. split; [exact Hout|]. rewrite Hcmp.
  set (s3_files_map :=
         PyDict.comprehension Doc.name id (Doc.files s3_metadata)).
  set (etl_files_map :=
         PyDict.comprehension Doc.name id (Doc.files etl_metadata)).
  assert (∀ k, three_way_partition s3_metadata etl_metadata
                 (comparison_item_of s3_files_map etl_files_map k)) as Hitem.
  { intros k. unfold three_way_partition.
    fold s3_files_map. fold etl_files_map. simpl.
    destruct (item_names s3_files_map etl_files_map k) as (Hboth & Hs3 & Hetl).
    rewrite <- !fields_map_of_keys.
    pose proof (fields_map_of_NoDup s3_files_map k) as Hnd_s3.
    pose proof (fields_map_of_NoDup etl_files_map k) as Hnd_etl.
    set (item := comparison_item_of s3_files_map etl_files_map k) in *.
    set (s3_keys := PyDict.keys (fields_map_of s3_files_map k)) in *.
    set (etl_keys := PyDict.keys (fields_map_of etl_files_map k)) in *.
    assert (Hnd : NoDup (names_in_both item ++ names_only_in_s3 item
                         ++ names_only_in_etl item)).
    { rewrite Hboth, Hs3, Hetl. by apply three_way_NoDup. }
    assert (Hsize : length (S3Comparator.fields_in_both item)
            + length (S3Comparator.fields_only_in_s3 item)
            + length (S3Comparator.fields_only_in_etl item)
            = size (list_to_set etl_keys ∪ list_to_set s3_keys : gset string)).
    { rewrite <- three_way_union, <- Hboth, <- Hs3, <- Hetl.
      rewrite size_list_to_set by done.
      unfold names_in_both, names_only_in_s3, names_only_in_etl.
      rewrite !length_app, !length_fmap. lia. }
    assert (Hin_both : list_to_set (names_in_both item)
              =@{gset string} list_to_set etl_keys ∩ list_to_set s3_keys).
    { rewrite Hboth. apply set_eq. intros n.
      rewrite elem_of_list_to_set, list_elem_of_filter. set_solver. }
    assert (Honly_s3 : list_to_set (names_only_in_s3 item)
              =@{gset string} list_to_set s3_keys ∖ list_to_set etl_keys).
    { rewrite Hs3. apply set_eq. intros n.
      rewrite elem_of_list_to_set, list_elem_of_filter. set_solver. }
    assert (Honly_etl : list_to_set (names_only_in_etl item)
              =@{gset string} list_to_set etl_keys ∖ list_to_set s3_keys).
    { rewrite Hetl. apply set_eq. intros n.
      rewrite elem_of_list_to_set, list_elem_of_filter. set_solver. }
    rewrite Hin_both, Honly_s3, Honly_etl.
    split; [set_solver|]. split; [set_solver|]. split; [set_solver|].
    split; [exact Hnd|]. repeat (split; [reflexivity|]).
    split; exact Hsize. }
  split.
  - apply Forall_forall. intros k Hk.
    exists (comparison_item_of s3_files_map etl_files_map k).
    split; [|split; [reflexivity|apply Hitem]].
    apply list_elem_of_fmap. exists k. split; [reflexivity|].
    apply compared_names_elem_of. by apply elem_of_app in Hk.
  - apply Forall_fmap, Forall_forall. intros k _. apply Hitem.
Qed.

Lemma fields_map_of_absent files_map file_name :
  PyDict.lookup files_map file_name = None →
  fields_map_of files_map file_name = [].
Proof. unfold fields_map_of. by intros ->. Qed.

Lemma partition_s3_nil_l
    (etl_fields_map : list (string * S3Comparator.FieldInfo)) :
  S3Comparator.partition_s3 [] etl_fields_map = ([], []).
Proof. done. Qed.

Lemma partition_s3_nil_r
    (s3_fields_map : list (string * S3Comparator.FieldInfo)) :
  (S3Comparator.partition_s3 s3_fields_map []).1 = [].
Proof.
  destruct (partition_s3_spec s3_fields_map []) as [Hboth _].
  eapply fmap_nil_inv. rewrite Hboth. clear Hboth.
  induction s3_fields_map as [|kv m IH]; [done|].
  rewrite filter_cons. case_decide as Hin; [by apply elem_of_nil in Hin|done].
Qed.

(** C6: the [comparisons] list has exactly one entry per file name of the
    union of the two documents' file names, in strictly ascending
    (lexicographic) order of [file_name]; an entry whose name is missing from
    one document has that side's flag false and that side's counts, and the
    in-both count, at zero.  The comparison never raises. *)
Theorem C6_one_entry_per_file_sorted s3_metadata etl_metadata :
  ∃ out,
    S3Comparator.compare_metadatas s3_metadata etl_metadata = Ok out
    ∧ let file_names :=
        S3Comparator.file_name <$> S3Comparator.comparisons out in
      StronglySorted (λ s1 s2, String.ltb s1 s2 = true) file_names
      ∧ NoDup file_names
      ∧ (∀ k, k ∈ file_names
              ↔ k ∈ Doc.name <$> Doc.files s3_metadata
                ∨ k ∈ Doc.name <$> Doc.files etl_metadata)
      ∧ Forall (λ item,
          (S3Comparator.file_name item ∉ Doc.name <$> Doc.files s3_metadata →
           S3Comparator.has_s3_file item = false
           ∧ S3Comparator.s3_mappings_count item = 0
           ∧ S3Comparator.s3_fields_count item = 0
           ∧ S3Comparator.fields_in_both_count item = 0
           ∧ S3Comparator.fields_only_in_s3_count item = 0)
          ∧ (S3Comparator.file_name item ∉ Doc.name <$> Doc.files etl_metadata →
             S3Comparator.has_etl_file item = false
             ∧ S3Comparator.etl_mappings_count item = 0
             ∧ S3Comparator.etl_fields_count item = 0
             ∧ S3Comparator.fields_in_both_count item = 0
             ∧ S3Comparator.fields_only_in_etl_count item = 0))
          (S3Comparator.comparisons out).
Proof.
  destruct (s3_compare_metadatas_spec s3_metadata etl_metadata)
    as (out & Hout & Hcmp).
  exists out. split; [exact Hout|]. rewrite Hcmp. cbn zeta.
  rewrite <- list_fmap_compose.
  assert (Hnames : S3Comparator.file_name
            ∘ comparison_item_of
                (PyDict.comprehension Doc.name id (Doc.files s3_metadata))
                (PyDict.comprehension Doc.name id (Doc.files etl_metadata))
            <$> compared_names s3_metadata etl_metadata
          = compared_names s3_metadata etl_metadata).
  { rewrite <- (list_fmap_id (compared_names _ _)) at 2.
    by apply list_fmap_ext. }
  rewrite Hnames.
  split; [apply compared_names_sorted|].
  split; [apply compared_names_NoDup|].
  split; [apply compared_names_elem_of|].
  apply Forall_fmap, Forall_forall. intros k _. simpl. split.
  - intros Hk. rewrite <- comprehension_keys in Hk.
    apply pydict_lookup_None in Hk.
    rewrite Hk, (fields_map_of_absent _ _ Hk). done.
  - intros Hk. rewrite <- comprehension_keys in Hk.
    apply pydict_lookup_None in Hk.
    rewrite Hk, (fields_map_of_absent _ _ Hk), partition_s3_nil_r.
    done.
Qed.

Lemma C6_one_entry_per_file_sorted_witness :
  ∃ out,
    S3Comparator.compare_metadatas
      {| Doc.files := [ {| Doc.name := "b"; Doc.mappings := [] |} ] |}
      one_field_etl = Ok out
    ∧ S3Comparator.file_name <$> S3Comparator.comparisons out = ["b"; "clients"]
    ∧ Forall (λ item,
        S3Comparator.file_name item = "clients" →
        S3Comparator.has_s3_file item = false
        ∧ S3Comparator.s3_fields_count item = 0)
        (S3Comparator.comparisons out).
Proof.
  destruct (C6_one_entry_per_file_sorted
              {| Doc.files := [ {| Doc.name := "b"; Doc.mappings := [] |} ] |}
              one_field_etl) as (out & Hout & _ & _ & _ & Hzero).
  exists out. split; [exact Hout|].
  assert (Hnames : S3Comparator.file_name <$> S3Comparator.comparisons out
                     = ["b"; "clients"]).
  { revert Hout. vm_compute. by intros [= <-]. }
  split; [exact Hnames|].
  eapply Forall_impl; [exact Hzero|]. intros item [Hs3 _] Hname. simpl in Hs3.
  destruct Hs3 as (Hflag & _ & Hcount & _).
  - rewrite Hname. intros [=]%list_elem_of_singleton.
  - split; [exact Hflag | exact Hcount].
Defined.

Lemma field_entries_filter_key fields k :
  filter (λ item, item.1 = k) (field_entries fields)
  = (λ field, (normalized (source_name field), field_info field))
      <$> filter (λ field, truthy (source_name field)
                           ∧ normalized (source_name field) = k) fields.
Proof.
  unfold field_entries.
  rewrite (filter_fmap _ (λ item, item.1 = k)). cbn [fst]. f_equal.
  rewrite list_filter_filter. apply list_filter_iff. tauto.
Qed.

(** C7: the flattened lookup map of a file is built without raising, holds
    each normalized name once, and maps a normalized name to the record of
    the last field, in the order of the file's mappings and of their fields,
    whose truthy source name normalizes to it: a later duplicate replaces
    the earlier one. *)
Theorem C7_last_write_wins (file_data : Doc.File) :
  ∃ fields_map,
    S3Comparator.collect_fields (Some file_data) = Ok fields_map
    ∧ NoDup (PyDict.keys fields_map)
    ∧ ∀ normalized_name,
        PyDict.lookup fields_map normalized_name
        = field_info
            <$> last (filter (λ field,
                                truthy (source_name field)
                                ∧ normalized (source_name field)
                                  = normalized_name)
                        (file_fields (Some file_data))).
Proof.
  eexists. split; [apply collect_fields_spec|].
  split; [apply collected_NoDup|]. intros k.
  rewrite from_items_lookup, field_entries_filter_key, fmap_last.
  by destruct (last _).
Qed.

(** Two mappings of one file whose source names [Client_ID] and
    [ client_id ] normalize to the same key: the map keeps the second. *)
Example last_write_wins_ex :
  S3Comparator.collect_fields
    (Some {| Doc.name := "clients";
             Doc.mappings :=
               [ {| Doc.map_ := None; Doc.table := None;
                    Doc.fields :=
                      [ {| Doc.from_santander := Some (PyStr "Client_ID");
                           Doc.laborit := Some (PyStr "first");
                           Doc.type_ := None |} ] |};
                 {| Doc.map_ := None; Doc.table := None;
                    Doc.fields :=
                      [ {| Doc.from_santander := Some (PyStr " client_id ");
                           Doc.laborit := Some (PyStr "second");
                           Doc.type_ := None |} ] |} ] |})
  = Ok [ ("client_id",
          {| S3Comparator.from_santander := PyStr " client_id ";
             S3Comparator.laborit := PyStr "second";
             S3Comparator.type_ := PyStr EmptyString |}) ].
Proof. reflexivity. Qed.

(** ** Fields without a source name *)

Lemma field_entries_drop fields :
  field_entries (filter (λ field, truthy (source_name field)) fields)
  = field_entries fields.
Proof.
  unfold field_entries. f_equal. rewrite list_filter_filter.
  apply list_filter_iff. tauto.
Qed.

Lemma file_entries_drop file_data :
  field_entries (file_fields (drop_unnamed_file <$> file_data))
  = field_entries (file_fields file_data).
Proof.
  destruct file_data as [file_data|]; [|done]. simpl.
  induction (Doc.mappings file_data) as [|mapping mappings IH]; [done|].
  rewrite fmap_cons, !bind_cons, !field_entries_app, IH. f_equal.
  apply field_entries_drop.
Qed.

Lemma lookup_drop files k :
  PyDict.lookup
    (PyDict.comprehension Doc.name id (drop_unnamed_file <$> files)) k
  = drop_unnamed_file
      <$> PyDict.lookup (PyDict.comprehension Doc.name id files) k.
Proof.
  rewrite !comprehension_lookup.
  rewrite (filter_fmap drop_unnamed_file (λ x, Doc.name x = k)), fmap_last.
  cbn [drop_unnamed_file Doc.name].
  by destruct (last _).
Qed.

Lemma comparison_item_drop s3_files etl_files k :
  comparison_item_of
    (PyDict.comprehension Doc.name id (drop_unnamed_file <$> s3_files))
    (PyDict.comprehension Doc.name id (drop_unnamed_file <$> etl_files)) k
  = comparison_item_of
      (PyDict.comprehension Doc.name id s3_files)
      (PyDict.comprehension Doc.name id etl_files) k.
Proof.
  unfold comparison_item_of, fields_map_of.
  rewrite !lookup_drop, !file_entries_drop.
  destruct (PyDict.lookup (PyDict.comprehension Doc.name id s3_files) k),
           (PyDict.lookup (PyDict.comprehension Doc.name id etl_files) k);
    simpl; by rewrite ?length_fmap.
Qed.

Lemma compared_names_drop s3_metadata etl_metadata :
  compared_names (drop_unnamed s3_metadata) (drop_unnamed etl_metadata)
  = compared_names s3_metadata etl_metadata.
Proof.
  unfold compared_names. do 2 f_equal. apply set_eq. intros k.
  rewrite !elem_of_union, !elem_of_list_to_set, !comprehension_keys.
  unfold drop_unnamed. cbn [Doc.files].
  rewrite <- !list_fmap_compose.
  assert (Hname : ∀ files : list Doc.File,
            Doc.name ∘ drop_unnamed_file <$> files = Doc.name <$> files)
    by (intros; by apply list_fmap_ext).
  by rewrite !Hname.
Qed.

Lemma comparison_entries_truthy s3_files_map etl_files_map k :
  let item := comparison_item_of s3_files_map etl_files_map k in
  Forall (λ entry, truthy (S3Comparator.both_from_santander entry))
    (S3Comparator.fields_in_both item)
  ∧ Forall (λ entry, truthy (S3Comparator.from_santander entry))
      (S3Comparator.fields_only_in_s3 item)
  ∧ Forall (λ entry, truthy (S3Comparator.from_santander entry))
      (S3Comparator.fields_only_in_etl item).
Proof.
  simpl.
  set (s3_map := fields_map_of s3_files_map k).
  set (etl_map := fields_map_of etl_files_map k).
  destruct (partition_s3_spec s3_map etl_map) as [Hboth Honly].
  rewrite partition_etl_spec, Honly.
  pose proof (fields_map_of_truthy s3_files_map k) as Hs3.
  pose proof (fields_map_of_truthy etl_files_map k) as Hetl.
  fold s3_map in Hs3. fold etl_map in Hetl.
  split; [|split].
  - assert (H : Forall (λ v : pyval, truthy v)
                  (S3Comparator.both_from_santander
                     <$> (S3Comparator.partition_s3 s3_map etl_map).1)).
    { rewrite Hboth. apply Forall_fmap. by apply Forall_filter_keep. }
    rewrite Forall_fmap in H. exact H.
  - apply Forall_fmap. by apply Forall_filter_keep.
  - apply Forall_fmap. by apply Forall_filter_keep.
Qed.

(** C10: a field whose source name is missing, null or the empty string is
    invisible to the storage comparison: removing such fields from both
    documents leaves the whole [comparisons] list (every list and every
    count of every file) unchanged, and no entry of [fields_in_both],
    [fields_only_in_s3] or [fields_only_in_etl] carries a falsy source name.
    The comparison never raises. *)
Theorem C10_unnamed_fields_excluded s3_metadata etl_metadata :
  ∃ out out',
    S3Comparator.compare_metadatas s3_metadata etl_metadata = Ok out
    ∧ S3Comparator.compare_metadatas
        (drop_unnamed s3_metadata) (drop_unnamed etl_metadata) = Ok out'
    ∧ S3Comparator.comparisons out = S3Comparator.comparisons out'
    ∧ Forall (λ item,
        Forall (λ entry, truthy (S3Comparator.both_from_santander entry))
          (S3Comparator.fields_in_both item)
        ∧ Forall (λ entry, truthy (S3Comparator.from_santander entry))
            (S3Comparator.fields_only_in_s3 item)
        ∧ Forall (λ entry, truthy (S3Comparator.from_santander entry))
            (S3Comparator.fields_only_in_etl item))
      (S3Comparator.comparisons out).
Proof.
  destruct (s3_compare_metadatas_spec s3_metadata etl_metadata)
    as (out & Hout & Hcmp).
  destruct (s3_compare_metadatas_spec
              (drop_unnamed s3_metadata) (drop_unnamed etl_metadata))
    as (out' & Hout' & Hcmp').
  exists out, out'. split; [exact Hout|]. split; [exact Hout'|]. split.
  - rewrite Hcmp, Hcmp', compared_names_drop.
    apply list_fmap_ext. intros _ k _. symmetry. apply comparison_item_drop.
  - rewrite Hcmp. apply Forall_fmap, Forall_forall. intros k _.
    apply comparison_entries_truthy.
Qed.

(** ** The consolidation *)

Lemma consolidated_normalize_not_None v :
  v ≠ PyNone → Consolidated._normalize_name v = Ok (normalized v).
Proof. by destruct v. Qed.

Lemma consolidate_field_frame s3_comparison system_fields_map etl_field field :
  Consolidated.consolidate_field s3_comparison system_fields_map etl_field
    = Ok field →
  mirrors_field etl_field field.
Proof.
  unfold Consolidated.consolidate_field.
  intros (exists_in_s3 & _ & (n & _ & [= <-])%bind_Ok)%bind_Ok.
  by repeat split.
Qed.

Lemma consolidate_mapping_frame s3_file_data s3_comparison
    system_file_comparison etl_mapping mapping :
  Consolidated.consolidate_mapping s3_file_data s3_comparison
    system_file_comparison etl_mapping = Ok mapping →
  mirrors_mapping etl_mapping mapping.
Proof.
  unfold Consolidated.consolidate_mapping.
  intros (m & _ & (fs & Hfs & [= <-])%bind_Ok)%bind_Ok.
  split; [done|]. split; [done|]. cbn [Consolidated.fields].
  apply for_map_Forall2 in Hfs.
  eapply Forall2_impl; [exact Hfs|]. intros ??. apply consolidate_field_frame.
Qed.

Lemma consolidate_file_frame s3_files_map s3_comparison_map
    system_comparison_map etl_file file :
  Consolidated.consolidate_file s3_files_map s3_comparison_map
    system_comparison_map etl_file = Ok file →
  mirrors_file etl_file file.
Proof.
  unfold Consolidated.consolidate_file.
  intros (ms & Hms & [= <-])%bind_Ok.
  split; [done|]. cbn [Consolidated.mappings].
  apply for_map_Forall2 in Hms.
  eapply Forall2_impl; [exact Hms|]. intros ??. apply consolidate_mapping_frame.
Qed.

Lemma consolidate_frame etl_metadata s3_metadata_file s3_comparison_file
    system_comparison_file r :
  Consolidated.consolidate (Some etl_metadata) s3_metadata_file
    s3_comparison_file system_comparison_file = Ok r →
  ∃ out, r = Some out ∧ mirrors etl_metadata out.
Proof.
  unfold Consolidated.consolidate.
  intros (fs & Hfs & [= <-])%bind_Ok.
  eexists. split; [done|]. unfold mirrors. cbn [Consolidated.files].
  apply for_map_Forall2 in Hfs.
  eapply Forall2_impl; [exact Hfs|]. intros ??. apply consolidate_file_frame.
Qed.

Lemma comprehension_elem_of {K V A} `{EqDecision K} (key : A → K)
    (val : A → V) (xs : list A) k v :
  (k, v) ∈ PyDict.comprehension key val xs → ∃ x, x ∈ xs ∧ v = val x.
Proof.
  rewrite comprehension_from_items.
  intros [Hin|Hin]%from_items_elem_of; [by apply elem_of_nil in Hin|].
  apply list_elem_of_fmap in Hin as (x & [= -> ->] & Hx). eauto.
Qed.

Lemma scan_fields_total {A} (from_santander_of : A → pyval) entries n :
  Forall (λ entry, from_santander_of entry ≠ PyNone) entries →
  ∃ found, Consolidated.scan_fields from_santander_of entries n = Ok found.
Proof.
  induction 1 as [|entry entries Hentry _ [found IH]]; simpl; [by eexists|].
  rewrite consolidated_normalize_not_None by done. simpl.
  case_decide; [by eexists|]. eauto.
Qed.

Lemma check_field_in_s3_total from_santander s3_comparison :
  from_santander ≠ PyNone →
  (∀ comp, s3_comparison = Some comp →
     Forall (λ entry, S3Comparator.both_from_santander entry ≠ PyNone)
       (S3Comparator.fields_in_both comp)
     ∧ Forall (λ entry, S3Comparator.from_santander entry ≠ PyNone)
         (S3Comparator.fields_only_in_s3 comp)) →
  ∃ found, Consolidated._check_field_in_s3 from_santander s3_comparison
           = Ok found.
Proof.
  intros Hname Hcomp. destruct s3_comparison as [comp|]; simpl; [|by eexists].
  destruct (Hcomp comp eq_refl) as [Hboth Honly].
  rewrite consolidated_normalize_not_None by done. simpl.
  destruct (scan_fields_total S3Comparator.both_from_santander _
              (normalized from_santander) Hboth) as [[] ->]; simpl;
    [by eexists|].
  destruct (scan_fields_total S3Comparator.from_santander _
              (normalized from_santander) Honly) as [[] ->]; simpl;
    by eexists.
Qed.

Lemma build_system_fields_map_total system_mapping_comp :
  Forall (λ sys_field, SystemComparator.from_santander sys_field ≠ PyNone)
    (from_option SystemComparator.fields [] system_mapping_comp) →
  ∃ system_fields_map,
    Consolidated.build_system_fields_map system_mapping_comp
    = Ok system_fields_map.
Proof.
  unfold Consolidated.build_system_fields_map. intros Hnames.
  generalize (@nil (string * SystemComparator.FieldWithUsage)).
  induction Hnames as [|sys_field fields Hname _ IH]; intros acc; simpl;
    [by eexists|].
  rewrite consolidated_normalize_not_None by done. simpl. apply IH.
Qed.

Lemma consolidate_field_total s3_comparison system_fields_map etl_field :
  source_name etl_field ≠ PyNone →
  (∀ comp, s3_comparison = Some comp →
     Forall (λ entry, S3Comparator.both_from_santander entry ≠ PyNone)
       (S3Comparator.fields_in_both comp)
     ∧ Forall (λ entry, S3Comparator.from_santander entry ≠ PyNone)
         (S3Comparator.fields_only_in_s3 comp)) →
  ∃ field,
    Consolidated.consolidate_field s3_comparison system_fields_map etl_field
    = Ok field
    ∧ (s3_comparison = None → Consolidated.exists_in_s3 field = false).
Proof.
  intros Hname Hcomp. unfold Consolidated.consolidate_field.
  fold (source_name etl_field).
  destruct (check_field_in_s3_total (source_name etl_field) s3_comparison
              Hname Hcomp) as [found Hfound].
  rewrite Hfound. simpl.
  rewrite consolidated_normalize_not_None by done. simpl.
  eexists. split; [done|]. intros ->. simpl in Hfound. simpl. congruence.
Qed.

Lemma count_none_exists fields :
  Forall (λ field, Consolidated.exists_in_s3 field = false) fields →
  length (filter (λ f, Consolidated.exists_in_s3 f = true) fields) = 0.
Proof.
  induction 1 as [|field fields Hfield _ IH]; [done|].
  rewrite filter_cons, decide_False; [done|]. by rewrite Hfield.
Qed.

Lemma consolidate_mapping_total s3_file_data s3_comparison
    system_file_comparison etl_mapping :
  Forall (λ etl_field, source_name etl_field ≠ PyNone)
    (Doc.fields etl_mapping) →
  Forall (λ kv,
    Forall (λ sys_field, SystemComparator.from_santander sys_field ≠ PyNone)
      (SystemComparator.fields kv.2)) system_file_comparison →
  (∀ comp, s3_comparison = Some comp →
     Forall (λ entry, S3Comparator.both_from_santander entry ≠ PyNone)
       (S3Comparator.fields_in_both comp)
     ∧ Forall (λ entry, S3Comparator.from_santander entry ≠ PyNone)
         (S3Comparator.fields_only_in_s3 comp)) →
  ∃ mapping,
    Consolidated.consolidate_mapping s3_file_data s3_comparison
      system_file_comparison etl_mapping = Ok mapping
    ∧ Consolidated.has_s3_file (Consolidated.s3_comparison mapping)
      = bool_decide (is_Some s3_file_data)
    ∧ (s3_comparison = None →
       Forall (λ field, Consolidated.exists_in_s3 field = false)
         (Consolidated.fields mapping)
       ∧ Consolidated.exists_in_s3_count (Consolidated.statistics mapping) = 0
       ∧ Consolidated.fields_in_both_count (Consolidated.s3_comparison mapping)
         = 0
       ∧ Consolidated.fields_only_in_s3_count
           (Consolidated.s3_comparison mapping) = 0
       ∧ Consolidated.fields_only_in_etl_count
           (Consolidated.s3_comparison mapping) = 0).
Proof.
  intros Hetl Hsys Hs3. unfold Consolidated.consolidate_mapping.
  destruct (build_system_fields_map_total
              (PyDict.lookup system_file_comparison
                 (get (Doc.map_ etl_mapping) (PyStr EmptyString))))
    as [system_fields_map ->].
  { destruct (PyDict.lookup _ _) as [mc|] eqn:Hmc; [|constructor].
    apply pydict_lookup_elem_of in Hmc.
    rewrite Forall_forall in Hsys. exact (Hsys _ Hmc). }
  simpl.
  destruct (for_map_total
              (Consolidated.consolidate_field s3_comparison system_fields_map)
              (Doc.fields etl_mapping)) as [fields Hfields].
  { eapply Forall_impl; [exact Hetl|]. intros etl_field Hname.
    destruct (consolidate_field_total s3_comparison system_fields_map
                etl_field Hname Hs3) as (field & ? & _). eauto. }
  rewrite Hfields. simpl. eexists. split; [done|]. simpl. split; [done|].
  intros ->. simpl.
  assert (Hnone : Forall (λ field, Consolidated.exists_in_s3 field = false)
                    fields).
  { apply for_map_Forall2 in Hfields.
    induction Hfields as [|etl_field field etl_fields fields Hfield _ IH];
      [constructor|].
    apply Forall_cons in Hetl as [Hname Hetl].
    constructor; [|by apply IH].
    destruct (consolidate_field_total None system_fields_map etl_field
                Hname Hs3) as (field' & Hfield' & Hexists).
    same_result Hfield Hfield'. by apply Hexists. }
  split; [exact Hnone|]. split; [by apply count_none_exists|]. done.
Qed.

Lemma consolidate_file_total s3_files_map s3_comparison_map
    system_comparison_map etl_file :
  Forall (λ etl_mapping,
    Forall (λ etl_field, source_name etl_field ≠ PyNone)
      (Doc.fields etl_mapping)) (Doc.mappings etl_file) →
  Forall (λ kv : string * list (pyval * SystemComparator.MappingComparison),
    Forall (λ kv',
      Forall (λ sys_field, SystemComparator.from_santander sys_field ≠ PyNone)
        (SystemComparator.fields kv'.2)) kv.2) system_comparison_map →
  Forall (λ kv : string * S3Comparator.ComparisonItem,
    Forall (λ entry, S3Comparator.both_from_santander entry ≠ PyNone)
      (S3Comparator.fields_in_both kv.2)
    ∧ Forall (λ entry, S3Comparator.from_santander entry ≠ PyNone)
        (S3Comparator.fields_only_in_s3 kv.2)) s3_comparison_map →
  ∃ file,
    Consolidated.consolidate_file s3_files_map s3_comparison_map
      system_comparison_map etl_file = Ok file
    ∧ Consolidated.name file = Doc.name etl_file
    ∧ Forall (λ mapping,
        Consolidated.has_s3_file (Consolidated.s3_comparison mapping)
        = bool_decide (is_Some (PyDict.lookup s3_files_map (Doc.name etl_file)))
        ∧ (PyDict.lookup s3_comparison_map (Doc.name etl_file) = None →
           no_storage_sighting mapping))
        (Consolidated.mappings file).
Proof.
  intros Hetl Hsys Hs3. unfold Consolidated.consolidate_file.
  set (s3_file_data := PyDict.lookup s3_files_map (Doc.name etl_file)).
  set (s3_comparison := PyDict.lookup s3_comparison_map (Doc.name etl_file)).
  set (system_file_comparison :=
         get (PyDict.lookup system_comparison_map (Doc.name etl_file)) []).
  assert (Hsys' : Forall (λ kv : pyval * SystemComparator.MappingComparison,
            Forall (λ sys_field,
                      SystemComparator.from_santander sys_field ≠ PyNone)
              (SystemComparator.fields kv.2)) system_file_comparison).
  { unfold system_file_comparison.
    destruct (PyDict.lookup system_comparison_map _) as [mm|] eqn:Hmm;
      [|constructor].
    apply pydict_lookup_elem_of in Hmm.
    rewrite Forall_forall in Hsys. exact (Hsys _ Hmm). }
  assert (Hs3' : ∀ comp, s3_comparison = Some comp →
            Forall (λ entry, S3Comparator.both_from_santander entry ≠ PyNone)
              (S3Comparator.fields_in_both comp)
            ∧ Forall (λ entry, S3Comparator.from_santander entry ≠ PyNone)
                (S3Comparator.fields_only_in_s3 comp)).
  { intros comp Hcomp%pydict_lookup_elem_of.
    rewrite Forall_forall in Hs3. exact (Hs3 _ Hcomp). }
  assert (Hmapping : ∀ etl_mapping, etl_mapping ∈ Doc.mappings etl_file →
            ∃ mapping,
              Consolidated.consolidate_mapping s3_file_data s3_comparison
                system_file_comparison etl_mapping = Ok mapping
              ∧ Consolidated.has_s3_file (Consolidated.s3_comparison mapping)
                = bool_decide (is_Some s3_file_data)
              ∧ (s3_comparison = None → no_storage_sighting mapping)).
  { intros etl_mapping Hin. rewrite Forall_forall in Hetl.
    apply consolidate_mapping_total; auto. }
  destruct (for_map_total
              (Consolidated.consolidate_mapping s3_file_data s3_comparison
                 system_file_comparison) (Doc.mappings etl_file))
    as [mappings Hmappings].
  { apply Forall_forall. intros etl_mapping Hin.
    destruct (Hmapping etl_mapping Hin) as (mapping & ? & _). eauto. }
  rewrite Hmappings. simpl. eexists. split; [done|]. split; [done|]. simpl.
  apply for_map_Forall2 in Hmappings.
  clear Hetl. induction Hmappings as [|etl_mapping mapping ? ? Hm _ IH];
    [constructor|].
  constructor.
  - destruct (Hmapping etl_mapping) as (mapping' & Hm' & Hflag & Hnone);
      [by left|].
    same_result Hm Hm'. done.
  - apply IH. intros ? ?. apply Hmapping. by right.
Qed.

Lemma consolidate_total etl_metadata s3_metadata_file s3_comparison_file
    system_comparison_file :
  etl_names_are_str etl_metadata →
  system_names_are_str system_comparison_file →
  s3_names_are_str s3_comparison_file →
  ∃ out,
    Consolidated.consolidate (Some etl_metadata) s3_metadata_file
      s3_comparison_file system_comparison_file = Ok (Some out)
    ∧ Forall (λ file,
        Forall (λ mapping,
          Consolidated.has_s3_file (Consolidated.s3_comparison mapping)
          = bool_decide
              (Consolidated.name file
               ∈ Doc.name <$> from_option Doc.files [] s3_metadata_file)
          ∧ (PyDict.lookup
               (PyDict.comprehension S3Comparator.file_name id
                  (from_option S3Comparator.comparisons [] s3_comparison_file))
               (Consolidated.name file) = None →
             no_storage_sighting mapping))
          (Consolidated.mappings file))
        (Consolidated.files out).
Proof.
  intros Hetl Hsys Hs3. unfold Consolidated.consolidate.
  set (s3_comparison_map := PyDict.comprehension S3Comparator.file_name id _).
  set (system_comparison_map :=
         PyDict.comprehension SystemComparator.file_name _ _).
  set (s3_files_map := PyDict.comprehension Doc.name id _).
  assert (Hsys' : Forall
    (λ kv : string * list (pyval * SystemComparator.MappingComparison),
       Forall (λ kv',
         Forall (λ sys_field,
                   SystemComparator.from_santander sys_field ≠ PyNone)
           (SystemComparator.fields kv'.2)) kv.2) system_comparison_map).
  { apply Forall_forall. intros [k mm] (fc & Hfc & ->)%comprehension_elem_of.
    apply Forall_forall. intros [k' mc] (mc' & Hmc & ->)%comprehension_elem_of.
    unfold system_names_are_str in Hsys. rewrite Forall_forall in Hsys.
    specialize (Hsys fc Hfc). rewrite Forall_forall in Hsys.
    exact (Hsys mc' Hmc). }
  assert (Hs3' : Forall (λ kv : string * S3Comparator.ComparisonItem,
    Forall (λ entry, S3Comparator.both_from_santander entry ≠ PyNone)
      (S3Comparator.fields_in_both kv.2)
    ∧ Forall (λ entry, S3Comparator.from_santander entry ≠ PyNone)
        (S3Comparator.fields_only_in_s3 kv.2)) s3_comparison_map).
  { apply Forall_forall. intros [k comp] (c & Hc & ->)%comprehension_elem_of.
    unfold s3_names_are_str in Hs3. rewrite Forall_forall in Hs3.
    exact (Hs3 c Hc). }
  assert (Hfile : ∀ etl_file, etl_file ∈ Doc.files etl_metadata →
    ∃ file,
      Consolidated.consolidate_file s3_files_map s3_comparison_map
        system_comparison_map etl_file = Ok file
      ∧ Forall (λ mapping,
          Consolidated.has_s3_file (Consolidated.s3_comparison mapping)
          = bool_decide
              (Consolidated.name file
               ∈ Doc.name <$> from_option Doc.files [] s3_metadata_file)
          ∧ (PyDict.lookup s3_comparison_map (Consolidated.name file) = None →
             no_storage_sighting mapping))
          (Consolidated.mappings file)).
  { intros etl_file Hin. unfold etl_names_are_str in Hetl.
    rewrite Forall_forall in Hetl.
    destruct (consolidate_file_total s3_files_map s3_comparison_map
                system_comparison_map etl_file (Hetl _ Hin) Hsys' Hs3')
      as (file & Hfile & Hname & Hall).
    exists file. split; [done|]. rewrite Hname.
    eapply Forall_impl; [exact Hall|]. intros mapping [Hflag Hnone].
    split; [|done]. rewrite Hflag. apply bool_decide_ext.
    unfold s3_files_map. by rewrite pydict_lookup_keys, comprehension_keys. }
  destruct (for_map_total
              (Consolidated.consolidate_file s3_files_map s3_comparison_map
                 system_comparison_map) (Doc.files etl_metadata))
    as [files Hfiles].
  { apply Forall_forall. intros etl_file Hin.
    destruct (Hfile etl_file Hin) as (file & ? & _). eauto. }
  rewrite Hfiles. simpl. eexists. split; [done|]. simpl.
  apply for_map_Forall2 in Hfiles.
  clear Hetl. induction Hfiles as [|etl_file file ? ? Hf _ IH]; [constructor|].
  constructor.
  - destruct (Hfile etl_file) as (file' & Hf' & Hall); [by left|].
    same_result Hf Hf'. done.
  - apply IH. intros ? ?. apply Hfile. by right.
Qed.

(** ** The consolidation after the two comparators *)

Lemma truthy_not_None v : truthy v → v ≠ PyNone.
Proof. by destruct v. Qed.

(** The storage comparison stores truthy source names only. *)
Lemma s3_comparison_names_are_str s3_metadata etl_metadata out :
  S3Comparator.compare_metadatas s3_metadata etl_metadata = Ok out →
  s3_names_are_str (Some out).
Proof.
  intros Hout.
  destruct (s3_compare_metadatas_spec s3_metadata etl_metadata)
    as (out' & Hout' & Hcmp).
  same_result Hout Hout'. unfold s3_names_are_str. simpl. rewrite Hcmp.
  apply Forall_fmap, Forall_forall. intros k _.
  destruct (comparison_entries_truthy
              (PyDict.comprehension Doc.name id (Doc.files s3_metadata))
              (PyDict.comprehension Doc.name id (Doc.files etl_metadata)) k)
    as (Hboth & Honly & _).
  split; (eapply Forall_impl; [eassumption|]);
    intros entry; apply truthy_not_None.
Qed.

(** The usage comparison copies the source names of the ETL document. *)
Lemma system_comparison_names_are_str system_file etl_metadata
    system_metadata out :
  etl_names_are_str etl_metadata →
  SystemComparator.compare_metadatas system_file etl_metadata
    system_metadata = Ok out →
  system_names_are_str (Some out).
Proof.
  intros Hetl Hout.
  destruct (system_compare_metadatas_mappingwise system_file etl_metadata
              system_metadata
              (λ mapping mc, ∃ unused,
                 SystemComparator.fields mc
                 = with_usage unused <$> Doc.fields mapping))
    as (out' & Hout' & Hall).
  { intros mapping mc Hmc.
    destruct (system_compare_mapping_spec
                (FromSystem._load_system_metadata system_file) mapping)
      as (mc' & Hmc' & _ & Hfields & _).
    same_result Hmc Hmc'. eauto. }
  same_result Hout Hout'.
  unfold system_names_are_str, etl_names_are_str, mappingwise in *. simpl.
  eapply Forall2_Forall_r; [exact Hall|].
  eapply Forall_impl; [exact Hetl|]. intros etl_file Hfile fc Hms.
  simpl in Hms.
  eapply Forall2_Forall_r; [exact Hms|].
  eapply Forall_impl; [exact Hfile|]. intros mapping Hmapping mc [unused ->].
  apply Forall_fmap. exact Hmapping.
Qed.

(** The three stages in sequence: on documents without null source names
    both comparisons return, and consolidating the ETL document with their
    outputs returns a document that mirrors it. *)
Lemma pipeline_consolidates s3_metadata etl_metadata system_file
    system_metadata :
  etl_names_are_str etl_metadata →
  ∃ s3_comparison system_comparison out,
    S3Comparator.compare_metadatas s3_metadata etl_metadata
      = Ok s3_comparison
    ∧ SystemComparator.compare_metadatas system_file etl_metadata
        system_metadata = Ok system_comparison
    ∧ Consolidated.consolidate (Some etl_metadata) (Some s3_metadata)
        (Some s3_comparison) (Some system_comparison) = Ok (Some out)
    ∧ mirrors etl_metadata out.
Proof.
  intros Hetl.
  destruct (s3_compare_metadatas_spec s3_metadata etl_metadata)
    as (s3_comparison & Hs3 & _).
  destruct (system_compare_metadatas_mappingwise system_file etl_metadata
              system_metadata (λ _ _, True))
    as (system_comparison & Hsys & _); [done|].
  destruct (consolidate_total etl_metadata (Some s3_metadata)
              (Some s3_comparison) (Some system_comparison))
    as (out & Hout & _).
  - exact Hetl.
  - by eapply system_comparison_names_are_str.
  - by eapply s3_comparison_names_are_str.
  - exists s3_comparison, system_comparison, out.
    split; [exact Hs3|]. split; [exact Hsys|]. split; [exact Hout|].
    destruct (consolidate_frame _ _ _ _ _ Hout) as (out' & [= <-] & Hmirror).
    exact Hmirror.
Qed.

(** A JSON null source name in the ETL document: both comparators return
    (the storage comparator skips the field, the usage comparator copies
    it), the consolidator raises. *)
Example null_name_storage_comparison :
  ∃ out, S3Comparator.compare_metadatas clients_s3_metadata null_name_etl
         = Ok out.
Proof. eexists. vm_compute. reflexivity. Qed.

Example null_name_usage_comparison :
  ∃ out, SystemComparator.compare_metadatas (Some []) null_name_etl []
         = Ok out.
Proof. eexists. vm_compute. reflexivity. Qed.

Example null_name_consolidation :
  Consolidated.consolidate (Some null_name_etl) None None None
  = Raise AttributeError.
Proof. reflexivity. Qed.

(** ** Claims on the consolidation *)

(** C4: whenever the consolidation writes a document, that document has
    the files of the ETL document in the same order, each with the same
    mappings in the same order, each with the same fields in the same
    order, and every consolidated field carries the ETL field's
    [from_santander], [laborit] and [type]; and it does write one whenever
    no source name in its inputs is JSON null. *)
Theorem C4_consolidation_conservation etl_metadata s3_metadata_file
    s3_comparison_file system_comparison_file :
  (∀ r,
     Consolidated.consolidate (Some etl_metadata) s3_metadata_file
       s3_comparison_file system_comparison_file = Ok r →
     ∃ out, r = Some out ∧ mirrors etl_metadata out)
  ∧ (etl_names_are_str etl_metadata →
     system_names_are_str system_comparison_file →
     s3_names_are_str s3_comparison_file →
     ∃ out,
       Consolidated.consolidate (Some etl_metadata) s3_metadata_file
         s3_comparison_file system_comparison_file = Ok (Some out)
       ∧ mirrors etl_metadata out).
Proof.
  split; [intros r; apply consolidate_frame|].
  intros Hetl Hsys Hs3.
  destruct (consolidate_total etl_metadata s3_metadata_file s3_comparison_file
              system_comparison_file Hetl Hsys Hs3) as (out & Hout & _).
  exists out. split; [exact Hout|].
  destruct (consolidate_frame _ _ _ _ _ Hout) as (out' & [= <-] & Hmirror).
  exact Hmirror.
Qed.

Lemma one_field_etl_names_are_str : etl_names_are_str one_field_etl.
Proof. repeat (constructor; try discriminate). Defined.

Lemma C4_consolidation_conservation_witness :
  ∃ out,
    Consolidated.consolidate (Some one_field_etl) None None None
      = Ok (Some out)
    ∧ mirrors one_field_etl out.
Proof.
  destruct (C4_consolidation_conservation one_field_etl None None None)
    as [_ Htotal].
  apply Htotal.
  - exact one_field_etl_names_are_str.
  - constructor.
  - constructor.
Defined.

(** C8, as stated, fails: with the storage comparison missing but the S3
    metadata document listing the file, the mapping's [has_s3_file] is
    true. *)
Lemma C8_has_s3_file_counterexample :
  ∃ out mapping,
    Consolidated.consolidate (Some one_field_etl) (Some clients_s3_metadata)
      None None = Ok (Some out)
    ∧ Consolidated.files out
      = [ {| Consolidated.name := "clients";
             Consolidated.mappings := [mapping] |} ]
    ∧ Consolidated.has_s3_file (Consolidated.s3_comparison mapping) = true.
Proof.
  eexists _, _. split; [vm_compute; reflexivity|].
  split; reflexivity.
Qed.

(** ** Claim on the normalizers *)

(** C9, as stated, fails: on [None] the storage comparator's
    [normalize_column_name] and [from_system_service]'s [_normalize_name]
    raise [AttributeError]. *)
Lemma C9_normalize_None_counterexample :
  S3Comparator.normalize_column_name PyNone = Raise AttributeError
  ∧ FromSystem._normalize_name PyNone = Raise AttributeError
  ∧ ¬ (∃ s, S3Comparator.normalize_column_name PyNone = Ok s)
  ∧ ¬ (∃ s, FromSystem._normalize_name PyNone = Ok s).
Proof.
  split; [reflexivity|]. split; [reflexivity|].
  split; intros [s Hs]; discriminate Hs.
Qed.

(** C9 (amended): on every string, the empty one included, the three
    normalizers return the lower-cased, trimmed string without raising, and
    the empty string on the empty string; on [None] the usage comparator's
    [normalize_column_name] returns the empty string; the two loops that
    call the other normalizers never raise, whatever the names in their
    input, because they skip null (and, in the storage comparator, empty)
    names before normalizing. *)
Theorem C9_normalizers_total_on_strings :
  (∀ s : string,
     S3Comparator.normalize_column_name (PyStr s)
       = Ok (str_strip (str_lower s))
     ∧ SystemComparator.normalize_column_name (PyStr s)
       = Ok (str_strip (str_lower s))
     ∧ FromSystem._normalize_name (PyStr s) = Ok (str_strip (str_lower s)))
  ∧ S3Comparator.normalize_column_name (PyStr EmptyString) = Ok EmptyString
  ∧ SystemComparator.normalize_column_name (PyStr EmptyString)
    = Ok EmptyString
  ∧ FromSystem._normalize_name (PyStr EmptyString) = Ok EmptyString
  ∧ SystemComparator.normalize_column_name PyNone = Ok EmptyString
  ∧ (∀ file_data,
       ∃ fields_map, S3Comparator.collect_fields file_data = Ok fields_map)
  ∧ (∀ system_data,
       ∃ unused, FromSystem._get_unused_columns system_data = Ok unused).
Proof.
  split.
  { intros s. split; [reflexivity|]. split; [|reflexivity].
    apply (system_normalize (PyStr s)). }
  repeat (split; [reflexivity|]).
  split.
  - intros file_data. eexists. apply collect_fields_spec.
  - intros system_data.
    destruct (get_unused_columns_set system_data) as [m Hm]. eauto.
Qed.

(** * Further properties of the code *)

(** ** The usage comparison as a value *)

Lemma system_compare_mapping_value system_map mapping :
  SystemComparator.compare_mapping system_map mapping
  = Ok (mapping_comparison_of system_map mapping).
Proof.
  unfold SystemComparator.compare_mapping, mapping_comparison_of.
  destruct (get_unused_columns_set
              (PyDict.lookup system_map
                 (get (Doc.table mapping) (PyStr EmptyString))))
    as [unused_mapping ->].
  cbn [mbind result_bind]. rewrite usage_loop. reflexivity.
Qed.

Lemma system_compare_file_value system_map etl_file :
  SystemComparator.compare_file system_map etl_file
  = Ok (file_comparison_of system_map etl_file).
Proof.
  unfold SystemComparator.compare_file, file_comparison_of.
  rewrite (for_map_pure _ (mapping_comparison_of system_map)); [done|].
  apply Forall_forall. intros mapping _. apply system_compare_mapping_value.
Qed.

Lemma system_compare_metadatas_value system_file etl_metadata
    system_metadata :
  let system_map := FromSystem._load_system_metadata system_file in
  SystemComparator.compare_metadatas system_file etl_metadata system_metadata
  = Ok {| SystemComparator.etl_total_files := length (Doc.files etl_metadata);
          SystemComparator.system_total_tables := length system_metadata;
          SystemComparator.files :=
            file_comparison_of system_map <$> Doc.files etl_metadata;
          SystemComparator.etl_without_system :=
            SystemComparator.without_system system_map
              (Doc.files etl_metadata);
          SystemComparator.etl_without_system_count :=
            length (SystemComparator.without_system system_map
                      (Doc.files etl_metadata)) |}.
Proof.
  intros system_map. unfold SystemComparator.compare_metadatas.
  rewrite (for_map_pure _ (file_comparison_of system_map)); [done|].
  apply Forall_forall. intros etl_file _. apply system_compare_file_value.
Qed.

Lemma with_usage_mirrors unused etl_fields :
  Forall2 usage_mirrors_field etl_fields (with_usage unused <$> etl_fields).
Proof.
  apply Forall2_fmap_r, Forall_Forall2_diag, Forall_forall.
  intros field _. by repeat split.
Qed.

Lemma mapping_comparison_mirrors system_map mappings :
  Forall2 usage_mirrors_mapping mappings
    (mapping_comparison_of system_map <$> mappings).
Proof.
  apply Forall2_fmap_r, Forall_Forall2_diag, Forall_forall.
  intros mapping _. repeat split. apply with_usage_mirrors.
Qed.

Lemma file_comparison_mirrors system_map etl_files :
  Forall2 usage_mirrors_file etl_files
    (file_comparison_of system_map <$> etl_files).
Proof.
  apply Forall2_fmap_r, Forall_Forall2_diag, Forall_forall.
  intros etl_file _. split; [done|]. apply mapping_comparison_mirrors.
Qed.

(** The mappings without a usage record, read off the comparison. *)
Lemma without_system_mappings system_map file_name mappings :
  (mapping ← mappings;
   if negb (PyDict.mem (get (Doc.table mapping) (PyStr EmptyString))
              system_map)
   then [ {| SystemComparator.ws_file_name := file_name;
             SystemComparator.ws_map :=
               get (Doc.map_ mapping) (PyStr EmptyString);
             SystemComparator.ws_table :=
               get (Doc.table mapping) (PyStr EmptyString);
             SystemComparator.ws_fields_count :=
               length (Doc.fields mapping) |} ]
   else [])
  = without_system_entry
      <$> filter (λ pair, SystemComparator.has_system_data pair.2 = false)
            ((λ mapping_comp, (file_name, mapping_comp))
               <$> (mapping_comparison_of system_map <$> mappings)).
Proof.
  induction mappings as [|mapping mappings IH]; [done|].
  rewrite bind_cons, IH, !fmap_cons, filter_cons. clear IH.
  cbn [snd mapping_comparison_of SystemComparator.has_system_data].
  unfold PyDict.mem.
  destruct (PyDict.lookup system_map
              (get (Doc.table mapping) (PyStr EmptyString))) as [item|] eqn:E.
  - rewrite bool_decide_eq_true_2 by eauto. cbn [negb].
    case_decide as H; [discriminate|]. done.
  - rewrite bool_decide_eq_false_2 by (intros [? ?]; discriminate).
    cbn [negb]. case_decide as H; [|done].
    rewrite fmap_cons. cbn [app]. f_equal.
    unfold without_system_entry. cbn. by rewrite length_fmap.
Qed.

Lemma without_system_value system_map etl_files :
  SystemComparator.without_system system_map etl_files
  = without_system_entry
      <$> filter (λ pair, SystemComparator.has_system_data pair.2 = false)
            (file_comp ← file_comparison_of system_map <$> etl_files;
             (λ mapping_comp,
                (SystemComparator.file_name file_comp, mapping_comp))
               <$> SystemComparator.mappings file_comp).
Proof.
  unfold SystemComparator.without_system.
  induction etl_files as [|etl_file etl_files IH]; [done|].
  rewrite fmap_cons, !bind_cons, filter_app, fmap_app, IH. f_equal.
  apply without_system_mappings.
Qed.

(** ** The totals printed after the usage comparison *)

Lemma add_totals_mappings system_map mappings totals :
  let totals' :=
    foldl (λ totals mapping_comp,
             let stats := SystemComparator.statistics mapping_comp in
             {| SystemComparator.printed_total_fields :=
                  SystemComparator.printed_total_fields totals
                  + SystemComparator.total_fields stats;
                SystemComparator.printed_total_used :=
                  SystemComparator.printed_total_used totals
                  + SystemComparator.used_count stats;
                SystemComparator.printed_total_unused :=
                  SystemComparator.printed_total_unused totals
                  + SystemComparator.unused_count stats |})
          totals (mapping_comparison_of system_map <$> mappings) in
  SystemComparator.printed_total_fields totals'
  = SystemComparator.printed_total_fields totals
    + length (mapping ← mappings; Doc.fields mapping)
  ∧ SystemComparator.printed_total_used totals'
    + SystemComparator.printed_total_unused totals'
    = SystemComparator.printed_total_used totals
      + SystemComparator.printed_total_unused totals
      + length (mapping ← mappings; Doc.fields mapping).
Proof.
  revert totals. induction mappings as [|mapping mappings IH]; intros totals.
  { cbn. lia. }
  rewrite fmap_cons, bind_cons, length_app. cbn [foldl].
  destruct (IH
    {| SystemComparator.printed_total_fields :=
         SystemComparator.printed_total_fields totals
         + SystemComparator.total_fields
             (SystemComparator.statistics
                (mapping_comparison_of system_map mapping));
       SystemComparator.printed_total_used :=
         SystemComparator.printed_total_used totals
         + SystemComparator.used_count
             (SystemComparator.statistics
                (mapping_comparison_of system_map mapping));
       SystemComparator.printed_total_unused :=
         SystemComparator.printed_total_unused totals
         + SystemComparator.unused_count
             (SystemComparator.statistics
                (mapping_comparison_of system_map mapping)) |})
    as [IH1 IH2].
  cbn zeta in *. rewrite IH1, IH2. clear IH IH1 IH2.
  cbn [SystemComparator.printed_total_fields
       SystemComparator.printed_total_used
       SystemComparator.printed_total_unused
       mapping_comparison_of SystemComparator.statistics
       SystemComparator.total_fields SystemComparator.used_count
       SystemComparator.unused_count].
  pose proof (count_used_unused
    (with_usage
       (unused_set_of
          (PyDict.lookup system_map
             (get (Doc.table mapping) (PyStr EmptyString))))
       <$> Doc.fields mapping)) as Hsum.
  rewrite length_fmap in *. lia.
Qed.

Lemma add_totals_files system_map etl_files out :
  SystemComparator.files out = file_comparison_of system_map <$> etl_files →
  SystemComparator.printed_total_fields (SystemComparator.add_totals out)
  = length (all_fields {| Doc.files := etl_files |})
  ∧ SystemComparator.printed_total_used (SystemComparator.add_totals out)
    + SystemComparator.printed_total_unused (SystemComparator.add_totals out)
    = length (all_fields {| Doc.files := etl_files |}).
Proof.
  unfold SystemComparator.add_totals, all_fields. intros ->.
  cbn [Doc.files].
  assert (∀ totals,
    let totals' :=
      foldl (λ totals file_comp,
        foldl (λ totals mapping_comp,
             let stats := SystemComparator.statistics mapping_comp in
             {| SystemComparator.printed_total_fields :=
                  SystemComparator.printed_total_fields totals
                  + SystemComparator.total_fields stats;
                SystemComparator.printed_total_used :=
                  SystemComparator.printed_total_used totals
                  + SystemComparator.used_count stats;
                SystemComparator.printed_total_unused :=
                  SystemComparator.printed_total_unused totals
                  + SystemComparator.unused_count stats |})
          totals (SystemComparator.mappings file_comp))
        totals (file_comparison_of system_map <$> etl_files) in
    SystemComparator.printed_total_fields totals'
    = SystemComparator.printed_total_fields totals
      + length (etl_file ← etl_files;
                mapping ← Doc.mappings etl_file; Doc.fields mapping)
    ∧ SystemComparator.printed_total_used totals'
      + SystemComparator.printed_total_unused totals'
      = SystemComparator.printed_total_used totals
        + SystemComparator.printed_total_unused totals
        + length (etl_file ← etl_files;
                  mapping ← Doc.mappings etl_file; Doc.fields mapping))
    as Hloop.
  { induction etl_files as [|etl_file etl_files IH]; intros totals.
    { cbn. lia. }
    rewrite fmap_cons, bind_cons, length_app. cbn [foldl].
    cbn [file_comparison_of SystemComparator.mappings].
    destruct (add_totals_mappings system_map (Doc.mappings etl_file) totals)
      as [H1 H2].
    cbn zeta in *.
    match goal with
    | |- context [foldl _ (foldl ?f totals ?l) _] =>
        destruct (IH (foldl f totals l)) as [IH1 IH2]
    end.
    rewrite IH1, IH2, H1, H2.
    lia. }
  destruct (Hloop {| SystemComparator.printed_total_fields := 0;
                     SystemComparator.printed_total_used := 0;
                     SystemComparator.printed_total_unused := 0 |})
    as [H1 H2].
  cbn zeta in *. rewrite H1, H2. cbn. lia.
Qed.

(** X1: [etl_system_comparator_service.py], [compare_metadatas]: the usage
    comparison always returns, and it mirrors the ETL document: one file
    entry per ETL file, one mapping entry per ETL mapping, one field entry
    per ETL field, all in document order, each carrying the [map], [table],
    [from_santander], [laborit] and [type] values of the ETL entry (an absent
    key reads as the empty string).  The header counts are the number of ETL
    files and the number of usage records given. *)
Theorem X1_usage_comparison_mirrors_etl system_file etl_metadata
    system_metadata :
  ∃ out,
    SystemComparator.compare_metadatas system_file etl_metadata system_metadata
      = Ok out
    ∧ Forall2 usage_mirrors_file (Doc.files etl_metadata)
        (SystemComparator.files out)
    ∧ SystemComparator.etl_total_files out = length (Doc.files etl_metadata)
    ∧ SystemComparator.system_total_tables out = length system_metadata.
Proof.
  eexists. split; [apply system_compare_metadatas_value|].
  cbn. split; [apply file_comparison_mirrors|done].
Qed.

(** X2: [etl_system_comparator_service.py], [compare_metadatas] lines
    151-165: [etl_without_system] lists exactly the mappings of the
    comparison whose [has_system_data] is false, in document order, each with
    its file name, map, table and [total_fields]; and
    [etl_without_system_count] is their number. *)
Theorem X2_without_system_are_the_mappings_without_record system_file
    etl_metadata system_metadata :
  ∃ out,
    SystemComparator.compare_metadatas system_file etl_metadata system_metadata
      = Ok out
    ∧ SystemComparator.etl_without_system out
      = without_system_entry
          <$> filter (λ pair, SystemComparator.has_system_data pair.2 = false)
                (compared_mappings out)
    ∧ SystemComparator.etl_without_system_count out
      = length (filter (λ pair, SystemComparator.has_system_data pair.2 = false)
                  (compared_mappings out)).
Proof.
  eexists. split; [apply system_compare_metadatas_value|].
  unfold compared_mappings. cbn.
  rewrite without_system_value, length_fmap. done.
Qed.

(** X3: [etl_system_comparator_service.py], [compare] lines 172-219: the
    service returns without writing exactly when the ETL document is missing
    or has no files, or the usage document is missing or empty.  Otherwise it
    writes what [compare_metadatas] returns, and the totals it prints satisfy:
    total fields = number of fields of the ETL document, and used + unused =
    total fields. *)
Theorem X3_usage_compare_totals etl_metadata_file system_metadata_file :
  let etl_metadata := get etl_metadata_file {| Doc.files := [] |} in
  let system_metadata := get system_metadata_file [] in
  ∃ r,
    SystemComparator.compare etl_metadata_file system_metadata_file = Ok r
    ∧ match r with
      | None => Doc.files etl_metadata = [] ∨ system_metadata = []
      | Some (out, totals) =>
          Doc.files etl_metadata ≠ [] ∧ system_metadata ≠ []
          ∧ SystemComparator.compare_metadatas system_metadata_file
              etl_metadata system_metadata = Ok out
          ∧ SystemComparator.printed_total_fields totals
            = length (all_fields etl_metadata)
          ∧ SystemComparator.printed_total_used totals
            + SystemComparator.printed_total_unused totals
            = SystemComparator.printed_total_fields totals
      end.
Proof.
  intros etl_metadata system_metadata. unfold SystemComparator.compare.
  fold etl_metadata. fold system_metadata.
  destruct (Doc.files etl_metadata) as [|etl_file etl_files] eqn:Hfiles.
  { eexists. split; [done|]. by left. }
  destruct system_metadata as [|item items] eqn:Hsys.
  { eexists. split; [done|]. by right. }
  rewrite system_compare_metadatas_value. cbn [mbind result_bind].
  eexists. split; [done|]. cbn beta iota.
  split; [done|]. split; [done|]. split; [done|].
  match goal with
  | |- context [SystemComparator.add_totals ?out] =>
      destruct (add_totals_files
                  (FromSystem._load_system_metadata system_metadata_file)
                  (Doc.files etl_metadata) out) as [H1 H2]; [done|]
  end.
  rewrite H1, H2. by destruct etl_metadata.
Qed.

(** ** The usage records *)

Lemma load_system_metadata_loop items system_map :
  foldl (λ system_map item,
           let tabela := get (Doc.tabela item) (PyStr EmptyString) in
           if truthy tabela then PyDict.set system_map tabela item
           else system_map)
        system_map items
  = from_items system_map
      ((λ item, (table_of item, item))
         <$> filter (λ item, truthy (table_of item)) items).
Proof.
  revert system_map. induction items as [|item items IH]; intros system_map.
  { done. }
  cbn [foldl]. rewrite IH, filter_cons. clear IH.
  case_decide as Htruthy; unfold table_of in Htruthy.
  - destruct (truthy (get (Doc.tabela item) (PyStr EmptyString)));
      [done|by destruct Htruthy].
  - destruct (truthy (get (Doc.tabela item) (PyStr EmptyString)));
      [by destruct Htruthy|done].
Qed.

Lemma load_system_metadata_value system_file :
  FromSystem._load_system_metadata system_file
  = from_items []
      ((λ item, (table_of item, item))
         <$> filter (λ item, truthy (table_of item)) (get system_file [])).
Proof. apply load_system_metadata_loop. Qed.

Lemma last_fmap {A B} (f : A → B) (l : list A) :
  last (f <$> l) = f <$> last l.
Proof.
  induction l as [|x [|y l] IH]; [done..|].
  rewrite !fmap_cons in *. cbn [last] in *. exact IH.
Qed.

(** X4: [from_system_service.py], [_load_system_metadata] lines 28-50: the
    lookup map holds one entry per distinct non-empty [tabela]; a null, empty
    or absent [tabela] is never a key; and when several records carry the same
    [tabela], the last one in the document is the one kept. *)
Theorem X4_system_map_last_record_wins system_file table_name :
  let system_map := FromSystem._load_system_metadata system_file in
  NoDup (PyDict.keys system_map)
  ∧ Forall (λ k, truthy k = true) (PyDict.keys system_map)
  ∧ PyDict.lookup system_map table_name
    = last (filter (λ item, truthy (table_of item) = true
                            ∧ table_of item = table_name)
              (get system_file [])).
Proof.
  intros system_map. unfold system_map.
  rewrite load_system_metadata_value. split; [|split].
  - apply from_items_NoDup. constructor.
  - apply Forall_forall. intros k Hk.
    apply from_items_keys in Hk as [Hk|Hk]; [by apply elem_of_nil in Hk|].
    rewrite <- list_fmap_compose in Hk.
    apply list_elem_of_fmap in Hk as (item & -> & Hitem).
    apply list_elem_of_filter in Hitem as [Htruthy _].
    cbn. by destruct (truthy (table_of item)).
  - rewrite from_items_lookup, filter_fmap, last_fmap. cbn [fst].
    rewrite list_filter_filter.
    set (l1 := filter _ (get system_file [])).
    set (l2 := filter _ (get system_file [])).
    assert (l1 = l2) as ->.
    { apply list_filter_iff. intros item. split.
      - intros [H1 H2]. split; [by destruct (truthy (table_of item))|done].
      - intros [H1 H2]. split; [done|by rewrite H1]. }
    by destruct (last l2).
Qed.

Lemma unused_dict_loop_value items set0 map0 :
  for_fold FromSystem.dict_step (set0, map0) items
  = Ok (unused_names items.*2 ∪ set0, from_items map0 (unused_entries items)).
Proof.
  revert set0 map0. induction items as [|[pt en] items IH]; intros set0 map0.
  - simpl. f_equal. f_equal. set_solver.
  - unfold unused_entries. rewrite filter_cons. simpl.
    rewrite unused_names_cons. case_decide as Hen.
    + rewrite from_system_normalize_not_None by done. simpl.
      rewrite IH. f_equal. f_equal. set_solver.
    + simpl. apply IH.
Qed.

Lemma unused_entries_keys items :
  list_to_set (unused_entries items).*1 =@{gset string} unused_names items.*2.
Proof.
  unfold unused_entries, unused_names.
  induction items as [|[pt en] items IH]; [done|].
  rewrite fmap_cons, !filter_cons. cbn [snd].
  case_decide; [|done]. rewrite !fmap_cons, !list_to_set_cons. cbn [fst snd].
  by rewrite IH.
Qed.

Lemma from_items_keys_set {V} (items : list (string * V)) :
  list_to_set (PyDict.keys (from_items [] items))
  =@{gset string} list_to_set items.*1.
Proof.
  apply set_eq. intros k.
  rewrite !elem_of_list_to_set, from_items_keys, elem_of_nil. tauto.
Qed.

(** X5: [from_system_service.py], [_get_unused_columns] lines 52-82: for
    the dict encoding [{portuguese: english}] the returned mapping has exactly
    one entry per element of the returned set (its keys are the set), and the
    entry under a normalized name is the last pair of the document whose
    non-null English name normalizes to it.  For the list encoding, any other
    value, an absent key and a missing record the mapping is empty. *)
Theorem X5_unused_columns_mapping (tabela : option pyval) :
  (∀ unused_columns_dict : list (string * pyval),
     ∃ unused_columns_set unused_columns_mapping,
       FromSystem._get_unused_columns
         (Some {| Doc.tabela := tabela;
                  Doc.colunas_nao_utilizadas :=
                    Some (Doc.UnusedDict unused_columns_dict) |})
       = Ok (unused_columns_set, unused_columns_mapping)
       ∧ NoDup (PyDict.keys unused_columns_mapping)
       ∧ list_to_set (PyDict.keys unused_columns_mapping) = unused_columns_set
       ∧ length unused_columns_mapping = size unused_columns_set
       ∧ ∀ normalized_name,
           PyDict.lookup unused_columns_mapping normalized_name
           = (λ item, FromSystem.mkUnusedName item.1 item.2)
               <$> last (filter (λ item, item.2 ≠ PyNone
                                         ∧ normalized item.2 = normalized_name)
                           unused_columns_dict))
  ∧ (∀ names : list pyval,
       ∃ unused_columns_set,
         FromSystem._get_unused_columns
           (Some {| Doc.tabela := tabela;
                    Doc.colunas_nao_utilizadas :=
                      Some (Doc.UnusedList names) |})
         = Ok (unused_columns_set, []))
  ∧ FromSystem._get_unused_columns
      (Some {| Doc.tabela := tabela;
               Doc.colunas_nao_utilizadas := Some Doc.UnusedOther |})
    = Ok (∅, [])
  ∧ FromSystem._get_unused_columns
      (Some {| Doc.tabela := tabela; Doc.colunas_nao_utilizadas := None |})
    = Ok (∅, [])
  ∧ FromSystem._get_unused_columns None = Ok (∅, []).
Proof.
  split; [|split; [|done]].
  - intros items. unfold FromSystem._get_unused_columns. cbn [mbind option_bind
      Doc.colunas_nao_utilizadas get].
    rewrite unused_dict_loop_value.
    eexists _, _. split; [reflexivity|].
    assert (NoDup (PyDict.keys (from_items [] (unused_entries items))))
      as Hnodup by (apply from_items_NoDup; constructor).
    assert (list_to_set (PyDict.keys (from_items [] (unused_entries items)))
            =@{gset string} unused_names items.*2 ∪ ∅) as Hkeys.
    { rewrite from_items_keys_set, unused_entries_keys. set_solver. }
    split; [done|]. split; [done|]. split.
    + rewrite <- Hkeys, size_list_to_set by done.
      unfold PyDict.keys. by rewrite length_fmap.
    + intros k. rewrite from_items_lookup. unfold unused_entries.
      rewrite filter_fmap, last_fmap, list_filter_filter. cbn [fst snd].
      rewrite (list_filter_iff _
                 (λ item, item.2 ≠ PyNone ∧ normalized item.2 = k))
        by (intros item; tauto).
      by destruct (last _).
  - intros names. unfold FromSystem._get_unused_columns. cbn [mbind option_bind
      Doc.colunas_nao_utilizadas get].
    rewrite unused_list_loop. by eexists.
Qed.

(** ** The storage comparison: counts, flags, files without a storage file *)

Lemma length_filter_split {A} (P : A → Prop) `{∀ x, Decision (P x)}
    (l : list A) :
  length (filter P l) + length (filter (λ x, ¬ P x) l) = length l.
Proof.
  induction l as [|x l IH]; [done|].
  rewrite !filter_cons. destruct (decide (P x)) as [HP|HP].
  - rewrite decide_False by tauto. cbn. lia.
  - rewrite decide_True by done. cbn. lia.
Qed.

Lemma length_common (l1 l2 : list string) :
  NoDup l1 → NoDup l2 →
  length (filter (λ k, k ∈ l2) l1) = length (filter (λ k, k ∈ l1) l2).
Proof.
  intros Hnd1 Hnd2. apply Permutation_length, NoDup_Permutation.
  - by apply NoDup_filter.
  - by apply NoDup_filter.
  - intros k. rewrite !list_elem_of_filter. tauto.
Qed.

Lemma length_keys {K V} (d : list (K * V)) : length (PyDict.keys d) = length d.
Proof. unfold PyDict.keys. apply length_fmap. Qed.

Lemma item_lengths s3_files_map etl_files_map file_name :
  let item := comparison_item_of s3_files_map etl_files_map file_name in
  length (S3Comparator.fields_in_both item) = length (names_in_both item)
  ∧ length (S3Comparator.fields_only_in_s3 item)
    = length (names_only_in_s3 item)
  ∧ length (S3Comparator.fields_only_in_etl item)
    = length (names_only_in_etl item).
Proof.
  intros item. unfold names_in_both, names_only_in_s3, names_only_in_etl.
  by rewrite !length_fmap.
Qed.

Lemma item_counts s3_files_map etl_files_map file_name :
  let item := comparison_item_of s3_files_map etl_files_map file_name in
  S3Comparator.s3_fields_count item
  = S3Comparator.fields_in_both_count item
    + S3Comparator.fields_only_in_s3_count item
  ∧ S3Comparator.etl_fields_count item
    = S3Comparator.fields_in_both_count item
      + S3Comparator.fields_only_in_etl_count item
  ∧ S3Comparator.s3_fields_count item
    = size (field_names (PyDict.lookup s3_files_map file_name))
  ∧ S3Comparator.etl_fields_count item
    = size (field_names (PyDict.lookup etl_files_map file_name)).
Proof.
  intros item.
  destruct (item_names s3_files_map etl_files_map file_name)
    as (Hboth & Hs3 & Hetl).
  destruct (item_lengths s3_files_map etl_files_map file_name)
    as (Lboth & Ls3 & Letl).
  pose proof (fields_map_of_NoDup s3_files_map file_name) as Hnd_s3.
  pose proof (fields_map_of_NoDup etl_files_map file_name) as Hnd_etl.
  fold item in Hboth, Hs3, Hetl, Lboth, Ls3, Letl.
  assert (S3Comparator.fields_in_both_count item
          = length (S3Comparator.fields_in_both item)) as -> by done.
  assert (S3Comparator.fields_only_in_s3_count item
          = length (S3Comparator.fields_only_in_s3 item)) as -> by done.
  assert (S3Comparator.fields_only_in_etl_count item
          = length (S3Comparator.fields_only_in_etl item)) as -> by done.
  assert (S3Comparator.s3_fields_count item
          = length (PyDict.keys (fields_map_of s3_files_map file_name)))
    as -> by (by rewrite length_keys).
  assert (S3Comparator.etl_fields_count item
          = length (PyDict.keys (fields_map_of etl_files_map file_name)))
    as -> by (by rewrite length_keys).
  rewrite Lboth, Ls3, Letl, Hboth, Hs3, Hetl.
  rewrite <- !fields_map_of_keys, !size_list_to_set by done.
  split; [by rewrite length_filter_split|].
  split; [|done].
  rewrite length_common by done. by rewrite length_filter_split.
Qed.

(** X6: [s3_comparator_service.py], [compare_metadatas] lines 111-159: in
    every comparison item the three [*_count] values are the lengths of the
    three lists, [s3_fields_count] = [fields_in_both_count] +
    [fields_only_in_s3_count], [etl_fields_count] = [fields_in_both_count] +
    [fields_only_in_etl_count], and each side's field count is the number of
    distinct normalized non-empty source names of that side's file. *)
Theorem X6_storage_counts_add_up s3_metadata etl_metadata :
  ∃ out,
    S3Comparator.compare_metadatas s3_metadata etl_metadata = Ok out
    ∧ Forall (λ item,
        S3Comparator.fields_in_both_count item
          = length (S3Comparator.fields_in_both item)
        ∧ S3Comparator.fields_only_in_s3_count item
          = length (S3Comparator.fields_only_in_s3 item)
        ∧ S3Comparator.fields_only_in_etl_count item
          = length (S3Comparator.fields_only_in_etl item)
        ∧ S3Comparator.s3_fields_count item
          = S3Comparator.fields_in_both_count item
            + S3Comparator.fields_only_in_s3_count item
        ∧ S3Comparator.etl_fields_count item
          = S3Comparator.fields_in_both_count item
            + S3Comparator.fields_only_in_etl_count item
        ∧ S3Comparator.s3_fields_count item
          = size (field_names
                    (PyDict.lookup
                       (PyDict.comprehension Doc.name id
                          (Doc.files s3_metadata))
                       (S3Comparator.file_name item)))
        ∧ S3Comparator.etl_fields_count item
          = size (field_names
                    (PyDict.lookup
                       (PyDict.comprehension Doc.name id
                          (Doc.files etl_metadata))
                       (S3Comparator.file_name item))))
      (S3Comparator.comparisons out).
Proof.
  destruct (s3_compare_metadatas_spec s3_metadata etl_metadata)
    as (out & Hout & Hcmp).
  exists out. split; [exact Hout|]. rewrite Hcmp.
  apply Forall_fmap, Forall_forall. intros k _.
  destruct (item_counts
              (PyDict.comprehension Doc.name id (Doc.files s3_metadata))
              (PyDict.comprehension Doc.name id (Doc.files etl_metadata)) k)
    as (H1 & H2 & H3 & H4).
  cbn beta. split; [done|]. split; [done|]. split; [done|].
  split; [exact H1|]. split; [exact H2|]. split; [exact H3|exact H4].
Qed.

Lemma s3_compare_metadatas_value s3_metadata etl_metadata :
  let s3_files_map :=
    PyDict.comprehension Doc.name id (Doc.files s3_metadata) in
  let etl_files_map :=
    PyDict.comprehension Doc.name id (Doc.files etl_metadata) in
  S3Comparator.compare_metadatas s3_metadata etl_metadata
  = Ok {| S3Comparator.s3_total_files := length (Doc.files s3_metadata);
          S3Comparator.etl_total_files := length (Doc.files etl_metadata);
          S3Comparator.comparisons :=
            comparison_item_of s3_files_map etl_files_map
              <$> compared_names s3_metadata etl_metadata;
          S3Comparator.etl_files_without_s3 :=
            S3Comparator.without_s3 s3_files_map etl_files_map;
          S3Comparator.etl_files_without_s3_count :=
            length (S3Comparator.without_s3 s3_files_map etl_files_map) |}.
Proof.
  intros s3_files_map etl_files_map.
  unfold S3Comparator.compare_metadatas.
  fold (compared_names s3_metadata etl_metadata).
  erewrite for_map_pure;
    [|apply Forall_forall; intros k _; apply s3_compare_file_spec].
  reflexivity.
Qed.

Lemma comprehension_NoDup {K V A} `{EqDecision K} (key : A → K)
    (val : A → V) (xs : list A) :
  NoDup (PyDict.keys (PyDict.comprehension key val xs)).
Proof.
  rewrite comprehension_from_items. apply from_items_NoDup. constructor.
Qed.

Lemma comprehension_is_Some (files : list Doc.File) k :
  bool_decide (is_Some (PyDict.lookup
                          (PyDict.comprehension Doc.name id files) k))
  = bool_decide (k ∈ Doc.name <$> files).
Proof.
  apply bool_decide_ext. by rewrite pydict_lookup_keys, comprehension_keys.
Qed.

(** X7: [s3_comparator_service.py], [compare_metadatas] lines 56-81 and
    145-150: [has_s3_file] holds exactly for the names of the S3 document,
    [has_etl_file] exactly for the names of the ETL document, no item has
    both flags false, the mapping count of a side is that of the last file of
    that name in the side's document, the two totals of the header count the
    [files] entries as given (repeated names included), while the comparison
    has one item per distinct name. *)
Theorem X7_storage_flags_and_header s3_metadata etl_metadata :
  ∃ out,
    S3Comparator.compare_metadatas s3_metadata etl_metadata = Ok out
    ∧ S3Comparator.s3_total_files out = length (Doc.files s3_metadata)
    ∧ S3Comparator.etl_total_files out = length (Doc.files etl_metadata)
    ∧ length (S3Comparator.comparisons out)
      = size (list_to_set (Doc.name <$> Doc.files s3_metadata)
              ∪ list_to_set (Doc.name <$> Doc.files etl_metadata)
              : gset string)
    ∧ Forall (λ item,
        let s3_file :=
          last (filter (λ file_data,
                          Doc.name file_data = S3Comparator.file_name item)
                  (Doc.files s3_metadata)) in
        let etl_file :=
          last (filter (λ file_data,
                          Doc.name file_data = S3Comparator.file_name item)
                  (Doc.files etl_metadata)) in
        S3Comparator.has_s3_file item
          = bool_decide (S3Comparator.file_name item
                         ∈ Doc.name <$> Doc.files s3_metadata)
        ∧ S3Comparator.has_etl_file item
          = bool_decide (S3Comparator.file_name item
                         ∈ Doc.name <$> Doc.files etl_metadata)
        ∧ S3Comparator.has_s3_file item || S3Comparator.has_etl_file item
          = true
        ∧ S3Comparator.s3_mappings_count item
          = from_option (λ d, length (Doc.mappings d)) 0 s3_file
        ∧ S3Comparator.etl_mappings_count item
          = from_option (λ d, length (Doc.mappings d)) 0 etl_file)
      (S3Comparator.comparisons out).
Proof.
  eexists. split; [apply s3_compare_metadatas_value|].
  cbn [S3Comparator.s3_total_files S3Comparator.etl_total_files
       S3Comparator.comparisons].
  split; [done|]. split; [done|]. split.
  - rewrite length_fmap.
    rewrite <- (size_list_to_set (C:=gset string))
      by apply compared_names_NoDup.
    f_equal. apply set_eq. intros k.
    rewrite elem_of_list_to_set, compared_names_elem_of, elem_of_union,
      !elem_of_list_to_set. done.
  - apply Forall_forall. intros item Hitem.
    apply list_elem_of_fmap in Hitem as (k & -> & Hk).
    apply compared_names_elem_of in Hk.
    cbn [comparison_item_of S3Comparator.file_name S3Comparator.has_s3_file
         S3Comparator.has_etl_file S3Comparator.s3_mappings_count
         S3Comparator.etl_mappings_count].
    rewrite !comprehension_is_Some, !comprehension_lookup.
    split; [done|]. split; [done|]. split.
    + destruct Hk as [Hk|Hk].
      * by rewrite (bool_decide_eq_true_2 _ Hk).
      * rewrite (bool_decide_eq_true_2 _ Hk). apply orb_true_r.
    + split.
      * by destruct (last _).
      * by destruct (last _).
Qed.

Lemma without_s3_names (s3_files_map etl_files_map : list (string * Doc.File)) :
  S3Comparator.ws_file_name
    <$> S3Comparator.without_s3 s3_files_map etl_files_map
  = filter (λ k, k ∉ PyDict.keys s3_files_map) (PyDict.keys etl_files_map).
Proof.
  unfold S3Comparator.without_s3.
  induction etl_files_map as [|[k d] etl_files_map IH]; [done|].
  rewrite bind_cons, fmap_app, IH. clear IH.
  change (PyDict.keys ((k, d) :: etl_files_map))
    with (k :: PyDict.keys etl_files_map).
  rewrite filter_cons, pydict_mem_keys.
  case_decide as Hk.
  - by rewrite bool_decide_eq_false_2.
  - by rewrite bool_decide_eq_true_2.
Qed.

Lemma without_s3_elem_of (s3_files_map etl_files_map : list (string * Doc.File))
    entry :
  entry ∈ S3Comparator.without_s3 s3_files_map etl_files_map →
  ∃ etl_file_data,
    (S3Comparator.ws_file_name entry, etl_file_data) ∈ etl_files_map
    ∧ (S3Comparator.ws_file_name entry ∉ PyDict.keys s3_files_map)
    ∧ S3Comparator.ws_mappings_count entry
      = length (Doc.mappings etl_file_data)
    ∧ S3Comparator.ws_fields_count entry
      = length (file_fields (Some etl_file_data)).
Proof.
  unfold S3Comparator.without_s3. intros Hentry.
  apply list_elem_of_bind in Hentry as ([k d] & Hentry & Hkd).
  rewrite pydict_mem_keys in Hentry.
  destruct (decide (k ∈ PyDict.keys s3_files_map)) as [Hk|Hk].
  - rewrite bool_decide_eq_true_2 in Hentry by done.
    by apply elem_of_nil in Hentry.
  - rewrite bool_decide_eq_false_2 in Hentry by done.
    apply list_elem_of_singleton in Hentry as ->.
    exists d. cbn. split; [done|]. split; [done|]. split; [done|].
    induction (Doc.mappings d) as [|m ms IH]; [done|].
    rewrite fmap_cons, bind_cons, length_app. cbn. by rewrite IH.
Qed.

Lemma filter_all {A} (P : A → Prop) `{∀ x, Decision (P x)} (l : list A) :
  (∀ x, P x) → filter P l = l.
Proof.
  intros HP. induction l as [|x l IH]; [done|].
  by rewrite filter_cons_True, IH.
Qed.

Lemma length_pydict_set {K V} `{EqDecision K} (d : list (K * V)) k v :
  (length (PyDict.set d k v) ≤ S (length d))%nat.
Proof.
  induction d as [|[k' v'] d IH]; [done|].
  cbn. case_decide; cbn; lia.
Qed.

Lemma length_from_items {K V} `{EqDecision K} (d items : list (K * V)) :
  (length (from_items d items) ≤ length d + length items)%nat.
Proof.
  revert d. induction items as [|[k v] items IH]; intros d.
  { cbn. lia. }
  rewrite from_items_cons. specialize (IH (PyDict.set d k v)).
  pose proof (length_pydict_set d k v). cbn. lia.
Qed.

Lemma fields_map_of_length files_map file_name :
  (length (fields_map_of files_map file_name)
   ≤ length (file_fields (PyDict.lookup files_map file_name)))%nat.
Proof.
  unfold fields_map_of.
  etrans; [apply length_from_items|]. unfold field_entries.
  rewrite length_fmap. cbn. apply length_filter.
Qed.

(** X8: [s3_comparator_service.py], [compare_metadatas] lines 166-178:
    [etl_files_without_s3] has one entry per distinct ETL file name that is
    not a file name of the S3 document, and no other; its count is the
    number of comparison items whose [has_s3_file] is false.  Each entry
    matches the comparison item of the same name: that item has
    [has_s3_file] false and [has_etl_file] true, the same mapping count, no
    field in both and none only in S3, every ETL field counted as only in
    ETL; and the entry's [fields_count], which counts every ETL field entry,
    is at least the item's [etl_fields_count], which counts distinct
    non-empty normalized names. *)
Theorem X8_files_without_s3 s3_metadata etl_metadata :
  ∃ out,
    S3Comparator.compare_metadatas s3_metadata etl_metadata = Ok out
    ∧ let without := S3Comparator.etl_files_without_s3 out in
      NoDup (S3Comparator.ws_file_name <$> without)
      ∧ (∀ k, k ∈ S3Comparator.ws_file_name <$> without
              ↔ k ∈ Doc.name <$> Doc.files etl_metadata
                ∧ k ∉ Doc.name <$> Doc.files s3_metadata)
      ∧ S3Comparator.etl_files_without_s3_count out = length without
      ∧ length without
        = length (filter (λ item, S3Comparator.has_s3_file item = false)
                    (S3Comparator.comparisons out))
      ∧ Forall (λ entry,
          ∃ item,
            item ∈ S3Comparator.comparisons out
            ∧ S3Comparator.file_name item = S3Comparator.ws_file_name entry
            ∧ S3Comparator.has_s3_file item = false
            ∧ S3Comparator.has_etl_file item = true
            ∧ S3Comparator.etl_mappings_count item
              = S3Comparator.ws_mappings_count entry
            ∧ S3Comparator.fields_in_both item = []
            ∧ S3Comparator.fields_only_in_s3 item = []
            ∧ S3Comparator.fields_only_in_etl_count item
              = S3Comparator.etl_fields_count item
            ∧ (S3Comparator.etl_fields_count item
               ≤ S3Comparator.ws_fields_count entry)%nat)
          without.
Proof.
  eexists. split; [apply s3_compare_metadatas_value|].
  cbn [S3Comparator.etl_files_without_s3 S3Comparator.comparisons
       S3Comparator.etl_files_without_s3_count]. cbn zeta.
  set (s3_files_map :=
         PyDict.comprehension Doc.name id (Doc.files s3_metadata)).
  set (etl_files_map :=
         PyDict.comprehension Doc.name id (Doc.files etl_metadata)).
  assert (NoDup (S3Comparator.ws_file_name
                   <$> S3Comparator.without_s3 s3_files_map etl_files_map))
    as Hnodup.
  { rewrite without_s3_names. apply NoDup_filter, comprehension_NoDup. }
  assert (∀ k, k ∈ S3Comparator.ws_file_name
                     <$> S3Comparator.without_s3 s3_files_map etl_files_map
               ↔ k ∈ Doc.name <$> Doc.files etl_metadata
                 ∧ k ∉ Doc.name <$> Doc.files s3_metadata) as Hnames.
  { intros k. rewrite without_s3_names, list_elem_of_filter.
    unfold s3_files_map, etl_files_map. rewrite !comprehension_keys. tauto. }
  split; [exact Hnodup|]. split; [exact Hnames|]. split; [done|]. split.
  - trans (length (S3Comparator.ws_file_name
                     <$> S3Comparator.without_s3 s3_files_map etl_files_map));
      [by rewrite length_fmap|].
    rewrite filter_fmap,
      (length_fmap (comparison_item_of s3_files_map etl_files_map)).
    apply Permutation_length, NoDup_Permutation.
    + exact Hnodup.
    + apply NoDup_filter, compared_names_NoDup.
    + intros k. rewrite Hnames, list_elem_of_filter, compared_names_elem_of.
      cbn [comparison_item_of S3Comparator.has_s3_file].
      fold s3_files_map. unfold s3_files_map.
      rewrite comprehension_is_Some, bool_decide_eq_false. tauto.
  - apply Forall_forall. intros entry Hentry.
    apply without_s3_elem_of in Hentry as (d & Hd & Hk & Hmappings & Hfields).
    exists (comparison_item_of s3_files_map etl_files_map
              (S3Comparator.ws_file_name entry)).
    assert (PyDict.lookup etl_files_map (S3Comparator.ws_file_name entry)
            = Some d) as Hetl.
    { apply pydict_elem_of_lookup; [apply comprehension_NoDup|done]. }
    assert (PyDict.lookup s3_files_map (S3Comparator.ws_file_name entry)
            = None) as Hs3 by (by apply pydict_lookup_None).
    split.
    { apply list_elem_of_fmap. eexists. split; [done|].
      apply compared_names_elem_of. right.
      apply comprehension_keys. fold etl_files_map.
      apply pydict_lookup_keys. by rewrite Hetl. }
    pose proof (fields_map_of_length etl_files_map
                  (S3Comparator.ws_file_name entry)) as Hlen.
    rewrite Hetl in Hlen.
    cbn [comparison_item_of S3Comparator.file_name S3Comparator.has_s3_file
         S3Comparator.has_etl_file S3Comparator.etl_mappings_count
         S3Comparator.fields_in_both S3Comparator.fields_only_in_s3
         S3Comparator.fields_only_in_etl_count S3Comparator.etl_fields_count].
    rewrite Hetl, Hs3, (fields_map_of_absent _ _ Hs3), partition_s3_nil_l.
    split; [done|]. split; [done|]. split; [done|].
    split; [by rewrite Hmappings|]. split; [done|]. split; [done|].
    split; [|by rewrite Hfields].
    rewrite partition_etl_spec, length_fmap. f_equal.
    apply filter_all. intros kv. cbn. apply not_elem_of_nil.
Qed.

Lemma compared_names_comm s3_metadata etl_metadata :
  compared_names s3_metadata etl_metadata
  = compared_names etl_metadata s3_metadata.
Proof. unfold compared_names. by rewrite (comm_L (∪)). Qed.

Lemma item_swap s3_files_map etl_files_map file_name :
  let item := comparison_item_of s3_files_map etl_files_map file_name in
  let item' := comparison_item_of etl_files_map s3_files_map file_name in
  S3Comparator.fields_only_in_s3 item' = S3Comparator.fields_only_in_etl item
  ∧ S3Comparator.fields_only_in_etl item' = S3Comparator.fields_only_in_s3 item
  ∧ names_in_both item' ≡ₚ names_in_both item.
Proof.
  intros item item'. split; [|split].
  - unfold item, item', comparison_item_of.
    cbn [S3Comparator.fields_only_in_s3 S3Comparator.fields_only_in_etl].
    destruct (partition_s3_spec (fields_map_of etl_files_map file_name)
                (fields_map_of s3_files_map file_name)) as [_ ->].
    by rewrite partition_etl_spec.
  - unfold item, item', comparison_item_of.
    cbn [S3Comparator.fields_only_in_s3 S3Comparator.fields_only_in_etl].
    destruct (partition_s3_spec (fields_map_of s3_files_map file_name)
                (fields_map_of etl_files_map file_name)) as [_ ->].
    by rewrite partition_etl_spec.
  - destruct (item_names s3_files_map etl_files_map file_name) as (H1 & _).
    destruct (item_names etl_files_map s3_files_map file_name) as (H2 & _).
    unfold item, item'. rewrite H1, H2.
    pose proof (fields_map_of_NoDup s3_files_map file_name).
    pose proof (fields_map_of_NoDup etl_files_map file_name).
    apply NoDup_Permutation; [by apply NoDup_filter..|].
    intros k. rewrite !list_elem_of_filter. tauto.
Qed.

(** X9: [s3_comparator_service.py], [compare_metadatas]: comparing with the
    two documents exchanged gives the mirrored comparison.  The items come in
    the same order with the same file names; the two flags, the mapping
    counts and the field counts change sides; [fields_only_in_s3] and
    [fields_only_in_etl] change places, as lists; and the fields in both are
    the same normalized names, up to order, with the same count. *)
Theorem X9_storage_comparison_mirrored s3_metadata etl_metadata :
  ∃ out out',
    S3Comparator.compare_metadatas s3_metadata etl_metadata = Ok out
    ∧ S3Comparator.compare_metadatas etl_metadata s3_metadata = Ok out'
    ∧ Forall2 (λ item item',
        S3Comparator.file_name item' = S3Comparator.file_name item
        ∧ S3Comparator.has_s3_file item' = S3Comparator.has_etl_file item
        ∧ S3Comparator.has_etl_file item' = S3Comparator.has_s3_file item
        ∧ S3Comparator.s3_mappings_count item'
          = S3Comparator.etl_mappings_count item
        ∧ S3Comparator.etl_mappings_count item'
          = S3Comparator.s3_mappings_count item
        ∧ S3Comparator.s3_fields_count item'
          = S3Comparator.etl_fields_count item
        ∧ S3Comparator.etl_fields_count item'
          = S3Comparator.s3_fields_count item
        ∧ S3Comparator.fields_only_in_s3 item'
          = S3Comparator.fields_only_in_etl item
        ∧ S3Comparator.fields_only_in_etl item'
          = S3Comparator.fields_only_in_s3 item
        ∧ names_in_both item' ≡ₚ names_in_both item
        ∧ S3Comparator.fields_in_both_count item'
          = S3Comparator.fields_in_both_count item)
      (S3Comparator.comparisons out) (S3Comparator.comparisons out').
Proof.
  eexists _, _.
  split; [apply s3_compare_metadatas_value|].
  split; [apply s3_compare_metadatas_value|].
  cbn [S3Comparator.comparisons].
  rewrite (compared_names_comm etl_metadata s3_metadata).
  apply Forall2_fmap, Forall_Forall2_diag, Forall_forall. intros k _.
  set (s3_files_map :=
         PyDict.comprehension Doc.name id (Doc.files s3_metadata)).
  set (etl_files_map :=
         PyDict.comprehension Doc.name id (Doc.files etl_metadata)).
  destruct (item_swap s3_files_map etl_files_map k) as (Hs3 & Hetl & Hboth).
  split; [done|]. split; [done|]. split; [done|]. split; [done|].
  split; [done|]. split; [done|]. split; [done|].
  split; [exact Hs3|]. split; [exact Hetl|]. split; [exact Hboth|].
  destruct (item_lengths s3_files_map etl_files_map k) as (L & _).
  destruct (item_lengths etl_files_map s3_files_map k) as (L' & _).
  change (length (S3Comparator.fields_in_both
                    (comparison_item_of etl_files_map s3_files_map k))
          = length (S3Comparator.fields_in_both
                      (comparison_item_of s3_files_map etl_files_map k))).
  rewrite L, L'. by apply Permutation_length.
Qed.

(** X10: [s3_comparator_service.py], [compare] lines 185-219: the service
    returns without writing exactly when one of the two documents is missing
    or has no files; otherwise it writes what [compare_metadatas] returns,
    and that comparison has at least one item. *)
Theorem X10_storage_compare_skips_empty s3_metadata_file etl_metadata_file :
  let s3_metadata := get s3_metadata_file {| Doc.files := [] |} in
  let etl_metadata := get etl_metadata_file {| Doc.files := [] |} in
  ∃ r,
    S3Comparator.compare s3_metadata_file etl_metadata_file = Ok r
    ∧ match r with
      | None => Doc.files s3_metadata = [] ∨ Doc.files etl_metadata = []
      | Some out =>
          Doc.files s3_metadata ≠ [] ∧ Doc.files etl_metadata ≠ []
          ∧ S3Comparator.compare_metadatas s3_metadata etl_metadata = Ok out
          ∧ S3Comparator.comparisons out ≠ []
      end.
Proof.
  intros s3_metadata etl_metadata. unfold S3Comparator.compare.
  fold s3_metadata. fold etl_metadata.
  destruct (Doc.files s3_metadata) as [|s3_file s3_files] eqn:Hs3.
  { eexists. split; [done|]. by left. }
  destruct (Doc.files etl_metadata) as [|etl_file etl_files] eqn:Hetl.
  { eexists. split; [done|]. by right. }
  rewrite s3_compare_metadatas_value. cbn [mbind result_bind].
  eexists. split; [done|]. cbn beta iota.
  split; [done|]. split; [done|]. split; [done|].
  cbn [S3Comparator.comparisons]. intros Hnil.
  apply fmap_nil_inv in Hnil.
  assert (Doc.name s3_file ∈ compared_names s3_metadata etl_metadata) as Hin.
  { apply compared_names_elem_of. left. rewrite Hs3, fmap_cons. by left. }
  rewrite Hnil in Hin. by apply elem_of_nil in Hin.
Qed.

(** ** The consolidation as a value *)

Lemma scan_fields_value {A} (from_santander_of : A → pyval) entries n :
  Forall (λ entry, from_santander_of entry ≠ PyNone) entries →
  Consolidated.scan_fields from_santander_of entries n
  = Ok (bool_decide (n ∈ normalized <$> (from_santander_of <$> entries))).
Proof.
  induction 1 as [|entry entries Hentry _ IH]; [done|].
  cbn [Consolidated.scan_fields].
  rewrite consolidated_normalize_not_None by done. cbn [mbind result_bind].
  rewrite !fmap_cons.
  destruct (decide (normalized (from_santander_of entry) = n)) as [Hn|Hn].
  - rewrite bool_decide_eq_true_2; [done|]. rewrite Hn. by left.
  - rewrite IH. f_equal. apply bool_decide_ext.
    rewrite elem_of_cons. naive_solver.
Qed.

Lemma check_field_in_s3_value from_santander s3_comparison :
  from_santander ≠ PyNone →
  (∀ comp, s3_comparison = Some comp →
     Forall (λ entry, S3Comparator.both_from_santander entry ≠ PyNone)
       (S3Comparator.fields_in_both comp)
     ∧ Forall (λ entry, S3Comparator.from_santander entry ≠ PyNone)
         (S3Comparator.fields_only_in_s3 comp)) →
  Consolidated._check_field_in_s3 from_santander s3_comparison
  = Ok (sighted_in from_santander s3_comparison).
Proof.
  intros Hname Hcomp. destruct s3_comparison as [comp|]; [|done].
  destruct (Hcomp comp eq_refl) as [Hboth Honly].
  unfold Consolidated._check_field_in_s3, sighted_in.
  rewrite consolidated_normalize_not_None by done. cbn [mbind result_bind].
  rewrite (scan_fields_value _ _ _ Hboth). cbn [mbind result_bind].
  fold (names_in_both comp).
  destruct (decide (normalized from_santander ∈ names_in_both comp))
    as [Hin|Hin].
  - rewrite (bool_decide_eq_true_2 _ Hin).
    rewrite bool_decide_eq_true_2; [done|]. apply elem_of_app. by left.
  - rewrite (bool_decide_eq_false_2 _ Hin).
    rewrite (scan_fields_value _ _ _ Honly). cbn [mbind result_bind].
    fold (names_only_in_s3 comp).
    destruct (decide (normalized from_santander ∈ names_only_in_s3 comp))
      as [Hin'|Hin'].
    + rewrite (bool_decide_eq_true_2 _ Hin').
      rewrite bool_decide_eq_true_2; [done|]. apply elem_of_app. by right.
    + rewrite (bool_decide_eq_false_2 _ Hin').
      rewrite bool_decide_eq_false_2; [done|].
      rewrite elem_of_app. tauto.
Qed.

Lemma build_system_fields_map_value system_mapping_comp :
  Forall (λ sys_field, SystemComparator.from_santander sys_field ≠ PyNone)
    (from_option SystemComparator.fields [] system_mapping_comp) →
  Consolidated.build_system_fields_map system_mapping_comp
  = Ok (system_fields_map_of system_mapping_comp).
Proof.
  unfold Consolidated.build_system_fields_map, system_fields_map_of,
    PyDict.comprehension.
  intros Hnames. apply for_fold_pure. intros d sys_field Hin.
  rewrite Forall_forall in Hnames.
  by rewrite consolidated_normalize_not_None by auto.
Qed.

Lemma consolidate_field_value s3_comparison system_fields_map etl_field :
  source_name etl_field ≠ PyNone →
  (∀ comp, s3_comparison = Some comp →
     Forall (λ entry, S3Comparator.both_from_santander entry ≠ PyNone)
       (S3Comparator.fields_in_both comp)
     ∧ Forall (λ entry, S3Comparator.from_santander entry ≠ PyNone)
         (S3Comparator.fields_only_in_s3 comp)) →
  Consolidated.consolidate_field s3_comparison system_fields_map etl_field
  = Ok (consolidated_field_of s3_comparison system_fields_map etl_field).
Proof.
  intros Hname Hcomp. unfold Consolidated.consolidate_field.
  fold (source_name etl_field).
  rewrite (check_field_in_s3_value _ _ Hname Hcomp). cbn [mbind result_bind].
  by rewrite consolidated_normalize_not_None by done.
Qed.

Lemma consolidate_mapping_value s3_file_data s3_comparison
    system_file_comparison etl_mapping :
  Forall (λ etl_field, source_name etl_field ≠ PyNone)
    (Doc.fields etl_mapping) →
  Forall (λ kv : pyval * SystemComparator.MappingComparison,
    Forall (λ sys_field, SystemComparator.from_santander sys_field ≠ PyNone)
      (SystemComparator.fields kv.2)) system_file_comparison →
  (∀ comp, s3_comparison = Some comp →
     Forall (λ entry, S3Comparator.both_from_santander entry ≠ PyNone)
       (S3Comparator.fields_in_both comp)
     ∧ Forall (λ entry, S3Comparator.from_santander entry ≠ PyNone)
         (S3Comparator.fields_only_in_s3 comp)) →
  Consolidated.consolidate_mapping s3_file_data s3_comparison
    system_file_comparison etl_mapping
  = Ok (consolidated_mapping_of s3_file_data s3_comparison
          system_file_comparison etl_mapping).
Proof.
  intros Hetl Hsys Hs3.
  unfold Consolidated.consolidate_mapping, consolidated_mapping_of.
  rewrite build_system_fields_map_value.
  2:{ destruct (PyDict.lookup _ _) as [mc|] eqn:Hmc; [|constructor].
      apply pydict_lookup_elem_of in Hmc.
      rewrite Forall_forall in Hsys. exact (Hsys _ Hmc). }
  cbn [mbind result_bind].
  rewrite (for_map_pure _ (consolidated_field_of s3_comparison
             (system_fields_map_of
                (PyDict.lookup system_file_comparison
                   (get (Doc.map_ etl_mapping) (PyStr EmptyString)))))).
  2:{ eapply Forall_impl; [exact Hetl|]. intros etl_field Hname.
      by apply consolidate_field_value. }
  reflexivity.
Qed.

Lemma consolidate_file_value s3_metadata_file s3_comparison_file
    system_comparison_file etl_file :
  Forall (λ etl_mapping,
    Forall (λ etl_field, source_name etl_field ≠ PyNone)
      (Doc.fields etl_mapping)) (Doc.mappings etl_file) →
  system_names_are_str system_comparison_file →
  s3_names_are_str s3_comparison_file →
  Consolidated.consolidate_file (s3_files_map_of s3_metadata_file)
    (s3_comparison_map_of s3_comparison_file)
    (system_comparison_map_of system_comparison_file) etl_file
  = Ok (consolidated_file_of s3_metadata_file s3_comparison_file
          system_comparison_file etl_file).
Proof.
  intros Hetl Hsys Hs3.
  unfold Consolidated.consolidate_file, consolidated_file_of.
  rewrite (for_map_pure _
    (consolidated_mapping_of
       (PyDict.lookup (s3_files_map_of s3_metadata_file) (Doc.name etl_file))
       (PyDict.lookup (s3_comparison_map_of s3_comparison_file)
          (Doc.name etl_file))
       (get (PyDict.lookup (system_comparison_map_of system_comparison_file)
               (Doc.name etl_file)) []))); [done|].
  eapply Forall_impl; [exact Hetl|]. intros etl_mapping Hfields.
  apply consolidate_mapping_value; [exact Hfields| |].
  - destruct (PyDict.lookup (system_comparison_map_of _) _) as [mm|] eqn:Hmm;
      [|constructor].
    apply pydict_lookup_elem_of, comprehension_elem_of in Hmm
      as (fc & Hfc & ->).
    apply Forall_forall. intros [k' mc] (mc' & Hmc & ->)%comprehension_elem_of.
    unfold system_names_are_str in Hsys. rewrite Forall_forall in Hsys.
    specialize (Hsys fc Hfc). rewrite Forall_forall in Hsys.
    exact (Hsys mc' Hmc).
  - intros comp Hcomp.
    apply pydict_lookup_elem_of, comprehension_elem_of in Hcomp
      as (c & Hc & ->).
    unfold s3_names_are_str in Hs3. rewrite Forall_forall in Hs3.
    exact (Hs3 c Hc).
Qed.

Lemma consolidate_value etl_metadata s3_metadata_file s3_comparison_file
    system_comparison_file :
  etl_names_are_str etl_metadata →
  system_names_are_str system_comparison_file →
  s3_names_are_str s3_comparison_file →
  Consolidated.consolidate (Some etl_metadata) s3_metadata_file
    s3_comparison_file system_comparison_file
  = Ok (Some {| Consolidated.files :=
                  consolidated_file_of s3_metadata_file s3_comparison_file
                    system_comparison_file <$> Doc.files etl_metadata |}).
Proof.
  intros Hetl Hsys Hs3. unfold Consolidated.consolidate.
  fold (s3_comparison_map_of s3_comparison_file).
  fold (system_comparison_map_of system_comparison_file).
  fold (s3_files_map_of s3_metadata_file).
  rewrite (for_map_pure _
    (consolidated_file_of s3_metadata_file s3_comparison_file
       system_comparison_file)); [done|].
  eapply Forall_impl; [exact Hetl|]. intros etl_file Hfile.
  by apply consolidate_file_value.
Qed.

(** X11: [consolidated_metadata_service.py], [_check_field_in_s3] lines
    29-51: without a comparison item the answer is [False] whatever the name,
    [None] included.  With one, and all names involved being strings, the
    answer is [True] exactly when the normalized name is the normalized name
    of an entry of [fields_in_both] or of [fields_only_in_s3];
    [fields_only_in_etl] is never looked at. *)
Theorem X11_check_field_in_s3 from_santander comp :
  from_santander ≠ PyNone →
  Forall (λ entry, S3Comparator.both_from_santander entry ≠ PyNone)
    (S3Comparator.fields_in_both comp) →
  Forall (λ entry, S3Comparator.from_santander entry ≠ PyNone)
    (S3Comparator.fields_only_in_s3 comp) →
  Consolidated._check_field_in_s3 from_santander (Some comp)
  = Ok (bool_decide (normalized from_santander
                     ∈ names_in_both comp ++ names_only_in_s3 comp))
  ∧ Consolidated._check_field_in_s3 from_santander None = Ok false
  ∧ Consolidated._check_field_in_s3 PyNone None = Ok false.
Proof.
  intros Hname Hboth Honly. split; [|done].
  rewrite check_field_in_s3_value; [done|done|].
  intros comp' [= <-]. done.
Qed.

Lemma X11_check_field_in_s3_witness :
  let comp :=
    {| S3Comparator.file_name := "clients";
       S3Comparator.has_s3_file := true;
       S3Comparator.has_etl_file := true;
       S3Comparator.s3_mappings_count := 1;
       S3Comparator.etl_mappings_count := 1;
       S3Comparator.s3_fields_count := 1;
       S3Comparator.etl_fields_count := 1;
       S3Comparator.fields_in_both_count := 0;
       S3Comparator.fields_only_in_s3_count := 1;
       S3Comparator.fields_only_in_etl_count := 1;
       S3Comparator.fields_in_both := [];
       S3Comparator.fields_only_in_s3 :=
         [ {| S3Comparator.from_santander := PyStr " Client_ID";
              S3Comparator.laborit := PyStr "client_id";
              S3Comparator.type_ := PyStr "int" |} ];
       S3Comparator.fields_only_in_etl :=
         [ {| S3Comparator.from_santander := PyStr "Branch";
              S3Comparator.laborit := PyStr "branch";
              S3Comparator.type_ := PyStr "int" |} ] |} in
  Consolidated._check_field_in_s3 (PyStr "client_id ") (Some comp) = Ok true
  ∧ Consolidated._check_field_in_s3 (PyStr "branch") (Some comp) = Ok false.
Proof.
  intros comp. split.
  - refine (proj1 (X11_check_field_in_s3 (PyStr "client_id ") comp _ _ _)).
    + discriminate.
    + constructor.
    + repeat (constructor; try discriminate).
  - refine (proj1 (X11_check_field_in_s3 (PyStr "branch") comp _ _ _)).
    + discriminate.
    + constructor.
    + repeat (constructor; try discriminate).
Defined.

Lemma consolidated_fieldwise
    (P : Doc.File → Doc.Mapping → Doc.Field
         → Consolidated.ConsolidatedField → Prop)
    etl_metadata s3_metadata_file s3_comparison_file system_comparison_file :
  (∀ etl_file etl_mapping etl_field,
     etl_file ∈ Doc.files etl_metadata →
     etl_mapping ∈ Doc.mappings etl_file →
     etl_field ∈ Doc.fields etl_mapping →
     P etl_file etl_mapping etl_field
       (consolidated_field_of
          (PyDict.lookup (s3_comparison_map_of s3_comparison_file)
             (Doc.name etl_file))
          (system_fields_map_of
             (PyDict.lookup
                (get (PyDict.lookup
                        (system_comparison_map_of system_comparison_file)
                        (Doc.name etl_file)) [])
                (map_name_of etl_mapping)))
          etl_field)) →
  fieldwise P etl_metadata
    {| Consolidated.files :=
         consolidated_file_of s3_metadata_file s3_comparison_file
           system_comparison_file <$> Doc.files etl_metadata |}.
Proof.
  intros HP. unfold fieldwise. cbn [Consolidated.files].
  apply Forall2_fmap_r, Forall_Forall2_diag, Forall_forall.
  intros etl_file Hfile. cbn [consolidated_file_of Consolidated.mappings].
  apply Forall2_fmap_r, Forall_Forall2_diag, Forall_forall.
  intros etl_mapping Hmapping.
  cbn [consolidated_mapping_of Consolidated.fields].
  apply Forall2_fmap_r, Forall_Forall2_diag, Forall_forall.
  intros etl_field Hfield. by apply HP.
Qed.

Lemma consolidated_mappingwise_intro
    (P : Doc.File → Doc.Mapping → Consolidated.ConsolidatedMapping → Prop)
    etl_metadata s3_metadata_file s3_comparison_file system_comparison_file :
  (∀ etl_file etl_mapping,
     etl_file ∈ Doc.files etl_metadata →
     etl_mapping ∈ Doc.mappings etl_file →
     P etl_file etl_mapping
       (consolidated_mapping_of
          (PyDict.lookup (s3_files_map_of s3_metadata_file)
             (Doc.name etl_file))
          (PyDict.lookup (s3_comparison_map_of s3_comparison_file)
             (Doc.name etl_file))
          (get (PyDict.lookup
                  (system_comparison_map_of system_comparison_file)
                  (Doc.name etl_file)) [])
          etl_mapping)) →
  consolidated_mappingwise P etl_metadata
    {| Consolidated.files :=
         consolidated_file_of s3_metadata_file s3_comparison_file
           system_comparison_file <$> Doc.files etl_metadata |}.
Proof.
  intros HP. unfold consolidated_mappingwise. cbn [Consolidated.files].
  apply Forall2_fmap_r, Forall_Forall2_diag, Forall_forall.
  intros etl_file Hfile. cbn [consolidated_file_of Consolidated.mappings].
  apply Forall2_fmap_r, Forall_Forall2_diag, Forall_forall.
  intros etl_mapping Hmapping. by apply HP.
Qed.

Lemma consolidated_used_split (fields : list Consolidated.ConsolidatedField) :
  length (filter (λ f, Consolidated.is_used_in_system f = true) fields)
  + length (filter (λ f, Consolidated.is_used_in_system f = false) fields)
  = length fields.
Proof.
  rewrite <- (length_filter_split
                (λ f, Consolidated.is_used_in_system f = true) fields).
  f_equal. f_equal. apply list_filter_iff. intros f.
  by destruct (Consolidated.is_used_in_system f).
Qed.

(** X12: [consolidated_metadata_service.py], [consolidate] lines 186-201:
    in every consolidated mapping [total_fields] is the number of fields of
    the ETL mapping and of the consolidated mapping,
    [used_in_system_count] and [exists_in_s3_count] count the fields carrying
    the flag, [unused_in_system_count] counts the fields whose
    [is_used_in_system] is false, used + unused = total, and
    [exists_in_s3_count] is at most the total. *)
Theorem X12_consolidated_statistics etl_metadata s3_metadata_file
    s3_comparison_file system_comparison_file :
  etl_names_are_str etl_metadata →
  system_names_are_str system_comparison_file →
  s3_names_are_str s3_comparison_file →
  ∃ out,
    Consolidated.consolidate (Some etl_metadata) s3_metadata_file
      s3_comparison_file system_comparison_file = Ok (Some out)
    ∧ consolidated_mappingwise (λ _ etl_mapping mapping,
        let stats := Consolidated.statistics mapping in
        let fields := Consolidated.fields mapping in
        Consolidated.total_fields stats = length (Doc.fields etl_mapping)
        ∧ Consolidated.total_fields stats = length fields
        ∧ Consolidated.used_in_system_count stats
          = length (filter (λ f, Consolidated.is_used_in_system f = true)
                      fields)
        ∧ Consolidated.unused_in_system_count stats
          = length (filter (λ f, Consolidated.is_used_in_system f = false)
                      fields)
        ∧ Consolidated.exists_in_s3_count stats
          = length (filter (λ f, Consolidated.exists_in_s3 f = true) fields)
        ∧ Consolidated.used_in_system_count stats
          + Consolidated.unused_in_system_count stats
          = Consolidated.total_fields stats
        ∧ (Consolidated.exists_in_s3_count stats
           ≤ Consolidated.total_fields stats)%nat)
      etl_metadata out.
Proof.
  intros Hetl Hsys Hs3. eexists. split; [by apply consolidate_value|].
  apply consolidated_mappingwise_intro. intros etl_file etl_mapping _ _.
  cbn [consolidated_mapping_of Consolidated.statistics Consolidated.fields
       Consolidated.total_fields Consolidated.used_in_system_count
       Consolidated.unused_in_system_count Consolidated.exists_in_s3_count].
  cbn zeta.
  set (fields := consolidated_field_of _ _ <$> Doc.fields etl_mapping).
  pose proof (consolidated_used_split fields) as Hsplit.
  pose proof (length_filter (λ f, Consolidated.exists_in_s3 f = true) fields)
    as Hle.
  split; [by unfold fields; rewrite length_fmap|].
  split; [done|]. split; [done|]. split; [lia|]. split; [done|].
  split; [lia|exact Hle].
Qed.

Lemma X12_consolidated_statistics_witness :
  ∃ out,
    Consolidated.consolidate (Some one_field_etl) (Some clients_s3_metadata)
      None None = Ok (Some out)
    ∧ Forall (λ file,
        Forall (λ mapping,
          Consolidated.used_in_system_count (Consolidated.statistics mapping)
          + Consolidated.unused_in_system_count
              (Consolidated.statistics mapping)
          = Consolidated.total_fields (Consolidated.statistics mapping))
          (Consolidated.mappings file))
        (Consolidated.files out).
Proof.
  destruct (X12_consolidated_statistics one_field_etl
              (Some clients_s3_metadata) None None)
    as (out & Hout & Hstats).
  - exact one_field_etl_names_are_str.
  - constructor.
  - constructor.
  - exists out. split; [exact Hout|].
    unfold consolidated_mappingwise in Hstats.
    induction Hstats as [|etl_file file etl_files files Hfile _ IH];
      constructor; [|exact IH].
    clear IH. induction Hfile as [|etl_mapping mapping ? ? Hm _ IH];
      constructor; [|exact IH].
    destruct Hm as (_ & _ & _ & _ & _ & Hsum & _). exact Hsum.
Defined.

(** ** Claim on the absence of the storage comparison *)

(** A usage comparison whose one field has a JSON-null source name. *)
Example null_usage_name_consolidation :
  Consolidated.consolidate (Some one_field_etl) None None
    (Some {| SystemComparator.etl_total_files := 1;
             SystemComparator.system_total_tables := 0;
             SystemComparator.files :=
               [ {| SystemComparator.file_name := "clients";
                    SystemComparator.mappings :=
                      [ {| SystemComparator.map_ := PyStr "m_clients";
                           SystemComparator.table := PyStr "tb_clients";
                           SystemComparator.has_system_data := false;
                           SystemComparator.fields :=
                             [ {| SystemComparator.from_santander := PyNone;
                                  SystemComparator.laborit :=
                                    PyStr "client_id";
                                  SystemComparator.type_ := PyStr "int";
                                  SystemComparator.is_used_in_system :=
                                    true |} ];
                           SystemComparator.statistics :=
                             {| SystemComparator.total_fields := 1;
                                SystemComparator.used_count := 1;
                                SystemComparator.unused_count := 0 |};
                           SystemComparator.system_unused_columns_count :=
                             0 |} ] |} ];
             SystemComparator.etl_without_system := [];
             SystemComparator.etl_without_system_count := 0 |})
  = Raise AttributeError.
Proof. reflexivity. Qed.

(** C8 (amended): for every ETL document in which no source name is JSON
    null, and every usage comparison (missing, or one in which no source
    name is JSON null), consolidating with an empty or missing storage
    comparison completes without raising and writes a document that mirrors
    the ETL document, with [exists_in_s3 = false] for every field of every
    mapping and [exists_in_s3_count = 0]; [has_s3_file] of a mapping tells
    whether the S3 metadata document lists the name of the mapping's file,
    so it is false for every mapping when that document is missing or empty
    too. *)
Theorem C8_absence_safety etl_metadata s3_metadata_file s3_comparison_file
    system_comparison_file :
  from_option S3Comparator.comparisons [] s3_comparison_file = [] →
  etl_names_are_str etl_metadata →
  system_names_are_str system_comparison_file →
  ∃ out,
    Consolidated.consolidate (Some etl_metadata) s3_metadata_file
      s3_comparison_file system_comparison_file = Ok (Some out)
    ∧ mirrors etl_metadata out
    ∧ consolidated_mappingwise (λ etl_file etl_mapping mapping,
        length (Consolidated.fields mapping)
          = length (Doc.fields etl_mapping)
        ∧ Forall (λ field, Consolidated.exists_in_s3 field = false)
            (Consolidated.fields mapping)
        ∧ Consolidated.exists_in_s3_count (Consolidated.statistics mapping)
          = 0
        ∧ Consolidated.has_s3_file (Consolidated.s3_comparison mapping)
          = bool_decide
              (Doc.name etl_file
               ∈ Doc.name <$> from_option Doc.files [] s3_metadata_file)
        ∧ (from_option Doc.files [] s3_metadata_file = [] →
           Consolidated.has_s3_file (Consolidated.s3_comparison mapping)
           = false))
      etl_metadata out.
Proof.
  intros Hempty Hetl Hsys.
  assert (s3_names_are_str s3_comparison_file) as Hs3.
  { unfold s3_names_are_str. rewrite Hempty. constructor. }
  pose proof (consolidate_value etl_metadata s3_metadata_file
                s3_comparison_file system_comparison_file Hetl Hsys Hs3)
    as Hout.
  eexists. split; [exact Hout|]. split.
  { destruct (consolidate_frame _ _ _ _ _ Hout) as (out & [= <-] & Hmirrors).
    exact Hmirrors. }
  apply consolidated_mappingwise_intro. intros etl_file etl_mapping _ _.
  unfold s3_comparison_map_of. rewrite Hempty.
  cbn [PyDict.comprehension foldl PyDict.lookup consolidated_mapping_of
       Consolidated.fields Consolidated.statistics Consolidated.s3_comparison
       Consolidated.exists_in_s3_count Consolidated.has_s3_file].
  set (fields := consolidated_field_of None _ <$> Doc.fields etl_mapping).
  assert (Forall (λ field, Consolidated.exists_in_s3 field = false) fields)
    as Hnone.
  { apply Forall_fmap, Forall_forall. by intros etl_field _. }
  assert (bool_decide
            (is_Some (PyDict.lookup (s3_files_map_of s3_metadata_file)
                        (Doc.name etl_file)))
          = bool_decide
              (Doc.name etl_file
               ∈ Doc.name <$> from_option Doc.files [] s3_metadata_file))
    as Hflag.
  { unfold s3_files_map_of. apply comprehension_is_Some. }
  split; [by unfold fields; rewrite length_fmap|].
  split; [exact Hnone|]. split; [by apply count_none_exists|].
  split; [exact Hflag|].
  intros Hfiles. rewrite Hflag, Hfiles.
  apply bool_decide_eq_false_2, not_elem_of_nil.
Qed.

Lemma C8_absence_safety_witness :
  ∃ out,
    Consolidated.consolidate (Some one_field_etl) None None None
      = Ok (Some out)
    ∧ mirrors one_field_etl out
    ∧ Forall (λ file,
        Forall (λ mapping,
          Forall (λ field, Consolidated.exists_in_s3 field = false)
            (Consolidated.fields mapping)
          ∧ Consolidated.has_s3_file (Consolidated.s3_comparison mapping)
            = false)
          (Consolidated.mappings file))
        (Consolidated.files out).
Proof.
  destruct (C8_absence_safety one_field_etl None None None)
    as (out & Hout & Hmirrors & Hall).
  - reflexivity.
  - exact one_field_etl_names_are_str.
  - constructor.
  - exists out. split; [exact Hout|]. split; [exact Hmirrors|].
    unfold consolidated_mappingwise in Hall.
    induction Hall as [|etl_file file etl_files files Hfile _ IH];
      constructor; [|exact IH].
    clear IH. induction Hfile as [|etl_mapping mapping ? ? Hm _ IH];
      constructor; [|exact IH].
    destruct Hm as (_ & Hfields & _ & _ & Hflag).
    split; [exact Hfields|]. apply Hflag. reflexivity.
Defined.

(** ** The consolidation after the storage comparison *)

Lemma last_all_eq {A} (l : list A) x :
  Forall (λ y, y = x) l → l ≠ [] → last l = Some x.
Proof.
  induction 1 as [|y l -> Hl IH]; [done|]. intros _.
  destruct l as [|z l]; [done|]. cbn [last]. by apply IH.
Qed.

Lemma storage_item_lookup s3_metadata etl_metadata out k :
  S3Comparator.compare_metadatas s3_metadata etl_metadata = Ok out →
  k ∈ compared_names s3_metadata etl_metadata →
  PyDict.lookup (s3_comparison_map_of (Some out)) k
  = Some (comparison_item_of
            (PyDict.comprehension Doc.name id (Doc.files s3_metadata))
            (PyDict.comprehension Doc.name id (Doc.files etl_metadata)) k)
  ∧ comparison_item_of
      (PyDict.comprehension Doc.name id (Doc.files s3_metadata))
      (PyDict.comprehension Doc.name id (Doc.files etl_metadata)) k
    ∈ S3Comparator.comparisons out.
Proof.
  intros Hout Hk. rewrite s3_compare_metadatas_value in Hout.
  injection Hout as <-. split.
  - unfold s3_comparison_map_of.
    cbn [from_option S3Comparator.comparisons].
    rewrite comprehension_lookup, filter_fmap, last_fmap.
    cbn [comparison_item_of S3Comparator.file_name].
    rewrite (last_all_eq _ k); [done| |].
    + apply Forall_forall. by intros n [-> _]%list_elem_of_filter.
    + intros Hnil. assert (k ∈ filter (λ n, n = k)
                                 (compared_names s3_metadata etl_metadata))
        as Hin by (by apply list_elem_of_filter).
      rewrite Hnil in Hin. by apply elem_of_nil in Hin.
  - cbn [S3Comparator.comparisons]. apply list_elem_of_fmap. by exists k.
Qed.




(** What the two [compare] services leave for the consolidator. *)
Lemma storage_compare_written s3_metadata_file etl_metadata :
  ∃ written,
    S3Comparator.compare s3_metadata_file (Some etl_metadata) = Ok written
    ∧ s3_names_are_str written
    ∧ match written with
      | Some out =>
          ∃ s3_metadata,
            s3_metadata_file = Some s3_metadata
            ∧ S3Comparator.compare_metadatas s3_metadata etl_metadata = Ok out
      | None =>
          from_option Doc.files [] s3_metadata_file = []
          ∨ Doc.files etl_metadata = []
      end.
Proof.
  unfold S3Comparator.compare.
  destruct s3_metadata_file as [s3_metadata|]; cbn [get from_option Doc.files].
  2:{ exists None. split; [done|]. split; [constructor|by left]. }
  destruct (Doc.files s3_metadata) as [|s3_file s3_files] eqn:Hs3.
  { exists None. split; [done|]. split; [constructor|by left]. }
  destruct (Doc.files etl_metadata) as [|etl_file etl_files] eqn:Hetl.
  { exists None. split; [done|]. split; [constructor|by right]. }
  destruct (s3_compare_metadatas_spec s3_metadata etl_metadata)
    as (out & Hout & _).
  rewrite Hout. exists (Some out). split; [done|].
  split; [by eapply s3_comparison_names_are_str|]. by exists s3_metadata.
Qed.

Lemma usage_compare_written etl_metadata system_metadata_file :
  etl_names_are_str etl_metadata →
  ∃ written,
    SystemComparator.compare (Some etl_metadata) system_metadata_file
      = Ok written
    ∧ system_names_are_str (fst <$> written)
    ∧ match written with
      | Some (out, _) =>
          get system_metadata_file [] ≠ []
          ∧ SystemComparator.compare_metadatas system_metadata_file
              etl_metadata (get system_metadata_file []) = Ok out
      | None =>
          Doc.files etl_metadata = [] ∨ get system_metadata_file [] = []
      end.
Proof.
  intros Hetl. unfold SystemComparator.compare. cbn [get].
  destruct (Doc.files etl_metadata) as [|etl_file etl_files] eqn:Hfiles.
  { exists None. split; [done|]. split; [constructor|by left]. }
  change (match system_metadata_file with Some v => v | None => [] end)
    with (get system_metadata_file []).
  destruct (get system_metadata_file []) as [|item items] eqn:Hsystem.
  { exists None. split; [done|]. split; [constructor|by right]. }
  pose proof (system_compare_metadatas_value system_metadata_file
                etl_metadata (item :: items)) as Hout.
  cbn zeta in Hout. rewrite Hout. cbn [mbind result_bind].
  eexists. split; [reflexivity|]. split.
  - cbn [fmap option_fmap option_map fst].
    eapply system_comparison_names_are_str; [exact Hetl|exact Hout].
  - split; [done|reflexivity].
Qed.

(** X14: [s3_comparator_service.py] [compare] and
    [etl_system_comparator_service.py] [compare], followed by
    [consolidated_metadata_service.py] [consolidate] reading the S3 document
    and what the two comparators wrote (nothing, when they return early, no
    file of an earlier run being left): when no ETL source name is null, the
    three run to the end.  If the storage comparator wrote a comparison, the
    [s3_comparison] summary of every consolidated mapping repeats the item
    of its file, [has_s3_file] and the three counts, so that [has_s3_file]
    agrees with the comparator's flag.  If it wrote nothing, the S3 document
    is missing or without files and every summary has [has_s3_file] false
    and the three counts 0. *)
Theorem X14_storage_summary_end_to_end s3_metadata_file etl_metadata
    system_metadata_file :
  etl_names_are_str etl_metadata →
  ∃ s3_written system_written out,
    S3Comparator.compare s3_metadata_file (Some etl_metadata) = Ok s3_written
    ∧ SystemComparator.compare (Some etl_metadata) system_metadata_file
      = Ok system_written
    ∧ Consolidated.consolidate (Some etl_metadata) s3_metadata_file
        s3_written (fst <$> system_written) = Ok (Some out)
    ∧ consolidated_mappingwise (λ etl_file _ mapping,
        let summary := Consolidated.s3_comparison mapping in
        match s3_written with
        | Some s3_comparison =>
            ∃ item,
              item ∈ S3Comparator.comparisons s3_comparison
              ∧ S3Comparator.file_name item = Doc.name etl_file
              ∧ S3Comparator.has_etl_file item = true
              ∧ Consolidated.has_s3_file summary
                = S3Comparator.has_s3_file item
              ∧ Consolidated.fields_in_both_count summary
                = S3Comparator.fields_in_both_count item
              ∧ Consolidated.fields_only_in_s3_count summary
                = S3Comparator.fields_only_in_s3_count item
              ∧ Consolidated.fields_only_in_etl_count summary
                = S3Comparator.fields_only_in_etl_count item
        | None =>
            from_option Doc.files [] s3_metadata_file = []
            ∧ Consolidated.has_s3_file summary = false
            ∧ Consolidated.fields_in_both_count summary = 0
            ∧ Consolidated.fields_only_in_s3_count summary = 0
            ∧ Consolidated.fields_only_in_etl_count summary = 0
        end)
      etl_metadata out.
Proof.
  intros Hetl.
  destruct (storage_compare_written s3_metadata_file etl_metadata)
    as (s3_written & Hs3 & Hs3_names & Hs3_written).
  destruct (usage_compare_written etl_metadata system_metadata_file Hetl)
    as (system_written & Hsystem & Hsystem_names & _).
  exists s3_written, system_written. eexists.
  split; [exact Hs3|]. split; [exact Hsystem|].
  split; [by apply consolidate_value|].
  apply consolidated_mappingwise_intro. intros etl_file etl_mapping Hfile _.
  cbn zeta. destruct s3_written as [s3_comparison|].
  - destruct Hs3_written as (s3_metadata & -> & Hcompare).
    destruct (storage_item_lookup s3_metadata etl_metadata s3_comparison
                (Doc.name etl_file) Hcompare) as [Hlookup Hin].
    { apply compared_names_elem_of. right. apply list_elem_of_fmap. eauto. }
    eexists. split; [exact Hin|]. rewrite Hlookup.
    cbn [consolidated_mapping_of Consolidated.s3_comparison
         Consolidated.has_s3_file Consolidated.fields_in_both_count
         Consolidated.fields_only_in_s3_count
         Consolidated.fields_only_in_etl_count from_option
         comparison_item_of S3Comparator.file_name S3Comparator.has_s3_file
         S3Comparator.has_etl_file S3Comparator.fields_in_both_count
         S3Comparator.fields_only_in_s3_count
         S3Comparator.fields_only_in_etl_count].
    split; [done|]. split; [|done].
    rewrite comprehension_is_Some. apply bool_decide_eq_true_2.
    apply list_elem_of_fmap. eauto.
  - assert (from_option Doc.files [] s3_metadata_file = []) as Hnone.
    { destruct Hs3_written as [Hnone|Hnone]; [exact Hnone|].
      rewrite Hnone in Hfile. by apply elem_of_nil in Hfile. }
    split; [exact Hnone|].
    unfold s3_files_map_of. rewrite Hnone. done.
Qed.

Lemma X14_storage_summary_end_to_end_witness :
  ∃ s3_written system_written out,
    S3Comparator.compare (Some clients_s3_metadata) (Some one_field_etl)
      = Ok s3_written
    ∧ SystemComparator.compare (Some one_field_etl) None = Ok system_written
    ∧ Consolidated.consolidate (Some one_field_etl)
        (Some clients_s3_metadata) s3_written (fst <$> system_written)
      = Ok (Some out)
    ∧ consolidated_mappingwise (λ etl_file _ mapping,
        let summary := Consolidated.s3_comparison mapping in
        match s3_written with
        | Some s3_comparison =>
            ∃ item,
              item ∈ S3Comparator.comparisons s3_comparison
              ∧ S3Comparator.file_name item = Doc.name etl_file
              ∧ S3Comparator.has_etl_file item = true
              ∧ Consolidated.has_s3_file summary
                = S3Comparator.has_s3_file item
              ∧ Consolidated.fields_in_both_count summary
                = S3Comparator.fields_in_both_count item
              ∧ Consolidated.fields_only_in_s3_count summary
                = S3Comparator.fields_only_in_s3_count item
              ∧ Consolidated.fields_only_in_etl_count summary
                = S3Comparator.fields_only_in_etl_count item
        | None =>
            from_option Doc.files [] (Some clients_s3_metadata) = []
            ∧ Consolidated.has_s3_file summary = false
            ∧ Consolidated.fields_in_both_count summary = 0
            ∧ Consolidated.fields_only_in_s3_count summary = 0
            ∧ Consolidated.fields_only_in_etl_count summary = 0
        end)
      one_field_etl out.
Proof.
  apply (X14_storage_summary_end_to_end (Some clients_s3_metadata)
           one_field_etl None).
  exact one_field_etl_names_are_str.
Defined.

(** ** The consolidation after the usage comparison *)

Lemma filter_none {A} (P : A → Prop) `{∀ x, Decision (P x)} (l : list A) :
  (∀ x, x ∈ l → ¬ P x) → filter P l = [].
Proof.
  induction l as [|x l IH]; [done|]. intros HP.
  rewrite filter_cons_False by (apply HP; by left).
  apply IH. intros y Hy. apply HP. by right.
Qed.

Lemma filter_unique_key {K A} `{EqDecision K} (key : A → K) (xs : list A) x :
  NoDup (key <$> xs) → x ∈ xs → filter (λ y, key y = key x) xs = [x].
Proof.
  induction xs as [|y xs IH]; intros Hnodup Hin.
  { by apply elem_of_nil in Hin. }
  rewrite fmap_cons in Hnodup. apply NoDup_cons in Hnodup as [Hy Hnodup].
  apply elem_of_cons in Hin as [->|Hin].
  - rewrite filter_cons_True by done. f_equal.
    apply filter_none. intros z Hz Hkey. apply Hy.
    rewrite <- Hkey. apply list_elem_of_fmap. eauto.
  - rewrite filter_cons_False; [by apply IH|].
    intros Hkey. apply Hy. rewrite Hkey. apply list_elem_of_fmap. eauto.
Qed.

Lemma comprehension_lookup_unique {K V A} `{EqDecision K} (key : A → K)
    (val : A → V) (xs : list A) x :
  NoDup (key <$> xs) → x ∈ xs →
  PyDict.lookup (PyDict.comprehension key val xs) (key x) = Some (val x).
Proof.
  intros Hnodup Hin.
  by rewrite comprehension_lookup, filter_unique_key.
Qed.

Lemma usage_file_lookup system_file etl_metadata system_metadata out
    etl_file :
  SystemComparator.compare_metadatas system_file etl_metadata system_metadata
    = Ok out →
  NoDup (Doc.name <$> Doc.files etl_metadata) →
  etl_file ∈ Doc.files etl_metadata →
  PyDict.lookup (system_comparison_map_of (Some out)) (Doc.name etl_file)
  = Some (PyDict.comprehension SystemComparator.map_ id
            (mapping_comparison_of
               (FromSystem._load_system_metadata system_file)
               <$> Doc.mappings etl_file)).
Proof.
  intros Hout Hnodup Hin. rewrite system_compare_metadatas_value in Hout.
  injection Hout as <-. unfold system_comparison_map_of.
  cbn [from_option SystemComparator.files].
  set (system_map := FromSystem._load_system_metadata system_file).
  change (Doc.name etl_file)
    with (SystemComparator.file_name (file_comparison_of system_map etl_file)).
  rewrite comprehension_lookup_unique; [done| |].
  - by rewrite <- list_fmap_compose.
  - apply list_elem_of_fmap. eauto.
Qed.

Lemma usage_mapping_lookup system_map mappings etl_mapping :
  NoDup (map_name_of <$> mappings) →
  etl_mapping ∈ mappings →
  PyDict.lookup
    (PyDict.comprehension SystemComparator.map_ id
       (mapping_comparison_of system_map <$> mappings))
    (map_name_of etl_mapping)
  = Some (mapping_comparison_of system_map etl_mapping).
Proof.
  intros Hnodup Hin.
  change (map_name_of etl_mapping)
    with (SystemComparator.map_
            (mapping_comparison_of system_map etl_mapping)).
  rewrite comprehension_lookup_unique; [done| |].
  - by rewrite <- list_fmap_compose.
  - apply list_elem_of_fmap. eauto.
Qed.

Lemma usage_field_lookup unused etl_fields etl_field :
  NoDup ((λ etl_field, normalized (source_name etl_field)) <$> etl_fields) →
  etl_field ∈ etl_fields →
  PyDict.lookup
    (PyDict.comprehension
       (λ sys_field, normalized (SystemComparator.from_santander sys_field))
       id (with_usage unused <$> etl_fields))
    (normalized (source_name etl_field))
  = Some (with_usage unused etl_field).
Proof.
  intros Hnodup Hin.
  change (normalized (source_name etl_field))
    with ((λ sys_field,
             normalized (SystemComparator.from_santander sys_field))
            (with_usage unused etl_field)).
  rewrite comprehension_lookup_unique; [done| |].
  - by rewrite <- list_fmap_compose.
  - apply list_elem_of_fmap. eauto.
Qed.

(** X15: [s3_comparator_service.py] [compare] and
    [etl_system_comparator_service.py] [compare], followed by
    [consolidated_metadata_service.py] [consolidate] reading the S3 document
    and what the two comparators wrote (nothing, when they return early, no
    file of an earlier run being left): when no ETL source name is null and
    the lookup keys are unique (file names in the document, [map] names
    within a file, normalized source names within a mapping), the three run
    to the end.  With a usage document that is missing or empty the usage
    comparator writes nothing and every consolidated field has
    [is_used_in_system] false; otherwise a consolidated field has
    [is_used_in_system] false exactly when its normalized [laborit] name is
    in the unused set of the usage record of its mapping's table.  In both
    cases the [system_comparison] summary of a mapping says whether that
    record exists and how many names its unused set has. *)
Theorem X15_is_used_in_system_end_to_end s3_metadata_file etl_metadata
    system_metadata_file :
  etl_names_are_str etl_metadata →
  unique_keys etl_metadata →
  let system_map := FromSystem._load_system_metadata system_metadata_file in
  ∃ s3_written system_written out,
    S3Comparator.compare s3_metadata_file (Some etl_metadata) = Ok s3_written
    ∧ SystemComparator.compare (Some etl_metadata) system_metadata_file
      = Ok system_written
    ∧ Consolidated.consolidate (Some etl_metadata) s3_metadata_file
        s3_written (fst <$> system_written) = Ok (Some out)
    ∧ fieldwise (λ _ etl_mapping etl_field field,
        Consolidated.is_used_in_system field
        = match get system_metadata_file [] with
          | [] => false
          | _ :: _ =>
              negb (bool_decide
                      (normalized
                         (get (Doc.laborit etl_field) (PyStr EmptyString))
                       ∈ unused_set_of
                           (PyDict.lookup system_map
                              (get (Doc.table etl_mapping)
                                 (PyStr EmptyString)))))
          end)
      etl_metadata out
    ∧ consolidated_mappingwise (λ _ etl_mapping mapping,
        let system_data :=
          PyDict.lookup system_map
            (get (Doc.table etl_mapping) (PyStr EmptyString)) in
        Consolidated.has_system_data (Consolidated.system_comparison mapping)
        = bool_decide (is_Some system_data)
        ∧ Consolidated.system_unused_columns_count
            (Consolidated.system_comparison mapping)
          = size (unused_set_of system_data))
      etl_metadata out.
Proof.
  intros Hetl (Hfiles & Hunique) system_map.
  rewrite Forall_forall in Hunique.
  destruct (storage_compare_written s3_metadata_file etl_metadata)
    as (s3_written & Hs3 & Hs3_names & _).
  destruct (usage_compare_written etl_metadata system_metadata_file Hetl)
    as (system_written & Hsystem & Hsystem_names & Hsystem_written).
  exists s3_written, system_written. eexists.
  split; [exact Hs3|]. split; [exact Hsystem|].
  split; [by apply consolidate_value|].
  destruct system_written as [[system_comparison totals]|].
  - destruct Hsystem_written as [Hnonempty Hcompare].
    cbn [fmap option_fmap option_map fst]. split.
    + apply consolidated_fieldwise.
      intros etl_file etl_mapping etl_field Hfile Hmapping Hfield.
      destruct (Hunique etl_file Hfile) as [Hmaps Hfields].
      rewrite Forall_forall in Hfields.
      erewrite usage_file_lookup;
        [|exact Hcompare|exact Hfiles|exact Hfile].
      cbn [get]. rewrite usage_mapping_lookup by done.
      cbn [consolidated_field_of Consolidated.is_used_in_system].
      unfold system_fields_map_of.
      cbn [from_option mapping_comparison_of SystemComparator.fields].
      rewrite usage_field_lookup by auto.
      change (match system_metadata_file with Some v => v | None => [] end)
        with (get system_metadata_file []).
      by destruct (get system_metadata_file []).
    + apply consolidated_mappingwise_intro.
      intros etl_file etl_mapping Hfile Hmapping.
      destruct (Hunique etl_file Hfile) as [Hmaps _].
      erewrite usage_file_lookup;
        [|exact Hcompare|exact Hfiles|exact Hfile].
      cbn [get consolidated_mapping_of Consolidated.system_comparison
           Consolidated.has_system_data
           Consolidated.system_unused_columns_count].
      fold (map_name_of etl_mapping).
      rewrite usage_mapping_lookup by done. done.
  - cbn [fmap option_fmap option_map]. split.
    + apply consolidated_fieldwise.
      intros etl_file etl_mapping etl_field Hfile Hmapping Hfield.
      destruct Hsystem_written as [Hnone|Hnone].
      { rewrite Hnone in Hfile. by apply elem_of_nil in Hfile. }
      rewrite Hnone. done.
    + apply consolidated_mappingwise_intro.
      intros etl_file etl_mapping Hfile Hmapping.
      destruct Hsystem_written as [Hnone|Hnone].
      { rewrite Hnone in Hfile. by apply elem_of_nil in Hfile. }
      assert (system_map = []) as ->.
      { unfold system_map. rewrite load_system_metadata_value, Hnone. done. }
      done.
Qed.

Lemma one_field_etl_unique_keys : unique_keys one_field_etl.
Proof.
  split; [apply NoDup_singleton|].
  repeat constructor; apply not_elem_of_nil.
Defined.

Lemma X15_is_used_in_system_end_to_end_witness :
  let system_metadata_file :=
    Some [ {| Doc.tabela := Some (PyStr "tb_clients");
              Doc.colunas_nao_utilizadas :=
                Some (Doc.UnusedList [PyStr "Client_Id "]) |} ] in
  let system_map := FromSystem._load_system_metadata system_metadata_file in
  ∃ s3_written system_written out,
    S3Comparator.compare None (Some one_field_etl) = Ok s3_written
    ∧ SystemComparator.compare (Some one_field_etl) system_metadata_file
      = Ok system_written
    ∧ Consolidated.consolidate (Some one_field_etl) None s3_written
        (fst <$> system_written) = Ok (Some out)
    ∧ fieldwise (λ _ etl_mapping etl_field field,
        Consolidated.is_used_in_system field
        = match get system_metadata_file [] with
          | [] => false
          | _ :: _ =>
              negb (bool_decide
                      (normalized
                         (get (Doc.laborit etl_field) (PyStr EmptyString))
                       ∈ unused_set_of
                           (PyDict.lookup system_map
                              (get (Doc.table etl_mapping)
                                 (PyStr EmptyString)))))
          end)
      one_field_etl out
    ∧ consolidated_mappingwise (λ _ etl_mapping mapping,
        let system_data :=
          PyDict.lookup system_map
            (get (Doc.table etl_mapping) (PyStr EmptyString)) in
        Consolidated.has_system_data (Consolidated.system_comparison mapping)
        = bool_decide (is_Some system_data)
        ∧ Consolidated.system_unused_columns_count
            (Consolidated.system_comparison mapping)
          = size (unused_set_of system_data))
      one_field_etl out.
Proof.
  intros system_metadata_file.
  apply (X15_is_used_in_system_end_to_end None one_field_etl
           system_metadata_file).
  - exact one_field_etl_names_are_str.
  - exact one_field_etl_unique_keys.
Defined.

Lemma count_none_used fields :
  Forall (λ field, Consolidated.is_used_in_system field = false) fields →
  length (filter (λ f, Consolidated.is_used_in_system f = true) fields) = 0.
Proof.
  induction 1 as [|field fields Hfield _ IH]; [done|].
  rewrite filter_cons, decide_False; [done|]. by rewrite Hfield.
Qed.

(** X16: [consolidated_metadata_service.py], [consolidate] lines 88-109
    and 150-211: when the usage comparison is missing or lists no
    file, every consolidated field has [is_used_in_system] false, every
    mapping has [used_in_system_count] 0, [unused_in_system_count] equal to
    [total_fields], [has_system_data] false and
    [system_unused_columns_count] 0.  (The usage comparator, for a table
    without usage record, flags every field as used.) *)
Theorem X16_no_usage_comparison etl_metadata s3_metadata_file
    s3_comparison_file system_comparison_file :
  from_option SystemComparator.files [] system_comparison_file = [] →
  etl_names_are_str etl_metadata →
  s3_names_are_str s3_comparison_file →
  ∃ out,
    Consolidated.consolidate (Some etl_metadata) s3_metadata_file
      s3_comparison_file system_comparison_file = Ok (Some out)
    ∧ consolidated_mappingwise (λ _ _ mapping,
        Forall (λ field, Consolidated.is_used_in_system field = false)
          (Consolidated.fields mapping)
        ∧ Consolidated.used_in_system_count (Consolidated.statistics mapping)
          = 0
        ∧ Consolidated.unused_in_system_count
            (Consolidated.statistics mapping)
          = Consolidated.total_fields (Consolidated.statistics mapping)
        ∧ Consolidated.has_system_data
            (Consolidated.system_comparison mapping) = false
        ∧ Consolidated.system_unused_columns_count
            (Consolidated.system_comparison mapping) = 0)
      etl_metadata out.
Proof.
  intros Hnone Hetl Hs3. eexists. split.
  { apply consolidate_value; [done| |done].
    unfold system_names_are_str. rewrite Hnone. constructor. }
  apply consolidated_mappingwise_intro. intros etl_file etl_mapping _ _.
  unfold system_comparison_map_of. rewrite Hnone.
  cbn [PyDict.comprehension foldl PyDict.lookup get consolidated_mapping_of
       Consolidated.fields Consolidated.statistics
       Consolidated.system_comparison Consolidated.used_in_system_count
       Consolidated.unused_in_system_count Consolidated.total_fields
       Consolidated.has_system_data Consolidated.system_unused_columns_count
       from_option].
  set (fields := consolidated_field_of _ _ <$> Doc.fields etl_mapping).
  assert (Forall (λ field, Consolidated.is_used_in_system field = false)
            fields) as Hunused.
  { apply Forall_fmap, Forall_forall. by intros etl_field _. }
  split; [exact Hunused|]. rewrite (count_none_used _ Hunused).
  split; [done|]. split; [lia|done].
Qed.

Lemma X16_no_usage_comparison_witness :
  ∃ out,
    Consolidated.consolidate (Some one_field_etl) None None None
      = Ok (Some out)
    ∧ Forall (λ file,
        Forall (λ mapping,
          Consolidated.used_in_system_count (Consolidated.statistics mapping)
          = 0
          ∧ Consolidated.has_system_data
              (Consolidated.system_comparison mapping) = false)
          (Consolidated.mappings file))
        (Consolidated.files out).
Proof.
  destruct (X16_no_usage_comparison one_field_etl None None None)
    as (out & Hout & Hall).
  - reflexivity.
  - exact one_field_etl_names_are_str.
  - constructor.
  - exists out. split; [exact Hout|].
    unfold consolidated_mappingwise in Hall.
    induction Hall as [|etl_file file etl_files files Hfile _ IH];
      constructor; [|exact IH].
    clear IH. induction Hfile as [|etl_mapping mapping ? ? Hm _ IH];
      constructor; [|exact IH].
    destruct Hm as (_ & Hcount & _ & Hdata & _). split; [exact Hcount|exact Hdata].
Defined.

(** ** Strings: reversal, stripping, lower-casing *)

Lemma append_cons (c : ascii) (s1 s2 : string) :
  String c s1 +:+ s2 = String c (s1 +:+ s2).
Proof. reflexivity. Qed.

Lemma append_nil_r (s : string) : s +:+ EmptyString = s.
Proof. induction s as [|c s IH]; [done|]. by rewrite append_cons, IH. Qed.

Lemma append_assoc (s1 s2 s3 : string) :
  (s1 +:+ s2) +:+ s3 = s1 +:+ (s2 +:+ s3).
Proof.
  induction s1 as [|c s1 IH]; [done|]. by rewrite !append_cons, IH.
Qed.

Lemma rev_app_append (s1 s2 s3 : string) :
  String.rev_app s1 s2 +:+ s3 = String.rev_app s1 (s2 +:+ s3).
Proof.
  revert s2. induction s1 as [|c s1 IH]; intros s2; [done|].
  cbn [String.rev_app]. by rewrite IH.
Qed.

Lemma rev_cons (c : ascii) (s : string) :
  String.rev (String c s) = String.rev s +:+ String c EmptyString.
Proof. unfold String.rev. cbn [String.rev_app]. by rewrite rev_app_append. Qed.

Lemma rev_append (s1 s2 : string) :
  String.rev (s1 +:+ s2) = String.rev s2 +:+ String.rev s1.
Proof.
  induction s1 as [|c s1 IH].
  - change (EmptyString +:+ s2) with s2.
    change (String.rev EmptyString) with EmptyString.
    by rewrite append_nil_r.
  - by rewrite append_cons, !rev_cons, IH, append_assoc.
Qed.

Lemma rev_involutive (s : string) : String.rev (String.rev s) = s.
Proof.
  induction s as [|c s IH]; [done|].
  by rewrite rev_cons, rev_append, IH.
Qed.

Lemma lstrip_no_leading_space (s : string) : no_leading_space (str_lstrip s).
Proof.
  induction s as [|c s IH]; [done|]. cbn [str_lstrip].
  by destruct (is_space c) eqn:Hc.
Qed.

Lemma lstrip_fixed (s : string) : no_leading_space s → str_lstrip s = s.
Proof. destruct s as [|c s]; [done|]. cbn. by intros ->. Qed.

Lemma lstrip_snoc (s : string) (c : ascii) :
  is_space c = false →
  str_lstrip (s +:+ String c EmptyString)
  = str_lstrip s +:+ String c EmptyString.
Proof.
  intros Hc. induction s as [|d s IH].
  - change (EmptyString +:+ String c EmptyString)
      with (String c EmptyString).
    cbn [str_lstrip]. by rewrite Hc.
  - rewrite append_cons. cbn [str_lstrip]. by destruct (is_space d).
Qed.

Lemma rstrip_keeps_head (s : string) :
  no_leading_space s →
  no_leading_space (String.rev (str_lstrip (String.rev s))).
Proof.
  destruct s as [|c s]; [done|]. cbn [no_leading_space]. intros Hc.
  by rewrite rev_cons, lstrip_snoc, rev_append by done.
Qed.

Lemma strip_no_space_at_ends (s : string) :
  no_leading_space (str_strip s)
  ∧ no_leading_space (String.rev (str_strip s)).
Proof.
  unfold str_strip. split.
  - apply rstrip_keeps_head, lstrip_no_leading_space.
  - rewrite rev_involutive. apply lstrip_no_leading_space.
Qed.

Lemma strip_fixed (s : string) :
  no_leading_space s → no_leading_space (String.rev s) → str_strip s = s.
Proof.
  intros Hhead Htail. unfold str_strip.
  by rewrite (lstrip_fixed s), (lstrip_fixed (String.rev s)), rev_involutive.
Qed.

Lemma strip_idempotent (s : string) : str_strip (str_strip s) = str_strip s.
Proof. apply strip_fixed; apply strip_no_space_at_ends. Qed.

Lemma lower_char_idempotent (c : ascii) :
  lower_char (lower_char c) = lower_char c.
Proof. by destruct c as [[] [] [] [] [] [] [] []]. Qed.

Lemma is_space_lower_char (c : ascii) : is_space (lower_char c) = is_space c.
Proof. by destruct c as [[] [] [] [] [] [] [] []]. Qed.

Lemma lower_idempotent (s : string) : str_lower (str_lower s) = str_lower s.
Proof.
  induction s as [|c s IH]; [done|].
  cbn [str_lower]. by rewrite lower_char_idempotent, IH.
Qed.

Lemma lower_append (s1 s2 : string) :
  str_lower (s1 +:+ s2) = str_lower s1 +:+ str_lower s2.
Proof.
  induction s1 as [|c s1 IH]; [done|].
  rewrite append_cons. cbn [str_lower]. by rewrite IH, append_cons.
Qed.

Lemma lower_rev (s : string) : str_lower (String.rev s) = String.rev (str_lower s).
Proof.
  induction s as [|c s IH]; [done|].
  cbn [str_lower]. by rewrite !rev_cons, lower_append, IH.
Qed.

Lemma lower_lstrip (s : string) :
  str_lower (str_lstrip s) = str_lstrip (str_lower s).
Proof.
  induction s as [|c s IH]; [done|].
  cbn [str_lower str_lstrip]. rewrite is_space_lower_char.
  by destruct (is_space c).
Qed.

Lemma lower_strip (s : string) :
  str_lower (str_strip s) = str_strip (str_lower s).
Proof.
  unfold str_strip. by rewrite lower_rev, lower_lstrip, lower_rev, lower_lstrip.
Qed.

Lemma normalized_idempotent v : normalized (PyStr (normalized v)) = normalized v.
Proof.
  destruct v as [|s]; [done|]. cbn [normalized].
  by rewrite lower_strip, lower_idempotent, strip_idempotent.
Qed.

Lemma is_ascii_append (s1 s2 : string) :
  is_ascii (s1 +:+ s2) = is_ascii s1 && is_ascii s2.
Proof.
  induction s1 as [|c s1 IH]; [done|].
  rewrite append_cons. cbn [is_ascii]. by rewrite IH, andb_assoc.
Qed.

Lemma is_ascii_rev (s : string) : is_ascii (String.rev s) = is_ascii s.
Proof.
  induction s as [|c s IH]; [done|].
  rewrite rev_cons, is_ascii_append, IH. cbn [is_ascii].
  rewrite andb_true_r. apply andb_comm.
Qed.

Lemma is_ascii_lstrip (s : string) :
  is_ascii s = true → is_ascii (str_lstrip s) = true.
Proof.
  induction s as [|c s IH]; [done|]. cbn [str_lstrip is_ascii].
  intros [Hc Hs]%andb_true_iff. destruct (is_space c); [by apply IH|].
  cbn [is_ascii]. by rewrite Hc, Hs.
Qed.

Lemma is_ascii_lower_char (c : ascii) :
  (nat_of_ascii (lower_char c) <? 128)%nat = (nat_of_ascii c <? 128)%nat.
Proof. by destruct c as [[] [] [] [] [] [] [] []]. Qed.

Lemma is_ascii_lower (s : string) : is_ascii (str_lower s) = is_ascii s.
Proof.
  induction s as [|c s IH]; [done|].
  cbn [str_lower is_ascii]. by rewrite is_ascii_lower_char, IH.
Qed.

Lemma is_ascii_normalized (s : string) :
  is_ascii s = true → is_ascii (normalized (PyStr s)) = true.
Proof.
  intros Hs. cbn [normalized]. unfold str_strip.
  rewrite is_ascii_rev. apply is_ascii_lstrip.
  rewrite is_ascii_rev. apply is_ascii_lstrip.
  by rewrite is_ascii_lower.
Qed.

(** X17: [normalize_column_name] of the two comparators and
    [_normalize_name] of the usage reader and of the consolidator, on ASCII
    text ([text.isascii()]), where [lower()] changes the letters A-Z only
    and [strip()] removes the ASCII whitespace only: the four agree; the
    normalized name is ASCII text again, has no whitespace at either end,
    and lower-casing leaves it unchanged; and normalizing it again gives it
    back, so such a name read from a persisted artifact compares equal
    whether it was stored raw or normalized. *)
Theorem X17_normalization_idempotent (s : string) :
  is_ascii s = true →
  ∃ name,
    S3Comparator.normalize_column_name (PyStr s) = Ok name
    ∧ SystemComparator.normalize_column_name (PyStr s) = Ok name
    ∧ FromSystem._normalize_name (PyStr s) = Ok name
    ∧ Consolidated._normalize_name (PyStr s) = Ok name
    ∧ is_ascii name = true
    ∧ S3Comparator.normalize_column_name (PyStr name) = Ok name
    ∧ SystemComparator.normalize_column_name (PyStr name) = Ok name
    ∧ FromSystem._normalize_name (PyStr name) = Ok name
    ∧ Consolidated._normalize_name (PyStr name) = Ok name
    ∧ no_leading_space name
    ∧ no_leading_space (String.rev name)
    ∧ str_lower name = name.
Proof.
  intros Hascii. exists (normalized (PyStr s)).
  pose proof (normalized_idempotent (PyStr s)) as Hidem.
  split; [done|]. split; [apply system_normalize|].
  split; [done|]. split; [done|].
  split; [by apply is_ascii_normalized|].
  split; [by rewrite s3_normalize_str, Hidem|].
  split; [by rewrite system_normalize, Hidem|].
  split; [by rewrite from_system_normalize_str, Hidem|].
  split; [by rewrite consolidated_normalize_str, Hidem|].
  cbn [normalized]. split; [apply strip_no_space_at_ends|].
  split; [apply strip_no_space_at_ends|].
  by rewrite lower_strip, lower_idempotent.
Qed.

Lemma X17_normalization_idempotent_witness :
  ∃ name,
    S3Comparator.normalize_column_name (PyStr "  Client_ID ") = Ok name
    ∧ SystemComparator.normalize_column_name (PyStr "  Client_ID ") = Ok name
    ∧ FromSystem._normalize_name (PyStr "  Client_ID ") = Ok name
    ∧ Consolidated._normalize_name (PyStr "  Client_ID ") = Ok name
    ∧ is_ascii name = true
    ∧ S3Comparator.normalize_column_name (PyStr name) = Ok name
    ∧ SystemComparator.normalize_column_name (PyStr name) = Ok name
    ∧ FromSystem._normalize_name (PyStr name) = Ok name
    ∧ Consolidated._normalize_name (PyStr name) = Ok name
    ∧ no_leading_space name
    ∧ no_leading_space (String.rev name)
    ∧ str_lower name = name.
Proof.
  apply (X17_normalization_idempotent "  Client_ID "). reflexivity.
Defined.

(** ** The wiki text *)

Lemma count_chars_append (p : ascii → bool) (s1 s2 : string) :
  count_chars p (s1 +:+ s2) = count_chars p s1 + count_chars p s2.
Proof.
  induction s1 as [|c s1 IH]; [done|].
  rewrite append_cons. cbn [count_chars]. rewrite IH. lia.
Qed.

Lemma string_length_append (s1 s2 : string) :
  String.length (s1 +:+ s2) = String.length s1 + String.length s2.
Proof.
  induction s1 as [|c s1 IH]; [done|].
  rewrite append_cons. cbn [String.length]. by rewrite IH.
Qed.

Lemma replace_char_append old new (s1 s2 : string) :
  Documentation.replace_char old new (s1 +:+ s2)
  = Documentation.replace_char old new s1
    +:+ Documentation.replace_char old new s2.
Proof.
  induction s1 as [|c s1 IH]; [done|].
  rewrite append_cons. cbn [Documentation.replace_char].
  case_decide; by rewrite IH, ?append_assoc, ?append_cons.
Qed.

Lemma escape_one_char (c : ascii) :
  Documentation._escape_wiki (PyStr (String c EmptyString)) = escape_char c.
Proof. by destruct c as [[] [] [] [] [] [] [] []]. Qed.

Lemma escape_wiki_single_pass (text : string) :
  Documentation._escape_wiki (PyStr text) = escape_all text.
Proof.
  induction text as [|c text IH]; [done|].
  cbn [escape_all]. rewrite <- IH, <- escape_one_char.
  change (String c text) with (String c EmptyString +:+ text).
  unfold Documentation._escape_wiki. by rewrite !replace_char_append.
Qed.

Lemma escape_char_no_newline (c : ascii) :
  count_chars is_newline (escape_char c) = 0.
Proof. by destruct c as [[] [] [] [] [] [] [] []]. Qed.

Lemma escape_char_length (c : ascii) :
  String.length (escape_char c) = 1 + (if is_markup c then 1 else 0).
Proof. by destruct c as [[] [] [] [] [] [] [] []]. Qed.

Lemma guarded_escape_char (c : ascii) (rest : string) (after_backslash : bool) :
  (∀ b, guarded b rest = true) →
  guarded after_backslash (escape_char c +:+ rest) = true.
Proof.
  intros Hrest. unfold escape_char.
  destruct (decide (c = "|"%char)) as [->|H1].
  { rewrite !append_cons. cbn. apply Hrest. }
  destruct (decide (c = "{"%char)) as [->|H2].
  { rewrite !append_cons. cbn. apply Hrest. }
  destruct (decide (c = "}"%char)) as [->|H3].
  { rewrite !append_cons. cbn. apply Hrest. }
  destruct (decide (c = Documentation.newline)) as [->|H4].
  { rewrite !append_cons. cbn. apply Hrest. }
  rewrite append_cons. cbn [guarded]. unfold is_markup.
  rewrite bool_decide_eq_false_2 by tauto. apply Hrest.
Qed.

Lemma guarded_escape_all (text : string) (after_backslash : bool) :
  guarded after_backslash (escape_all text) = true.
Proof.
  revert after_backslash. induction text as [|c text IH]; [done|].
  intros after_backslash. cbn [escape_all]. by apply guarded_escape_char.
Qed.

Lemma escape_all_no_newline (text : string) :
  count_chars is_newline (escape_all text) = 0.
Proof.
  induction text as [|c text IH]; [done|].
  cbn [escape_all]. by rewrite count_chars_append, escape_char_no_newline, IH.
Qed.

Lemma escape_all_length (text : string) :
  String.length (escape_all text)
  = String.length text + count_chars is_markup text.
Proof.
  induction text as [|c text IH]; [done|].
  cbn [escape_all String.length count_chars].
  rewrite string_length_append, escape_char_length, IH.
  destruct (is_markup c); lia.
Qed.

Lemma escape_wiki_no_newline (text : pyval) :
  count_chars is_newline (Documentation._escape_wiki text) = 0.
Proof.
  destruct text as [|text]; [done|].
  rewrite escape_wiki_single_pass. apply escape_all_no_newline.
Qed.

(** X18: [documentation_service.py], [_escape_wiki] lines 25-36: the escaped
    text has no line feed; each [|], [{] and [}] in it comes right after a
    backslash; its length is the length of the text plus one for each [|],
    [{] and [}] of the text (a backslash of the text is copied as it is);
    [None] gives the empty text. *)
Theorem X18_escape_wiki (text : pyval) :
  guarded false (Documentation._escape_wiki text) = true
  ∧ count_chars is_newline (Documentation._escape_wiki text) = 0
  ∧ String.length (Documentation._escape_wiki text)
    = match text with
      | PyNone => 0
      | PyStr text => String.length text + count_chars is_markup text
      end.
Proof.
  destruct text as [|text]; [done|]. rewrite escape_wiki_single_pass.
  split; [apply guarded_escape_all|].
  split; [apply escape_all_no_newline|apply escape_all_length].
Qed.

Lemma prefix_refl (s : string) : String.prefix s s = true.
Proof.
  induction s as [|c s IH]; [done|]. cbn [String.prefix].
  by destruct (Ascii.ascii_dec c c).
Qed.

Lemma prefix_append (s1 s2 : string) : String.prefix s1 (s1 +:+ s2) = true.
Proof.
  induction s1 as [|c s1 IH]; [by destruct s2|].
  rewrite append_cons. cbn [String.prefix].
  by destruct (Ascii.ascii_dec c c).
Qed.

Lemma table_row_no_newline has_s3_data field :
  count_chars is_newline (Documentation.table_row has_s3_data field) = 0.
Proof.
  unfold Documentation.table_row.
  assert (∀ field_value,
    count_chars is_newline (Documentation._escape_wiki field_value) = 0)
    as Hescape by (intros field_value; apply escape_wiki_no_newline).
  assert (∀ value,
    count_chars is_newline (Documentation._format_boolean value) = 0)
    as Hbool by (by intros []).
  destruct has_s3_data;
    rewrite !count_chars_append, !Hescape, !Hbool; reflexivity.
Qed.

Lemma join_newlines (lines : list string) :
  Forall (λ line, count_chars is_newline line = 0) lines →
  count_chars is_newline
    (Documentation.join (String Documentation.newline EmptyString) lines)
  = pred (length lines).
Proof.
  induction 1 as [|line lines Hline Hlines IH]; [done|].
  destruct lines as [|line' lines]; [done|].
  cbn [Documentation.join] in *.
  rewrite !count_chars_append, Hline, IH. reflexivity.
Qed.

(** X19: [documentation_service.py], [_json_to_wiki_table_main] lines
    42-81: without fields the result is the sentence [No fields found.];
    otherwise it is the header line — with the [exists_in_s3] column only
    when [has_s3_data] — followed by exactly one line per field: the text
    has as many line feeds as there are fields, whatever the field values
    contain. *)
Theorem X19_wiki_table_one_line_per_field
    (fields : list Consolidated.ConsolidatedField) (has_s3_data : bool) :
  let table := Documentation._json_to_wiki_table_main fields has_s3_data in
  let header :=
    if has_s3_data
    then "||from_santander||type||laborit||exists_in_s3||is_used_in_system||"
    else "||from_santander||type||laborit||is_used_in_system||" in
  match fields with
  | [] => table = "No fields found."
  | field :: _ =>
      count_chars is_newline table = length fields
      ∧ ∃ rows,
          table
          = header +:+ String Documentation.newline EmptyString +:+ rows
          ∧ String.prefix
              (Documentation.table_row has_s3_data field) rows = true
  end.
Proof.
  destruct fields as [|field fields]; [done|]. cbn zeta. split.
  - unfold Documentation._json_to_wiki_table_main.
    rewrite join_newlines.
    + cbn [length pred]. by rewrite length_fmap.
    + constructor; [by destruct has_s3_data|].
      apply Forall_fmap, Forall_forall. intros f _.
      apply table_row_no_newline.
  - unfold Documentation._json_to_wiki_table_main. rewrite fmap_cons.
    cbn [Documentation.join]. eexists. split; [reflexivity|].
    destruct (Documentation.table_row has_s3_data <$> fields) as [|row rows].
    + cbn [Documentation.join]. apply prefix_refl.
    + apply prefix_append.
Qed.

(** ** The CSV rows *)

(** Every row dict has the same eighteen keys. *)
Lemma build_rows_keys files :
  Forall (λ row : list (string * CsvExport.cell),
            list_to_set row.*1 =@{gset string} list_to_set csv_columns)
    (CsvExport.build_rows files).
Proof.
  apply Forall_forall. intros row Hrow. unfold CsvExport.build_rows in Hrow.
  apply list_elem_of_bind in Hrow as (file_data & Hrow & _).
  apply list_elem_of_bind in Hrow as (mapping & Hrow & _).
  unfold CsvExport.mapping_rows in Hrow.
  apply list_elem_of_bind in Hrow as (field & Hrow & _).
  apply list_elem_of_singleton in Hrow as ->.
  cbn [fmap list_fmap fst]. apply set_eq. intros k.
  rewrite !elem_of_list_to_set. unfold csv_columns.
  rewrite !elem_of_cons. rewrite !elem_of_nil. tauto.
Qed.

Lemma all_keys_loop (rows : list (list (string * CsvExport.cell)))
    (all_keys columns : gset string) :
  Forall (λ row : list (string * CsvExport.cell),
            list_to_set row.*1 = columns) rows →
  rows ≠ [] →
  foldl (λ all_keys row, all_keys ∪ list_to_set row.*1) all_keys rows
  = all_keys ∪ columns.
Proof.
  intros Hrows. revert all_keys.
  induction Hrows as [|row rows Hrow Hrows IH]; [done|].
  intros all_keys _. cbn [foldl]. rewrite Hrow.
  destruct rows as [|row' rows]; [done|].
  rewrite IH by done. set_solver.
Qed.

Lemma csv_fieldnames :
  sorted (elements (∅ ∪ list_to_set csv_columns : gset string)) = csv_columns.
Proof. vm_compute. reflexivity. Qed.

Lemma build_rows_length files :
  length (CsvExport.build_rows files)
  = length (consolidated_fields {| Consolidated.files := files |}).
Proof.
  unfold CsvExport.build_rows, consolidated_fields. cbn [Consolidated.files].
  induction files as [|file_data files IH]; [done|].
  rewrite !bind_cons, !length_app, IH. f_equal. clear IH.
  induction (Consolidated.mappings file_data) as [|mapping mappings IH];
    [done|].
  rewrite !bind_cons, !length_app, IH. f_equal. clear IH.
  unfold CsvExport.mapping_rows.
  induction (Consolidated.fields mapping) as [|field fields IH]; [done|].
  rewrite bind_cons, length_app, IH. done.
Qed.

(** The [from_santander], [laborit] and [is_used_in_system] cells of the
    normalized rows. *)
Lemma build_rows_cells files :
  (λ row : list (string * CsvExport.cell),
     ((λ key, CsvExport.normalize_value
                (get (PyDict.lookup row key) (CsvExport.CStr EmptyString)))
        <$> ["from_santander"; "laborit"; "exists_in_s3";
             "is_used_in_system"]))
    <$> CsvExport.build_rows files
  = (λ field,
       [ CsvExport.normalize_value
           (CsvExport.of_pyval (Consolidated.from_santander field));
         CsvExport.normalize_value
           (CsvExport.of_pyval (Consolidated.laborit field));
         (if Consolidated.exists_in_s3 field then "true" else "false");
         (if Consolidated.is_used_in_system field then "true" else "false") ])
      <$> consolidated_fields {| Consolidated.files := files |}.
Proof.
  unfold CsvExport.build_rows, consolidated_fields. cbn [Consolidated.files].
  induction files as [|file_data files IH]; [done|].
  rewrite !bind_cons, !fmap_app, IH. f_equal. clear IH.
  induction (Consolidated.mappings file_data) as [|mapping mappings IH];
    [done|].
  rewrite !bind_cons, !fmap_app, IH. f_equal. clear IH.
  unfold CsvExport.mapping_rows.
  induction (Consolidated.fields mapping) as [|field fields IH]; [done|].
  rewrite bind_cons, fmap_app, fmap_cons, IH. done.
Qed.

(** X20: [chama_consolidated_to_csv.py], [main] lines 43-156: the script
    exits with status 1 exactly when the consolidated document is missing,
    cannot be loaded or has no field at all, or when writing the CSV file
    raises; otherwise it writes the eighteen columns in alphabetical order
    and one row of eighteen cells per consolidated field, in document order,
    with the source name and the [laborit] name copied ([null] as the empty
    cell) and the two flags written [true] / [false]. *)
Theorem X20_csv_one_row_per_field
    (json_file : CsvExport.json_source) (write_raises : bool) :
  let fields :=
    match json_file with
    | CsvExport.Loaded json_data => consolidated_fields json_data
    | CsvExport.NotFound | CsvExport.LoadError => []
    end in
  match CsvExport.main json_file write_raises with
  | CsvExport.Exit code =>
      code = 1 ∧ (fields = [] ∨ write_raises = true)
  | CsvExport.Written fieldnames rows =>
      fields ≠ [] ∧ write_raises = false
      ∧ fieldnames = csv_columns
      ∧ length rows = length fields
      ∧ Forall (λ row, length row = 18) rows
      ∧ (λ row, [ row !!! 6; row !!! 10; row !!! 0; row !!! 9 ]) <$> rows
        = (λ field,
             [ CsvExport.normalize_value
                 (CsvExport.of_pyval (Consolidated.from_santander field));
               CsvExport.normalize_value
                 (CsvExport.of_pyval (Consolidated.laborit field));
               (if Consolidated.exists_in_s3 field then "true" else "false");
               (if Consolidated.is_used_in_system field
                then "true" else "false") ])
            <$> fields
  end.
Proof.
  destruct json_file as [| |[files]]; [by split; [|left]..|].
  unfold CsvExport.main. cbn [Consolidated.files]. cbn zeta.
  destruct files as [|file_data files]; [by split; [|left]|].
  pose proof (build_rows_length (file_data :: files)) as Hlength.
  pose proof (build_rows_cells (file_data :: files)) as Hcells.
  pose proof (build_rows_keys (file_data :: files)) as Hkeys.
  destruct (CsvExport.build_rows (file_data :: files)) as [|row rows] eqn:Hrows.
  { split; [done|]. left. symmetry in Hlength. by apply nil_length_inv. }
  destruct write_raises; [by split; [|right]|].
  rewrite (all_keys_loop _ _ (list_to_set csv_columns) Hkeys) by done.
  rewrite csv_fieldnames.
  split. { intros Hnil. by rewrite Hnil in Hlength. }
  split; [done|]. split; [done|]. split; [by rewrite length_fmap|]. split.
  - apply Forall_fmap, Forall_forall. by intros r _.
  - rewrite <- Hcells, <- list_fmap_compose. done.
Qed.
